(** * A shallow embedding of the terminal emulator (parser.go and the Screen)

    The Go sources are translated function by function.  Go's [int] is a
    64-bit two's complement integer: cursor arithmetic is written with its
    wrap-around.  A run-time panic (index or slice out of range, division
    by zero) is an outcome of its own, and so is a loop that has not
    finished within the fuel it was given. *)

From Stdlib Require Import ZArith Lia Bool.
From Stdlib Require Import Strings.Byte Strings.String.
From stdpp Require Import base option list gmap.

Local Open Scope Z_scope.

(** ** Outcomes of a Go computation *)

Inductive res (A : Type) : Type :=
  | Ok (a : A)
  | Panic
  | OutOfFuel.
Arguments Ok {A} a.
Arguments Panic {A}.
Arguments OutOfFuel {A}.

#[global] Instance res_ret : MRet res := fun _ a => Ok a.
#[global] Instance res_bind : MBind res := fun _ _ f m =>
  match m with
  | Ok a => f a
  | Panic => Panic
  | OutOfFuel => OutOfFuel
  end.

Definition is_Ok {A} (r : res A) : bool :=
  match r with Ok _ => true | _ => false end.

(** ** Go's [int] on a 64-bit platform *)

Module GoInt.

Definition min_int : Z := - 2 ^ 63.
Definition max_int : Z := 2 ^ 63 - 1.

(** Two's complement wrap-around of a mathematical integer. *)
Definition wrap (z : Z) : Z := (z + 2 ^ 63) mod 2 ^ 64 - 2 ^ 63.

Definition add (a b : Z) : Z := wrap (a + b).
Definition sub (a b : Z) : Z := wrap (a - b).

(** [a % b]: the remainder of the truncated division; panics on [b = 0]. *)
Definition rem (a b : Z) : res Z :=
  if b =? 0 then Panic else Ok (Z.rem a b).

(** [rune(i)]: conversion of an [int] to an [int32]. *)
Definition to_rune (z : Z) : Z := (z + 2 ^ 31) mod 2 ^ 32 - 2 ^ 31.

End GoInt.

(** ** Bytes, strings and slices *)

Abbreviation byte := Byte.byte.

(** A Go [string] and a Go [[]byte] are both sequences of bytes. *)
Abbreviation gostring := (list byte).

Definition b2z (b : byte) : Z := Z.of_N (Byte.to_N b).

#[global] Instance byte_eq_dec : EqDecision byte := Byte.byte_eq_dec.
#[global] Instance byte_countable : Countable byte :=
  inj_countable Byte.to_N Byte.of_N Byte.of_to_N.

Definition bytes (s : string) : list byte := list_byte_of_string s.

Definition len {A} (l : list A) : Z := Z.of_nat (length l).

(** [l[a:b]]: panics unless [0 <= a <= b <= len(l)]. *)
Definition slice {A} (l : list A) (a b : Z) : res (list A) :=
  if (0 <=? a) && (a <=? b) && (b <=? len l)
  then Ok (take (Z.to_nat (b - a)) (drop (Z.to_nat a) l))
  else Panic.

(** [l[i]] as a read: panics unless [0 <= i < len(l)]. *)
Definition index {A} (l : list A) (i : Z) : res A :=
  if (0 <=? i) && (i <? len l)
  then match l !! Z.to_nat i with Some a => Ok a | None => Panic end
  else Panic.

(** [l[i] = a] as a write: panics unless [0 <= i < len(l)]. *)
Definition set_index {A} (l : list A) (i : Z) (a : A) : res (list A) :=
  if (0 <=? i) && (i <? len l)
  then Ok (<[Z.to_nat i := a]> l)
  else Panic.

Definition bytes_eqb (s t : gostring) : bool := bool_decide (s = t).

(** ** unicode/utf8 and unicode *)

Module utf8.

Definition RuneError : Z := 0xFFFD.

(** The table [first]: information about the first byte of an encoding.
    [0xF0] is ASCII, [0xF1] is an invalid first byte; otherwise the low
    three bits are the size and the high four bits index [acceptRanges]. *)
Definition first (p0 : Z) : Z :=
  if p0 <? 0x80 then 0xF0
  else if p0 <? 0xC2 then 0xF1
  else if p0 <? 0xE0 then 0x02
  else if p0 =? 0xE0 then 0x13
  else if p0 <? 0xED then 0x03
  else if p0 =? 0xED then 0x23
  else if p0 <? 0xF0 then 0x03
  else if p0 =? 0xF0 then 0x34
  else if p0 <? 0xF4 then 0x04
  else if p0 =? 0xF4 then 0x44
  else 0xF1.

(** [acceptRanges]: the range of a valid second byte. *)
Definition acceptRanges (i : Z) : Z * Z :=
  if i =? 0 then (0x80, 0xBF)
  else if i =? 1 then (0xA0, 0xBF)
  else if i =? 2 then (0x80, 0x9F)
  else if i =? 3 then (0x90, 0xBF)
  else if i =? 4 then (0x80, 0x8F)
  else (0, 0).

Definition locb : Z := 0x80.
Definition hicb : Z := 0xBF.
Definition maskx : Z := 0x3F.
Definition mask2 : Z := 0x1F.
Definition mask3 : Z := 0x0F.
Definition mask4 : Z := 0x07.

Definition at_ (p : list byte) (i : nat) : Z := b2z (nth i p Byte.x00).

(** [utf8.DecodeRune]: the first rune of [p] and its width in bytes;
    [(RuneError, 0)] on an empty [p], [(RuneError, 1)] on an encoding that
    is invalid or cut short. *)
Definition DecodeRune (p : list byte) : Z * Z :=
  let n := len p in
  if n <? 1 then (RuneError, 0)
  else
    let p0 := at_ p 0 in
    let x := first p0 in
    if 0xF0 <=? x then
      (if x =? 0xF0 then p0 else RuneError, 1)
    else
      let sz := Z.land x 7 in
      let accept := acceptRanges (Z.shiftr x 4) in
      if n <? sz then (RuneError, 1)
      else
        let b1 := at_ p 1 in
        if (b1 <? fst accept) || (snd accept <? b1) then (RuneError, 1)
        else if sz <=? 2 then
          (Z.lor (Z.shiftl (Z.land p0 mask2) 6) (Z.land b1 maskx), 2)
        else
          let b2 := at_ p 2 in
          if (b2 <? locb) || (hicb <? b2) then (RuneError, 1)
          else if sz <=? 3 then
            (Z.lor (Z.lor (Z.shiftl (Z.land p0 mask3) 12)
                          (Z.shiftl (Z.land b1 maskx) 6))
                   (Z.land b2 maskx), 3)
          else
            let b3 := at_ p 3 in
            if (b3 <? locb) || (hicb <? b3) then (RuneError, 1)
            else
              (Z.lor (Z.lor (Z.lor (Z.shiftl (Z.land p0 mask4) 18)
                                   (Z.shiftl (Z.land b1 maskx) 12))
                            (Z.shiftl (Z.land b2 maskx) 6))
                     (Z.land b3 maskx), 4).

(** [utf8.RuneLen] of an ASCII rune. *)
Definition RuneLen_ascii : Z := 1.

End utf8.

Module unicode.

(** [unicode.ToUpper].  The parser only compares the result with ASCII
    characters, so the mapping is written out where the result is ASCII:
    the ASCII letters, and the two other runes whose upper case is an ASCII
    letter (U+0131 dotless i and U+017F long s).  Every other rune is
    mapped to a rune outside ASCII (here: itself). *)
Definition ToUpper (r : Z) : Z :=
  if (0x61 <=? r) && (r <=? 0x7A) then r - 0x20
  else if r =? 0x131 then 0x49
  else if r =? 0x17F then 0x53
  else r.

End unicode.

(** ** strconv *)

Module strconv.

Definition digit (b : byte) : option Z :=
  let c := b2z b in
  if (0x30 <=? c) && (c <=? 0x39) then Some (c - 0x30) else None.

Fixpoint digits (acc : Z) (s : gostring) : option Z :=
  match s with
  | [] => Some acc
  | b :: t =>
      match digit b with
      | Some d => digits (acc * 10 + d) t
      | None => None
      end
  end.

(** [strconv.Atoi]: an optional sign and decimal digits; [None] stands for
    a non-nil error (empty input, a character that is not a digit, or a
    value outside the range of [int]). *)
Definition Atoi (s : gostring) : option Z :=
  match s with
  | [] => None
  | b :: t =>
      let neg := bool_decide (b = "-"%byte) in
      let ds := if neg || bool_decide (b = "+"%byte) then t else s in
      match ds with
      | [] => None
      | _ =>
          match digits 0 ds with
          | None => None
          | Some n =>
              let v := if neg then - n else n in
              if (GoInt.min_int <=? v) && (v <=? GoInt.max_int)
              then Some v else None
          end
      end
  end.

End strconv.

(** ** The collaborators of the core

    The style value, the embedded elements, the line renderers, the two
    payload parsers and [Screen.clear] are not part of the two source
    files: the core uses them through the interface below. *)

Class Types := {
  style : Type;
  element : Type;
}.

Section Model.
Context `{T : Types}.

(** *** Cells, lines and the screen (part_000) *)

Record node := Node {
  blob : Z;
  nstyle : style;
}.

Record screenLine := ScreenLine {
  nodes : list node;
  (* metadata is { namespace => { key => value, ... }, ... }; [None] is nil *)
  metadata : option (gmap gostring (gmap gostring gostring));
  (* element nodes refer to elements in this slice by index *)
  elements : list element;
  (* URL targets of OSC 8 links by X position; [None] is nil *)
  hyperlinks : option (gmap Z gostring);
}.

Record Screen := MkScreen {
  (* Current cursor position on the screen *)
  x : Z;
  y : Z;
  (* Screen contents *)
  screen : list screenLine;
  (* Current style *)
  sstyle : style;
  urlBrush : gostring;
  maxLines : Z;
  maxColumns : Z;
  cols : Z;
  lines : Z;
  (* Whether ScrollOutFunc is not nil, and the arguments of its calls so
     far, oldest first *)
  ScrollOutFunc : bool;
  scrollOutCalls : list gostring;
  (* Processing statistics *)
  LinesScrolledOut : Z;
  CursorUpOOB : Z;
  CursorDownOOB : Z;
  CursorFwdOOB : Z;
  CursorBackOOB : Z;
}.

Definition set_x (v : Z) (s : Screen) : Screen :=
  MkScreen v (y s) (screen s) (sstyle s) (urlBrush s) (maxLines s)
    (maxColumns s) (cols s) (lines s) (ScrollOutFunc s) (scrollOutCalls s)
    (LinesScrolledOut s) (CursorUpOOB s) (CursorDownOOB s) (CursorFwdOOB s)
    (CursorBackOOB s).

Definition set_y (v : Z) (s : Screen) : Screen :=
  MkScreen (x s) v (screen s) (sstyle s) (urlBrush s) (maxLines s)
    (maxColumns s) (cols s) (lines s) (ScrollOutFunc s) (scrollOutCalls s)
    (LinesScrolledOut s) (CursorUpOOB s) (CursorDownOOB s) (CursorFwdOOB s)
    (CursorBackOOB s).

Definition set_screen (v : list screenLine) (s : Screen) : Screen :=
  MkScreen (x s) (y s) v (sstyle s) (urlBrush s) (maxLines s)
    (maxColumns s) (cols s) (lines s) (ScrollOutFunc s) (scrollOutCalls s)
    (LinesScrolledOut s) (CursorUpOOB s) (CursorDownOOB s) (CursorFwdOOB s)
    (CursorBackOOB s).

Definition set_style (v : style) (s : Screen) : Screen :=
  MkScreen (x s) (y s) (screen s) v (urlBrush s) (maxLines s)
    (maxColumns s) (cols s) (lines s) (ScrollOutFunc s) (scrollOutCalls s)
    (LinesScrolledOut s) (CursorUpOOB s) (CursorDownOOB s) (CursorFwdOOB s)
    (CursorBackOOB s).

(** A call [s.ScrollOutFunc(html)]. *)
Definition call_ScrollOutFunc (html : gostring) (s : Screen) : Screen :=
  MkScreen (x s) (y s) (screen s) (sstyle s) (urlBrush s) (maxLines s)
    (maxColumns s) (cols s) (lines s) (ScrollOutFunc s)
    (scrollOutCalls s ++ [html])
    (LinesScrolledOut s) (CursorUpOOB s) (CursorDownOOB s) (CursorFwdOOB s)
    (CursorBackOOB s).

Definition set_LinesScrolledOut (v : Z) (s : Screen) : Screen :=
  MkScreen (x s) (y s) (screen s) (sstyle s) (urlBrush s) (maxLines s)
    (maxColumns s) (cols s) (lines s) (ScrollOutFunc s) (scrollOutCalls s)
    v (CursorUpOOB s) (CursorDownOOB s) (CursorFwdOOB s) (CursorBackOOB s).

Definition set_CursorUpOOB (v : Z) (s : Screen) : Screen :=
  MkScreen (x s) (y s) (screen s) (sstyle s) (urlBrush s) (maxLines s)
    (maxColumns s) (cols s) (lines s) (ScrollOutFunc s) (scrollOutCalls s)
    (LinesScrolledOut s) v (CursorDownOOB s) (CursorFwdOOB s)
    (CursorBackOOB s).

Definition set_CursorDownOOB (v : Z) (s : Screen) : Screen :=
  MkScreen (x s) (y s) (screen s) (sstyle s) (urlBrush s) (maxLines s)
    (maxColumns s) (cols s) (lines s) (ScrollOutFunc s) (scrollOutCalls s)
    (LinesScrolledOut s) (CursorUpOOB s) v (CursorFwdOOB s)
    (CursorBackOOB s).

Definition set_CursorFwdOOB (v : Z) (s : Screen) : Screen :=
  MkScreen (x s) (y s) (screen s) (sstyle s) (urlBrush s) (maxLines s)
    (maxColumns s) (cols s) (lines s) (ScrollOutFunc s) (scrollOutCalls s)
    (LinesScrolledOut s) (CursorUpOOB s) (CursorDownOOB s) v
    (CursorBackOOB s).

Definition set_CursorBackOOB (v : Z) (s : Screen) : Screen :=
  MkScreen (x s) (y s) (screen s) (sstyle s) (urlBrush s) (maxLines s)
    (maxColumns s) (cols s) (lines s) (ScrollOutFunc s) (scrollOutCalls s)
    (LinesScrolledOut s) (CursorUpOOB s) (CursorDownOOB s) (CursorFwdOOB s)
    v.

Definition set_nodes (v : list node) (l : screenLine) : screenLine :=
  ScreenLine v (metadata l) (elements l) (hyperlinks l).

(** The error values of the payload parsers carry a message. *)
Definition error := gostring.

Class Env := {
  (* style.color: the update of a style by SGR parameters *)
  style_color : style -> list gostring -> style;
  style_hyperlink : style -> bool;
  style_setElement : style -> bool -> style;
  (* the zero value of style, the style of a new Screen *)
  style_zero : style;
  emptyNode : node;
  (* element.elementType == ELEMENT_LINK *)
  element_is_link : element -> bool;
  (* parseElementSequence: the element and the error, each possibly nil *)
  parseElementSequence : gostring -> option element * option error;
  (* parser.parseBuildkiteAPC, which reads and writes p.lastTimestamp *)
  parseBuildkiteAPC :
    Z -> gostring -> option (gmap gostring gostring) * option error * Z;
  bkNamespace : gostring;
  asHTML : screenLine -> gostring;
  asPlain : screenLine -> gostring;
  (* Screen.clear(y, xStart, xEnd), called by the parser only *)
  Screen_clear : Screen -> Z -> Z -> Z -> res Screen;
}.

Context `{E : Env}.

Definition screenStartOfLine : Z := 0.
Definition screenEndOfLine : Z := GoInt.max_int.

(** ansiInt parses s as a decimal integer. If s is empty or malformed, it
    returns 1. *)
Definition ansiInt (s : gostring) : Z :=
  match s with
  | [] => 1
  | _ => match strconv.Atoi s with
         | None => 1
         | Some i => i
         end
  end.

(** Move the cursor up, if we can *)
Definition up (i : gostring) (s : Screen) : res Screen :=
  let s := set_y (GoInt.sub (y s) (ansiInt i)) s in
  let s := if y s <? 0
           then set_y 0 (set_CursorUpOOB (CursorUpOOB s + 1) s)
           else s in
  x' ← GoInt.rem (x s) (cols s);
  Ok (set_x x' s).

(** Move the cursor down, if we can *)
Definition down (i : gostring) (s : Screen) : res Screen :=
  let s := set_y (GoInt.add (y s) (ansiInt i)) s in
  let s := if lines s <=? y s
           then set_y (GoInt.sub (lines s) 1)
                      (set_CursorDownOOB (CursorDownOOB s + 1) s)
           else s in
  x' ← GoInt.rem (x s) (cols s);
  Ok (set_x x' s).

(** Move the cursor forward (right) on the line, if we can *)
Definition forward (i : gostring) (s : Screen) : Screen :=
  let s := set_x (GoInt.add (x s) (ansiInt i)) s in
  if cols s <=? x s
  then set_x (GoInt.sub (cols s) 1)
             (set_CursorFwdOOB (CursorFwdOOB s + 1) s)
  else s.

(** Move the cursor backward (left), if we can *)
Definition backward (i : gostring) (s : Screen) : Screen :=
  let s := set_x (GoInt.sub (x s) (ansiInt i)) s in
  if x s <? 0
  then set_x 0 (set_CursorBackOOB (CursorBackOOB s + 1) s)
  else s.

(** top returns the index within s.screen where the window begins. *)
Definition top (s : Screen) : Z :=
  Z.max 0 (GoInt.sub (len (screen s)) (lines s)).

(** currentLine returns the line the cursor is on (here: its index in
    s.screen), or nil if no such line has been added to the buffer yet. *)
Definition currentLine (s : Screen) : option Z :=
  let yidx := GoInt.add (top s) (y s) in
  if (yidx <? 0) || (len (screen s) <=? yidx) then None else Some yidx.

Definition newScreenLine (ns : list node) : screenLine :=
  ScreenLine ns None [] None.

(** The body of the first loop of currentLineForWriting: a line is added
    to the buffer, or the buffer is rotated when maxLines is reached. *)
Definition allocStep (s : Screen) : res Screen :=
  (* If maxLines is not in use, or adding a new line would not make it
     larger than maxLines, then just allocate a new line. *)
  if (maxLines s <=? 0) || (len (screen s) + 1 <=? maxLines s) then
    let s := set_screen (screen s ++ [newScreenLine []]) s in
    Ok (if lines s <=? y s then set_y (GoInt.sub (y s) 1) s else s)
  else
    (* Pass the line being scrolled out to scrollOutFunc, if not nil. *)
    line0 ← index (screen s) 0;
    let s := if ScrollOutFunc s
             then call_ScrollOutFunc (asHTML line0) s else s in
    let s := set_LinesScrolledOut (LinesScrolledOut s + 1) s in
    (* Trim the first line off the top of the screen.
       Recycle its nodes slice to make a new line on the bottom. *)
    recycled ← slice (nodes line0) 0 0;
    rest ← slice (screen s) 1 (len (screen s));
    let s := set_screen (rest ++ [newScreenLine recycled]) s in
    Ok (set_y (GoInt.sub (y s) 1) s).

(** The first loop of currentLineForWriting,
    [for s.currentLine() == nil { ... }]. *)
Fixpoint allocLines (fuel : nat) (s : Screen) : res Screen :=
  match currentLine s with
  | Some _ => Ok s
  | None =>
      match fuel with
      | O => OutOfFuel
      | S fuel' => s ← allocStep s; allocLines fuel' s
      end
  end.

(** The second loop of currentLineForWriting: columns are added while the
    line is shorter than the cursor's x position. *)
Definition padNodes (ns : list node) (x : Z) : list node :=
  ns ++ replicate (Z.to_nat (x + 1 - len ns)) emptyNode.

(** currentLineForWriting returns the line the cursor is on (its index),
    allocating lines and columns as needed. *)
Definition currentLineForWriting (fuel : nat) (s : Screen)
  : res (Screen * Z) :=
  s ← allocLines fuel s;
  match currentLine s with
  | None => Panic (* a nil line is dereferenced *)
  | Some yidx =>
      line ← index (screen s) yidx;
      let line := set_nodes (padNodes (nodes line) (x s)) line in
      scr ← set_index (screen s) yidx line;
      Ok (set_screen scr s, yidx)
  end.

Definition set_hyperlinks (v : option (gmap Z gostring)) (l : screenLine)
  : screenLine :=
  ScreenLine (nodes l) (metadata l) (elements l) v.

Definition set_elements (v : list element) (l : screenLine) : screenLine :=
  ScreenLine (nodes l) (metadata l) v (hyperlinks l).

Definition set_metadata
    (v : option (gmap gostring (gmap gostring gostring))) (l : screenLine)
  : screenLine :=
  ScreenLine (nodes l) v (elements l) (hyperlinks l).

(** Write a character to the screen's current X&Y, along with the current
    screen style *)
Definition write (fuel : nat) (data : Z) (s : Screen) : res Screen :=
  '(s, yidx) ← currentLineForWriting fuel s;
  line ← index (screen s) yidx;
  ns ← set_index (nodes line) (x s) (Node data (sstyle s));
  let line := set_nodes ns line in
  (* OSC 8 links work like a style. *)
  let line :=
    if style_hyperlink (sstyle s)
    then set_hyperlinks
           (Some (<[x s := urlBrush s]> (default ∅ (hyperlinks line)))) line
    else line in
  scr ← set_index (screen s) yidx line;
  Ok (set_screen scr s).

(** Append a character to the screen *)
Definition append (fuel : nat) (data : Z) (s : Screen) : res Screen :=
  s ← write fuel data s;
  Ok (set_x (GoInt.add (x s) 1) s).

(** Append multiple characters to the screen *)
Fixpoint appendMany (fuel : nat) (data : list Z) (s : Screen) : res Screen :=
  match data with
  | [] => Ok s
  | char :: data => s ← append fuel char s; appendMany fuel data s
  end.

Definition appendElement (fuel : nat) (i : element) (s : Screen)
  : res Screen :=
  '(s, yidx) ← currentLineForWriting fuel s;
  line ← index (screen s) yidx;
  let idx := len (elements line) in
  let line := set_elements (elements line ++ [i]) line in
  let ns := style_setElement (sstyle s) true in
  cells ← set_index (nodes line) (x s) (Node (GoInt.to_rune idx) ns);
  let line := set_nodes cells line in
  scr ← set_index (screen s) yidx line;
  let s := set_screen scr s in
  Ok (set_x (GoInt.add (x s) 1) s).

(** Set line metadata. Merges the provided data into any existing metadata
    for the current line, overwriting data when keys collide. *)
Definition setLineMetadata (fuel : nat) (namespace : gostring)
    (data : gmap gostring gostring) (s : Screen) : res Screen :=
  '(s, yidx) ← currentLineForWriting fuel s;
  line ← index (screen s) yidx;
  let md :=
    match metadata line with
    | None => {[ namespace := data ]}
    | Some md =>
        match md !! namespace with
        | None => <[ namespace := data ]> md
        | Some ns => <[ namespace := data ∪ ns ]> md
        end
    end in
  scr ← set_index (screen s) yidx (set_metadata (Some md) line);
  Ok (set_screen scr s).

(** Apply color instruction codes to the screen's current style *)
Definition color (i : list gostring) (s : Screen) : Screen :=
  set_style (style_color (sstyle s) i) s.

Definition newLine (s : Screen) : Screen :=
  set_y (GoInt.add (y s) 1) (set_x 0 s).

Definition revNewLine (s : Screen) : Screen :=
  if 0 <? y s then set_y (GoInt.sub (y s) 1) s else s.

Definition carriageReturn (s : Screen) : Screen := set_x 0 s.

Definition backspace (s : Screen) : Screen :=
  if 0 <? x s then set_x (GoInt.sub (x s) 1) s else s.

(** *** Methods of a line.  [clearAll] and [clear] are written for a line
    that exists; [at_line] below applies them through a pointer that may
    be nil, where they return at once. *)

Definition clearAll (l : screenLine) : res screenLine :=
  ns ← slice (nodes l) 0 0;
  Ok (set_nodes ns l).

(** [for i := xStart; i <= xEnd; i++ { l.nodes[i] = emptyNode }], for
    [n] iterations from [i] on. *)
Fixpoint clearCells (n : nat) (i : Z) (ns : list node) : res (list node) :=
  match n with
  | O => Ok ns
  | S n' => ns ← set_index ns i emptyNode; clearCells n' (i + 1) ns
  end.

(** clear clears part (or all) of a line. The range to clear is inclusive
    of xStart and xEnd. *)
Definition clear (xStart xEnd : Z) (l : screenLine) : res screenLine :=
  let xStart := if xStart <? 0 then 0 else xStart in
  if xEnd <? xStart then Ok l (* Not a valid range. *)
  else if len (nodes l) <=? xStart then Ok l
  else if len (nodes l) - 1 <=? xEnd then
    (* Clear from start to end of the line *)
    ns ← slice (nodes l) 0 xStart;
    Ok (set_nodes ns l)
  else
    ns ← clearCells (Z.to_nat (xEnd - xStart + 1)) xStart (nodes l);
    Ok (set_nodes ns l).

(** A method [f] of a line called through the pointer [ptr]. *)
Definition at_line (ptr : option Z) (f : screenLine -> res screenLine)
    (s : Screen) : res Screen :=
  match ptr with
  | None => Ok s
  | Some yidx =>
      line ← index (screen s) yidx;
      line ← f line;
      scr ← set_index (screen s) yidx line;
      Ok (set_screen scr s)
  end.

(** [for i := top; i < end; i++ { s.screen[i].clearAll() }], for [n]
    iterations from [i] on. *)
Fixpoint clearLines (n : nat) (i : Z) (s : Screen) : res Screen :=
  match n with
  | O => Ok s
  | S n' => s ← at_line (Some i) clearAll s; clearLines n' (i + 1) s
  end.

(** Instructions not supplied default to the empty string. *)
Definition inst (instructions : list gostring) (i : Z) : gostring :=
  if (i <? 0) || (len instructions <=? i) then []
  else default [] (instructions !! Z.to_nat i).

Definition HasPrefix_question (s : gostring) : bool :=
  match s with
  | b :: _ => bool_decide (b = "?"%byte)
  | [] => false
  end.

Definition is_str (s : gostring) (lit : string) : bool :=
  bytes_eqb s (bytes lit).

Definition rune_of (c : byte) : Z := b2z c.

(** Apply an escape sequence to the screen *)
Definition applyEscape (code : Z) (instructions : list gostring)
    (s : Screen) : res Screen :=
  let inst := inst instructions in
  if HasPrefix_question (inst 0) then Ok s
  else if code =? rune_of "A" then up (inst 0) s
  else if code =? rune_of "B" then down (inst 0) s
  else if code =? rune_of "C" then Ok (forward (inst 0) s)
  else if code =? rune_of "D" then Ok (backward (inst 0) s)
  else if code =? rune_of "E" then down (inst 0) (set_x 0 s)
  else if code =? rune_of "F" then up (inst 0) (set_x 0 s)
  else if code =? rune_of "G" then
    let s := set_x (GoInt.sub (ansiInt (inst 0)) 1) s in
    let s := set_x (Z.max (x s) 0) s in
    Ok (set_x (Z.min (x s) (GoInt.sub (cols s) 1)) s)
  else if code =? rune_of "H" then
    let s := set_y (GoInt.sub (ansiInt (inst 0)) 1) s in
    let s := set_y (Z.max (y s) 0) s in
    let s := set_y (Z.min (y s) (GoInt.sub (lines s) 1)) s in
    let s := set_x (GoInt.sub (ansiInt (inst 1)) 1) s in
    let s := set_x (Z.max (x s) 0) s in
    Ok (set_x (Z.min (x s) (GoInt.sub (cols s) 1)) s)
  else if code =? rune_of "J" then
    if is_str (inst 0) "0" || is_str (inst 0) "" then
      s ← at_line (currentLine s) (clear (x s) screenEndOfLine) s;
      let yidx := GoInt.add (top s) (y s) in
      if (yidx <? 0) || (len (screen s) <=? yidx) then Ok s
      else
        scr ← slice (screen s) 0 (GoInt.add yidx 1);
        Ok (set_screen scr s)
    else if is_str (inst 0) "1" then
      s ← at_line (currentLine s) (clear screenStartOfLine (x s)) s;
      let top := top s in
      let end_ := Z.min (GoInt.add top (y s)) (len (screen s)) in
      clearLines (Z.to_nat (end_ - top)) top s
    else if is_str (inst 0) "2" then
      scr ← slice (screen s) 0 (top s);
      Ok (set_y 0 (set_x 0 (set_screen scr s)))
    else if is_str (inst 0) "3" then
      scr ← slice (screen s) 0 0;
      Ok (set_y 0 (set_x 0 (set_screen scr s)))
    else Ok s
  else if code =? rune_of "K" then
    if is_str (inst 0) "0" || is_str (inst 0) "" then
      at_line (currentLine s) (clear (x s) screenEndOfLine) s
    else if is_str (inst 0) "1" then
      at_line (currentLine s) (clear screenStartOfLine (x s)) s
    else if is_str (inst 0) "2" then
      at_line (currentLine s) clearAll s
    else Ok s
  else if code =? rune_of "M" then Ok (color instructions s)
  else Ok s.

(** AsHTML returns the contents of the current screen buffer as HTML. *)
Definition Join (l : list gostring) (sep : gostring) : gostring :=
  match l with
  | [] => []
  | h :: t => h ++ concat (map (fun e => sep ++ e) t)
  end.

Definition AsHTML (s : Screen) : gostring :=
  Join (map asHTML (screen s)) (bytes (String (Ascii.ascii_of_nat 10) "")).

(** AsPlainText renders the screen without any ANSI style etc. *)
Definition AsPlainText (s : Screen) : gostring :=
  Join (map asPlain (screen s)) (bytes (String (Ascii.ascii_of_nat 10) "")).

(** *** Construction *)

(** SetSize changes the window size; [None] is a non-nil error. *)
Definition SetSize (cols' lines' : Z) (s : Screen) : option Screen :=
  if (cols' <=? 0) || (lines' <=? 0) then None
  else if (0 <? maxColumns s) && (maxColumns s <? cols') then None
  else if (0 <? maxLines s) && (maxLines s <? lines') then None
  else Some (MkScreen (x s) (y s) (screen s) (sstyle s) (urlBrush s)
               (maxLines s) (maxColumns s) cols' lines' (ScrollOutFunc s)
               (scrollOutCalls s) (LinesScrolledOut s) (CursorUpOOB s)
               (CursorDownOOB s) (CursorFwdOOB s) (CursorBackOOB s)).

Definition ScreenOption := Screen -> option Screen.

(** WithSize sets the initial window size. *)
Definition WithSize (w h : Z) : ScreenOption := SetSize w h.

(** WithMaxSize sets the screen size limits. *)
Definition WithMaxSize (maxCols maxLines' : Z) : ScreenOption := fun s =>
  Some (MkScreen (x s) (y s) (screen s) (sstyle s) (urlBrush s)
          maxLines' maxCols
          (if 0 <? maxCols then Z.min (cols s) maxCols else cols s)
          (if 0 <? maxLines' then Z.min (lines s) maxLines' else lines s)
          (ScrollOutFunc s) (scrollOutCalls s) (LinesScrolledOut s)
          (CursorUpOOB s) (CursorDownOOB s) (CursorFwdOOB s)
          (CursorBackOOB s)).

(** The assignment [s.ScrollOutFunc = f] of a callback that is not nil. *)
Definition WithScrollOutFunc : ScreenOption := fun s =>
  Some (MkScreen (x s) (y s) (screen s) (sstyle s) (urlBrush s)
          (maxLines s) (maxColumns s) (cols s) (lines s) true
          (scrollOutCalls s) (LinesScrolledOut s) (CursorUpOOB s)
          (CursorDownOOB s) (CursorFwdOOB s) (CursorBackOOB s)).

Definition zeroScreen : Screen :=
  MkScreen 0 0 [] style_zero [] 0 0 160 100 false [] 0 0 0 0 0.

Fixpoint applyOptions (opts : list ScreenOption) (s : Screen)
  : option Screen :=
  match opts with
  | [] => Some s
  | o :: opts => match o s with
                 | Some s => applyOptions opts s
                 | None => None
                 end
  end.

(** *** The parser (parser.go) *)

Inductive parserMode : Set :=
  | parserModeNormal
  | parserModeEscape
  | parserModeControl
  | parserModeOSC
  | parserModeOSCEsc (* within OSC and just read an escape *)
  | parserModeCharset
  | parserModeAPC
  | parserModeAPCEsc (* within APC and just read an escape *).

Record position := Position {
  pos_x : Z;
  pos_y : Z;
}.

(** Stateful ANSI parser.  The Screen and its parser point to each other:
    the state of the pair is a [parser] whose field [scr] is the Screen. *)
Record parser := MkParser {
  scr : Screen;
  buffer : list byte;
  mode : parserMode;
  cursor : Z;
  escapeStartedAt : Z;
  instructions : list gostring;
  instructionStartedAt : Z;
  savePosition : position;
  (* Buildkite-specific state *)
  lastTimestamp : Z;
}.

Definition set_scr (v : Screen) (p : parser) : parser :=
  MkParser v (buffer p) (mode p) (cursor p) (escapeStartedAt p)
    (instructions p) (instructionStartedAt p) (savePosition p)
    (lastTimestamp p).

Definition set_buffer (v : list byte) (p : parser) : parser :=
  MkParser (scr p) v (mode p) (cursor p) (escapeStartedAt p)
    (instructions p) (instructionStartedAt p) (savePosition p)
    (lastTimestamp p).

Definition set_mode (v : parserMode) (p : parser) : parser :=
  MkParser (scr p) (buffer p) v (cursor p) (escapeStartedAt p)
    (instructions p) (instructionStartedAt p) (savePosition p)
    (lastTimestamp p).

Definition set_cursor (v : Z) (p : parser) : parser :=
  MkParser (scr p) (buffer p) (mode p) v (escapeStartedAt p)
    (instructions p) (instructionStartedAt p) (savePosition p)
    (lastTimestamp p).

Definition set_escapeStartedAt (v : Z) (p : parser) : parser :=
  MkParser (scr p) (buffer p) (mode p) (cursor p) v
    (instructions p) (instructionStartedAt p) (savePosition p)
    (lastTimestamp p).

Definition set_instructions (v : list gostring) (p : parser) : parser :=
  MkParser (scr p) (buffer p) (mode p) (cursor p) (escapeStartedAt p)
    v (instructionStartedAt p) (savePosition p) (lastTimestamp p).

Definition set_instructionStartedAt (v : Z) (p : parser) : parser :=
  MkParser (scr p) (buffer p) (mode p) (cursor p) (escapeStartedAt p)
    (instructions p) v (savePosition p) (lastTimestamp p).

Definition set_savePosition (v : position) (p : parser) : parser :=
  MkParser (scr p) (buffer p) (mode p) (cursor p) (escapeStartedAt p)
    (instructions p) (instructionStartedAt p) v (lastTimestamp p).

Definition set_lastTimestamp (v : Z) (p : parser) : parser :=
  MkParser (scr p) (buffer p) (mode p) (cursor p) (escapeStartedAt p)
    (instructions p) (instructionStartedAt p) (savePosition p) v.

(** [[]rune(s)]: the runes of a string, one [RuneError] for each byte that
    starts no valid encoding. *)
Fixpoint runes_aux (n : nat) (s : gostring) : list Z :=
  match n with
  | O => []
  | S n' =>
      match s with
      | [] => []
      | _ =>
          let '(r, size) := utf8.DecodeRune s in
          r :: runes_aux n' (drop (Z.to_nat size) s)
      end
  end.

Definition runes (s : gostring) : list Z := runes_aux (length s) s.

(** handleCharset is called for each character consumed while in
    MODE_CHARSET.  It ignores the character and transitions back to
    MODE_NORMAL. *)
Definition handleCharset (char : Z) (p : parser) : parser :=
  set_mode parserModeNormal p.

(** processOperatingSystemCommand processes the contents of the OSC that
    was just read. *)
Definition processOperatingSystemCommand (fuel : nat) (end_ : Z)
    (p : parser) : res parser :=
  let p := set_mode parserModeNormal p in
  payload ← slice (buffer p) (instructionStartedAt p) end_;
  let '(image, err) := parseElementSequence payload in
  match image, err with
  | None, None => Ok p (* No image & no error, nothing to render *)
  | _, _ =>
      let ownLine :=
        match image with
        | None => true
        | Some im => negb (element_is_link im)
        end in
      let s := scr p in
      s ← (if ownLine then
             (* Images (or the error encountered) should appear on their
                own line *)
             let s := if negb (x s =? 0) then newLine s else s in
             Screen_clear s (y s) screenStartOfLine screenEndOfLine
           else Ok s);
      s ← match err, image with
          | Some e, _ =>
              s ← appendMany fuel
                    (runes (bytes
                       "*** Error parsing custom element escape sequence: "))
                    s;
              appendMany fuel (runes e) s
          | None, Some im => appendElement fuel im s
          | None, None => Ok s
          end;
      let s := if ownLine then newLine s else s in
      Ok (set_scr s p)
  end.

(** handleOSCEscape is called for the character after an ESC when reading
    an OSC.  It either returns to OSC mode, or terminates the OSC and
    processes it. *)
Definition handleOSCEscape (fuel : nat) (char : Z) (p : parser)
  : res parser :=
  if char =? rune_of "\" then
    (* Don't include the ESC in the OSC contents. *)
    processOperatingSystemCommand fuel (cursor p - 1) p
  else Ok (set_mode parserModeOSC p).

(** handleOperatingSystemCommand is called for each character consumed
    while in MODE_OSC. *)
Definition handleOperatingSystemCommand (fuel : nat) (char : Z) (p : parser)
  : res parser :=
  if char =? 0x07 then processOperatingSystemCommand fuel (cursor p) p
  else if char =? 0x1b then Ok (set_mode parserModeOSCEsc p)
  else Ok p.

(** processApplicationProgramCommand process the contents of the APC that
    was just read. *)
Definition processApplicationProgramCommand (fuel : nat) (end_ : Z)
    (p : parser) : res parser :=
  let p := set_mode parserModeNormal p in
  sequence ← slice (buffer p) (instructionStartedAt p) end_;
  (* this might be a Buildkite Application Program Command sequence... *)
  let '(data, err, ts) := parseBuildkiteAPC (lastTimestamp p) sequence in
  let p := set_lastTimestamp ts p in
  match err with
  | Some e =>
      s ← appendMany fuel
            (runes (bytes
               "*** Error parsing Buildkite APC ANSI escape sequence: "))
            (scr p);
      s ← appendMany fuel (runes e) s;
      Ok (set_scr s p)
  | None =>
      match data with
      | None => Ok p
      | Some data =>
          s ← setLineMetadata fuel bkNamespace data (scr p);
          Ok (set_scr s p)
      end
  end.

(** handleAPCEscape is called for the character after an ESC when reading
    an APC. *)
Definition handleAPCEscape (fuel : nat) (char : Z) (p : parser)
  : res parser :=
  if char =? rune_of "\" then
    processApplicationProgramCommand fuel (cursor p - 1) p
  else Ok (set_mode parserModeAPC p).

(** handleApplicationProgramCommand is called for each character consumed
    while in MODE_APC. *)
Definition handleApplicationProgramCommand (fuel : nat) (char : Z)
    (p : parser) : res parser :=
  if char =? 0x07 then processApplicationProgramCommand fuel (cursor p) p
  else if char =? 0x1b then Ok (set_mode parserModeAPCEsc p)
  else Ok p.

(** addInstruction appends an instruction to p.instructions, if the
    current instruction is nonempty. *)
Definition addInstruction (p : parser) : res parser :=
  instruction ← slice (buffer p) (instructionStartedAt p) (cursor p);
  match instruction with
  | [] => Ok p
  | _ => Ok (set_instructions (instructions p ++ [instruction]) p)
  end.

Definition rune_in (char : Z) (set : string) : bool :=
  existsb (fun c => char =? b2z c) (bytes set).

(** handleControlSequence is called for each character consumed while in
    MODE_CONTROL. *)
Definition handleControlSequence (char : Z) (p : parser) : res parser :=
  let char := unicode.ToUpper char in
  if rune_in char "?0123456789" then
    Ok p (* Part of an instruction *)
  else if char =? rune_of ";" then
    p ← addInstruction p;
    Ok (set_instructionStartedAt (cursor p + utf8.RuneLen_ascii) p)
  else if rune_in char "ABCDEFGJKMQ" then
    p ← addInstruction p;
    s ← applyEscape char (instructions p) (scr p);
    Ok (set_mode parserModeNormal (set_scr s p))
  else if rune_in char "HL" then
    (* Set/reset mode (SM/RM), ignore and continue *)
    Ok (set_mode parserModeNormal p)
  else
    (* unrecognized character, abort the escapeCode *)
    Ok (set_mode parserModeNormal (set_cursor (escapeStartedAt p) p)).

(** handleNormal is called for each character consumed while in
    MODE_NORMAL. *)
Definition handleNormal (fuel : nat) (char : Z) (p : parser) : res parser :=
  if char =? 0x0A then Ok (set_scr (newLine (scr p)) p)
  else if char =? 0x0D then Ok (set_scr (carriageReturn (scr p)) p)
  else if char =? 0x08 then Ok (set_scr (backspace (scr p)) p)
  else if char =? 0x1b then
    Ok (set_mode parserModeEscape (set_escapeStartedAt (cursor p) p))
  else
    s ← append fuel char (scr p);
    Ok (set_scr s p).

(** handleEscape is called for each character consumed while in
    MODE_ESCAPE. *)
Definition handleEscape (char : Z) (p : parser) : parser :=
  if char =? rune_of "[" then
    set_mode parserModeControl
      (set_instructions []
         (set_instructionStartedAt (cursor p + utf8.RuneLen_ascii) p))
  else if char =? rune_of "]" then
    set_mode parserModeOSC
      (set_instructionStartedAt (cursor p + utf8.RuneLen_ascii) p)
  else if (char =? rune_of ")") || (char =? rune_of "(") then
    set_mode parserModeCharset
      (set_instructionStartedAt (cursor p + utf8.RuneLen_ascii) p)
  else if char =? rune_of "_" then
    set_mode parserModeAPC
      (set_instructionStartedAt (cursor p + utf8.RuneLen_ascii) p)
  else if char =? rune_of "M" then
    set_mode parserModeNormal (set_scr (revNewLine (scr p)) p)
  else if char =? rune_of "7" then
    set_mode parserModeNormal
      (set_savePosition (Position (x (scr p)) (y (scr p))) p)
  else if char =? rune_of "8" then
    set_mode parserModeNormal
      (set_scr (set_y (pos_y (savePosition p))
                  (set_x (pos_x (savePosition p)) (scr p))) p)
  else
    (* Not an escape code, false alarm *)
    set_mode parserModeNormal (set_cursor (escapeStartedAt p) p).

(** One iteration of the loop of parseToScreen: a rune is decoded at the
    cursor and handled in the current mode, then the cursor moves on by
    the width of the rune. *)
Definition parseStep (fuel : nat) (p : parser) : res parser :=
  rest ← slice (buffer p) (cursor p) (len (buffer p));
  let '(char, charLen) := utf8.DecodeRune rest in
  p ← match mode p with
      | parserModeEscape => Ok (handleEscape char p)
      | parserModeControl => handleControlSequence char p
      | parserModeOSC => handleOperatingSystemCommand fuel char p
      | parserModeOSCEsc => handleOSCEscape fuel char p
      | parserModeCharset => Ok (handleCharset char p)
      | parserModeAPC => handleApplicationProgramCommand fuel char p
      | parserModeAPCEsc => handleAPCEscape fuel char p
      | parserModeNormal => handleNormal fuel char p
      end;
  Ok (set_cursor (cursor p + charLen) p).

(** [for p.cursor < len(p.buffer) { ... }] *)
Fixpoint parseLoop (n fuel : nat) (p : parser) : res parser :=
  if cursor p <? len (buffer p) then
    match n with
    | O => OutOfFuel
    | S n' => p ← parseStep fuel p; parseLoop n' fuel p
    end
  else Ok p.

(** Drop the completed portion of the buffer. *)
Definition dropDone (p : parser) : res parser :=
  let done :=
    match mode p with
    | parserModeNormal => cursor p
    | _ => escapeStartedAt p
    end in
  buf ← slice (buffer p) done (len (buffer p));
  Ok (MkParser (scr p) buf (mode p) (cursor p - done)
        (escapeStartedAt p - done) (instructions p)
        (instructionStartedAt p - done) (savePosition p) (lastTimestamp p)).

Definition parseToScreen (fuel : nat) (input : list byte) (p : parser)
  : res parser :=
  let p := if len (buffer p) =? 0
           then set_buffer input p
           else set_buffer (buffer p ++ input) p in
  p ← parseLoop fuel fuel p;
  dropDone p.

(** Write writes ANSI text to the screen.  The result is the new state,
    [n] and the error ([None] is nil); [fuel] bounds the iterations of
    each loop. *)
Definition Write (fuel : nat) (input : list byte) (p : parser)
  : res (parser * Z * option error) :=
  p ← parseToScreen fuel input p;
  Ok (p, len input, None).

(** NewScreen creates a new screen with various options. *)
Definition NewScreen (opts : list ScreenOption) : option parser :=
  match applyOptions opts zeroScreen with
  | Some s =>
      Some (MkParser s [] parserModeNormal 0 0 [] 0 (Position 0 0) 0)
  | None => None
  end.

End Model.

(** ** A plain instance of the interface

    Used to run the model on concrete inputs.  The style records the SGR
    parameter lists applied so far; the payload parsers find nothing to
    render, so sequences without OSC or APC payloads do not depend on
    them. *)

Record plainStyle := PlainStyle {
  sgr : list (list gostring);
  elementBit : bool;
}.

#[global] Instance plainTypes : Types := {|
  style := plainStyle;
  element := gostring;
|}.

Definition plain_of_nodes (ns : list node) : gostring :=
  map (fun n => default "?"%byte (Byte.of_N (Z.to_N (blob n)))) ns.

#[global] Instance plainEnv : Env := {|
  style_color := fun st i => PlainStyle (sgr st ++ [i]) (elementBit st);
  style_hyperlink := fun _ => false;
  style_setElement := fun st b => PlainStyle (sgr st) b;
  style_zero := PlainStyle [] false;
  emptyNode := Node 0x20 (PlainStyle [] false);
  element_is_link := fun _ => false;
  parseElementSequence := fun _ => (None, None);
  parseBuildkiteAPC := fun ts _ => (None, None, ts);
  bkNamespace := bytes "bk";
  asHTML := fun l => plain_of_nodes (nodes l);
  asPlain := fun l => plain_of_nodes (nodes l);
  Screen_clear := fun s _ _ _ => Ok s;
|}.

(** A new screen with the default size, and the observations used in the
    examples: the glyphs of each line and the cursor. *)
Definition freshScreen : parser :=
  MkParser zeroScreen [] parserModeNormal 0 0 [] 0 (Position 0 0) 0.

Definition glyphs `{T : Types} (s : Screen) : list (list Z) :=
  map (fun l => map blob (nodes l)) (screen s).

Definition cursorXY `{T : Types} (s : Screen) : Z * Z := (x s, y s).

Definition ESC : byte := "027"%byte.

(** What the examples observe of the outcome of a Write: the glyphs of
    each line and the cursor. *)
Definition observe `{T : Types}
    (r : res (parser * Z * option error))
  : res (list (list Z) * (Z * Z)) :=
  '(p, _, _) ← r; Ok (glyphs (scr p), cursorXY (scr p)).

(** Two writes in a row. *)
Definition Write2 `{T : Types} `{E : !Env} (fuel : nat)
    (i1 i2 : list byte) (p : parser) : res (parser * Z * option error) :=
  '(p, _, _) ← Write fuel i1 p; Write fuel i2 p.

(** What the examples observe of a cursor motion: the cursor, the window
    size (cols, lines) and the four counters. *)
Definition observe_motion `{T : Types}
    (r : res (parser * Z * option error))
  : res ((Z * Z) * (Z * Z) * (Z * Z * Z * Z)) :=
  '(p, _, _) ← r;
  Ok (cursorXY (scr p), (cols (scr p), lines (scr p)),
      (CursorUpOOB (scr p), CursorDownOOB (scr p),
       CursorFwdOOB (scr p), CursorBackOOB (scr p))).

(** A new screen of 5 columns and 5 lines. *)
Definition screen5x5 : parser :=
  MkParser (MkScreen 0 0 [] style_zero [] 0 0 5 5 false [] 0 0 0 0 0)
    [] parserModeNormal 0 0 [] 0 (Position 0 0) 0.

(** What the examples observe of scrolling: the glyphs of each line,
    LinesScrolledOut and the arguments of the calls of ScrollOutFunc. *)
Definition observe_scroll `{T : Types}
    (r : res (parser * Z * option error))
  : res (list (list Z) * Z * list gostring) :=
  '(p, _, _) ← r;
  Ok (glyphs (scr p), LinesScrolledOut (scr p), scrollOutCalls (scr p)).

(** A new screen with maxLines = 2, hence 2 lines, and a callback. *)
Definition screenMax2 : parser :=
  MkParser (MkScreen 0 0 [] style_zero [] 2 0 160 2 true [] 0 0 0 0 0)
    [] parserModeNormal 0 0 [] 0 (Position 0 0) 0.

Definition LF : byte := "010"%byte.

(** A line with the four cells a, b, c, d. *)
Definition line_abcd : screenLine :=
  newScreenLine (map (fun c => Node c style_zero) [97; 98; 99; 100]).

(** ** Predicates used in the statements *)

Section Specs.
Context `{T : Types} `{E : !Env}.

(** The window size is positive, as NewScreen, SetSize and WithMaxSize
    keep it, and the sizes are values of type [int]. *)
Definition sized (s : Screen) : Prop :=
  0 < cols s <= GoInt.max_int /\ 0 < lines s <= GoInt.max_int
  /\ len (screen s) <= GoInt.max_int.

(** The four out-of-bounds counters: up, down, forward, back. *)
Definition counters (s : Screen) : Z * Z * Z * Z :=
  (CursorUpOOB s, CursorDownOOB s, CursorFwdOOB s, CursorBackOOB s).

(** The cursor is inside the window. *)
Definition in_window (s : Screen) : Prop :=
  0 <= x s < cols s /\ 0 <= y s < lines s.

(** One more when the motion was clamped. *)
Definition clamped (b : bool) : Z := if b then 1 else 0.

(** From [s] to [s'] the lines [evicted] were scrolled out, in this order:
    the counter went up by their number and, if the callback is set, it
    was called once with the HTML of each, in this order. *)
Definition evicts (s s' : Screen) (evicted : list screenLine) : Prop :=
  LinesScrolledOut s' = LinesScrolledOut s + len evicted
  /\ scrollOutCalls s' =
       scrollOutCalls s
         ++ (if ScrollOutFunc s then map asHTML evicted else []).

(** The buffer is within maxLines, when maxLines is in use. *)
Definition capped (s : Screen) : Prop :=
  0 < maxLines s -> len (screen s) <= maxLines s.

(** What every operation keeps: the limit and the callback are unchanged,
    the buffer stays within the limit, and the counter and the calls of
    the callback account for the same evicted lines. *)
Definition accounted (s s' : Screen) : Prop :=
  maxLines s' = maxLines s /\ ScrollOutFunc s' = ScrollOutFunc s
  /\ (capped s -> capped s')
  /\ exists evicted, evicts s s' evicted.

(** An operation that evicts nothing and adds no line. *)
Definition framed (s s' : Screen) : Prop :=
  maxLines s' = maxLines s /\ ScrollOutFunc s' = ScrollOutFunc s
  /\ LinesScrolledOut s' = LinesScrolledOut s
  /\ scrollOutCalls s' = scrollOutCalls s
  /\ len (screen s') <= len (screen s).

(** The assumption on Screen.clear, which is not in the source files: it
    changes cells of lines only. *)
Definition Screen_clear_framed : Prop :=
  forall s a b c s', Screen_clear s a b c = Ok s' -> framed s s'.

(** A byte of the form 10xxxxxx, which continues a UTF-8 encoding. *)
Definition continuation_byte (b : byte) : Prop := 0x80 <= b2z b <= 0xBF.

(** [q] does not begin with a UTF-8 continuation byte. *)
Definition starts_rune (q : list byte) : Prop :=
  match q with
  | [] => True
  | b :: _ => ~ continuation_byte b
  end.

(** No UTF-8 encoding that starts in [p] is completed by bytes of [q]:
    decoding at any offset of [p] gives the same rune and width whether or
    not [q] follows. *)
Definition no_rune_split (p q : list byte) : Prop :=
  forall i, (i < length p)%nat ->
    utf8.DecodeRune (drop i p ++ q) = utf8.DecodeRune (drop i p).

(** The parser between two sequences: nothing is kept in its buffer. *)
Definition idle (st : parser) : Prop :=
  buffer st = [] /\ cursor st = 0 /\ mode st = parserModeNormal.

(** The state of the Screen and its parser after a call of Write. *)
Definition state_after (r : res (parser * Z * option error)) : res parser :=
  '(p, _, _) ← r; Ok p.

(** [Write(input)] from the state [st] ends with the outcome [o], a new
    state or a panic: some amount of fuel is enough for it. *)
Definition Writes (st : parser) (input : list byte) (o : res parser)
  : Prop :=
  exists fuel, state_after (Write fuel input st) = o /\ o <> OutOfFuel.

(** [Write(p); Write(q)] from the state [st] ends with the outcome [o]. *)
Definition Writes2 (st : parser) (p q : list byte) (o : res parser)
  : Prop :=
  (Writes st p Panic /\ o = Panic)
  \/ exists m, Writes st p (Ok m) /\ Writes m q o.

(** More fuel can only turn "out of fuel" into an outcome. *)
Definition res_le {A} (r1 r2 : res A) : Prop :=
  r1 = OutOfFuel \/ r1 = r2.

(** The offsets of a parser are consistent with its buffer. *)
Definition pinv (st : parser) : Prop :=
  0 <= cursor st <= len (buffer st)
  /\ match mode st with
     | parserModeNormal => True
     | parserModeEscape | parserModeCharset =>
         0 <= escapeStartedAt st < cursor st
     | parserModeControl | parserModeOSC | parserModeAPC =>
         0 <= escapeStartedAt st < instructionStartedAt st
         /\ instructionStartedAt st <= cursor st
     | parserModeOSCEsc | parserModeAPCEsc =>
         0 <= escapeStartedAt st < instructionStartedAt st
         /\ instructionStartedAt st <= cursor st - 1
     end.

(** The same parser with [q] appended to its buffer. *)
Definition ext (q : list byte) (st : parser) : parser :=
  set_buffer (buffer st ++ q) st.

(** The same parser with [pre] still in front of its buffer: every offset
    is larger by the length of [pre]. *)
Definition shift (pre : list byte) (st : parser) : parser :=
  MkParser (scr st) (pre ++ buffer st) (mode st) (cursor st + len pre)
    (escapeStartedAt st + len pre) (instructions st)
    (instructionStartedAt st + len pre) (savePosition st)
    (lastTimestamp st).

(** The outcome [r] with [f] applied to its value. *)
Definition res_map {A B} (f : A -> B) (r : res A) : res B :=
  a ← r; Ok (f a).

(** The completed portion that dropDone removes. *)
Definition done (st : parser) : Z :=
  match mode st with
  | parserModeNormal => cursor st
  | _ => escapeStartedAt st
  end.

(** A byte that continues a control sequence: a parameter character or a
    semicolon. *)
Definition param_byte (b : byte) : bool := rune_in (b2z b) "?0123456789;".

(** The parameters collected while the bytes [body] of a control sequence
    are read, from the parameters [ins] completed before and the bytes
    [cur] of the parameter being read: the completed parameters and the
    bytes of the current one. *)
Fixpoint scan_params (ins : list gostring) (cur : gostring)
    (body : list byte) : list gostring * gostring :=
  match body with
  | [] => (ins, cur)
  | b :: body =>
      if bool_decide (b = ";"%byte)
      then scan_params (match cur with [] => ins | _ => ins ++ [cur] end)
             [] body
      else scan_params ins (cur ++ [b]) body
  end.

(** The parameters of the body of a control sequence: its segments
    between semicolons, without the empty ones. *)
Definition csi_params (body : list byte) : list gostring :=
  let '(ins, cur) := scan_params [] [] body in
  match cur with [] => ins | _ => ins ++ [cur] end.

(** A byte that ends a control sequence and is passed on to the screen:
    a letter of case 'A', ..., 'Q' of handleControlSequence, in either
    case. *)
Definition final_byte (c : byte) : bool :=
  (b2z c <? 0x80) && rune_in (unicode.ToUpper (b2z c)) "ABCDEFGJKMQ".

(** A byte that ends a control sequence without any effect on the
    screen: a letter of case 'H', 'L' of handleControlSequence, in either
    case. *)
Definition mode_byte (c : byte) : bool :=
  (b2z c <? 0x80) && rune_in (unicode.ToUpper (b2z c)) "HL".

(** The number of lines that are missing below the buffer for the cursor
    row [y], when the cursor is inside the window. *)
Definition missing_lines (s : Screen) : nat :=
  Z.to_nat (y s + 1 - len (screen s)).

(** The buffer with the missing lines added. *)
Definition with_missing_lines (s : Screen) : list screenLine :=
  screen s ++ replicate (missing_lines s) (newScreenLine []).

(** The window is not higher than the limit on the buffer, when that limit
    is in use; NewScreen, SetSize and WithMaxSize keep it so. *)
Definition window_fits (s : Screen) : Prop :=
  (0 < maxColumns s -> cols s <= maxColumns s)
  /\ (0 < maxLines s -> lines s <= maxLines s).

(** The options of the package, and the assignment of a callback. *)
Definition package_option (o : ScreenOption) : Prop :=
  (exists w h, o = WithSize w h)
  \/ (exists maxCols maxLines', o = WithMaxSize maxCols maxLines')
  \/ o = WithScrollOutFunc.

(** A byte that is written to the screen in Normal mode: an ASCII byte
    other than line feed, carriage return, backspace and escape. *)
Definition plain_byte (b : byte) : bool :=
  (b2z b <? 0x80)
  && negb ((b2z b =? 0x0A) || (b2z b =? 0x0D) || (b2z b =? 0x08)
           || (b2z b =? 0x1b)).

Definition BEL : byte := "007"%byte.

(** A byte of the payload of an OSC or APC sequence that does not end it:
    an ASCII byte other than BEL and escape. *)
Definition string_byte (b : byte) : bool :=
  (b2z b <? 0x80) && negb ((b2z b =? 0x07) || (b2z b =? 0x1b)).

(** A parser whose buffer is a payload, read to its end. *)
Definition payload_parser (s : Screen) (payload : list byte)
    (sp : position) (ts : Z) : parser :=
  MkParser s payload parserModeNormal (len payload) 0 [] 0 sp ts.

(** The hyperlinks of a line after [n] cells were written from the cursor
    of [s] on: with a hyperlink style, each of these columns is mapped to
    the current URL and the other columns are mapped as before; with any
    other style (or no cell written) the hyperlinks are as before. *)
Definition linked (s : Screen) (n : Z) (line line' : screenLine) : Prop :=
  if style_hyperlink (sstyle s) && (0 <? n)
  then exists hl,
         hyperlinks line' = Some hl
         /\ forall k, hl !! k
                      = if (x s <=? k) && (k <? x s + n)
                        then Some (urlBrush s)
                        else default ∅ (hyperlinks line) !! k
  else hyperlinks line' = hyperlinks line.

End Specs.

(** * Properties *)

(** ** Integers, slices and indices *)

Lemma wrap_id z :
  GoInt.min_int <= z <= GoInt.max_int -> GoInt.wrap z = z.
Proof.
  unfold GoInt.min_int, GoInt.max_int, GoInt.wrap. intros Hz.
  rewrite Z.mod_small; lia.
Qed.

Lemma wrap_range z : GoInt.min_int <= GoInt.wrap z <= GoInt.max_int.
Proof.
  unfold GoInt.min_int, GoInt.max_int, GoInt.wrap.
  pose proof (Z.mod_pos_bound (z + 2 ^ 63) (2 ^ 64)). lia.
Qed.

Lemma len_nonneg {A} (l : list A) : 0 <= len l.
Proof. unfold len. lia. Qed.

Lemma len_app {A} (l k : list A) : len (l ++ k) = len l + len k.
Proof. unfold len. rewrite length_app. lia. Qed.

Lemma len_nil {A} : len (@nil A) = 0.
Proof. reflexivity. Qed.

Lemma len_cons {A} (a : A) l : len (a :: l) = 1 + len l.
Proof. unfold len. simpl length. lia. Qed.

Lemma slice_ok {A} (l : list A) a b :
  0 <= a -> a <= b -> b <= len l ->
  slice l a b = Ok (take (Z.to_nat (b - a)) (drop (Z.to_nat a) l)).
Proof.
  intros Ha Hab Hb. unfold slice.
  destruct (Z.leb_spec 0 a); [|lia].
  destruct (Z.leb_spec a b); [|lia].
  destruct (Z.leb_spec b (len l)); [|lia]. reflexivity.
Qed.

Lemma slice_prefix {A} (l : list A) b :
  0 <= b -> b <= len l -> slice l 0 b = Ok (take (Z.to_nat b) l).
Proof.
  intros. rewrite slice_ok by lia. rewrite Z.sub_0_r. reflexivity.
Qed.

Lemma slice_suffix {A} (l : list A) a :
  0 <= a -> a <= len l -> slice l a (len l) = Ok (drop (Z.to_nat a) l).
Proof.
  intros. rewrite slice_ok by lia. f_equal.
  apply take_ge. rewrite length_drop. unfold len in *. lia.
Qed.

Lemma slice_empty {A} (l : list A) : slice l 0 0 = Ok [].
Proof. rewrite slice_prefix; [reflexivity|lia|apply len_nonneg]. Qed.

Lemma index_ok {A} (l : list A) i a :
  0 <= i -> l !! Z.to_nat i = Some a -> index l i = Ok a.
Proof.
  intros Hi Hl. unfold index.
  pose proof (lookup_lt_Some _ _ _ Hl) as Hlt.
  destruct (Z.leb_spec 0 i); [|lia].
  destruct (Z.ltb_spec i (len l)); [|unfold len in *; lia].
  simpl. rewrite Hl. reflexivity.
Qed.

Lemma index_inv {A} (l : list A) i a :
  index l i = Ok a -> 0 <= i < len l /\ l !! Z.to_nat i = Some a.
Proof.
  unfold index.
  destruct (Z.leb_spec 0 i); simpl; [|discriminate].
  destruct (Z.ltb_spec i (len l)); [|discriminate].
  destruct (l !! Z.to_nat i) eqn:Hl; [|discriminate].
  intros [= ->]. split; [lia|]. reflexivity.
Qed.

Lemma set_index_ok {A} (l : list A) i a :
  0 <= i < len l -> set_index l i a = Ok (<[Z.to_nat i := a]> l).
Proof.
  intros Hi. unfold set_index.
  destruct (Z.leb_spec 0 i); [|lia].
  destruct (Z.ltb_spec i (len l)); [|lia]. reflexivity.
Qed.

Lemma set_index_inv {A} (l l' : list A) i a :
  set_index l i a = Ok l' -> 0 <= i < len l /\ l' = <[Z.to_nat i := a]> l.
Proof.
  unfold set_index.
  destruct (Z.leb_spec 0 i); simpl; [|discriminate].
  destruct (Z.ltb_spec i (len l)); [|discriminate].
  intros [= <-]. split; [lia|reflexivity].
Qed.

(** ** Tactics *)

Lemma Ok_inj {A} (a b : A) : Ok a = Ok b -> a = b.
Proof. intros [= ->]. reflexivity. Qed.

Ltac inv_res :=
  repeat match goal with
  | H : mbind _ ?m = Ok _ |- _ =>
      let Hm := fresh "Hm" in
      destruct m eqn:Hm; cbn [mbind res_bind] in H; try discriminate H
  | H : Ok _ = Ok _ |- _ => apply Ok_inj in H
  | H : Panic = Ok _ |- _ => discriminate H
  | H : OutOfFuel = Ok _ |- _ => discriminate H
  end.

(** Projections of updated screens, lines and parsers. *)
Ltac simpl_rec :=
  cbn [x y screen sstyle urlBrush maxLines maxColumns cols lines
       ScrollOutFunc scrollOutCalls LinesScrolledOut CursorUpOOB
       CursorDownOOB CursorFwdOOB CursorBackOOB
       set_x set_y set_screen set_style call_ScrollOutFunc
       set_LinesScrolledOut set_CursorUpOOB set_CursorDownOOB
       set_CursorFwdOOB set_CursorBackOOB
       nodes metadata elements hyperlinks set_nodes set_hyperlinks
       set_elements set_metadata newScreenLine
       scr buffer mode cursor escapeStartedAt instructions
       instructionStartedAt savePosition lastTimestamp
       set_scr set_buffer set_mode set_cursor set_escapeStartedAt
       set_instructions set_instructionStartedAt set_savePosition
       set_lastTimestamp] in *.

Section Properties.
Context `{T : Types} `{E : !Env}.

(** ** Erasing in a line *)

Lemma to_nat_len {A} (l : list A) : Z.to_nat (len l) = length l.
Proof. unfold len. apply Nat2Z.id. Qed.

(** ** Erasing in a line *)

Lemma clearCells_app (pre mid post : list node) :
  clearCells (length mid) (len pre) (pre ++ mid ++ post) =
    Ok (pre ++ replicate (length mid) emptyNode ++ post).
Proof.
  revert pre. induction mid as [|a mid IH]; intros pre; [reflexivity|].
  cbn [clearCells length].
  change ((a :: mid) ++ post) with (a :: (mid ++ post)).
  rewrite set_index_ok.
  2:{ rewrite !len_app, len_cons. pose proof (len_nonneg pre).
      pose proof (len_nonneg (mid ++ post)). lia. }
  cbn [mbind res_bind].
  rewrite to_nat_len.
  rewrite insert_app_r_alt, Nat.sub_diag by lia. cbn [insert list_insert].
  specialize (IH (pre ++ [emptyNode])).
  rewrite len_app, <- !app_assoc in IH. simpl in IH.
  change (len [emptyNode]) with 1 in IH. rewrite IH. reflexivity.
Qed.

Lemma clearCells_spec n i (ns : list node) :
  0 <= i -> i + Z.of_nat n <= len ns ->
  clearCells n i ns =
    Ok (take (Z.to_nat i) ns ++ replicate n emptyNode
          ++ drop (Z.to_nat i + n) ns).
Proof.
  intros Hi Hn. unfold len in Hn.
  set (pre := take (Z.to_nat i) ns).
  set (mid := take n (drop (Z.to_nat i) ns)).
  set (post := drop (Z.to_nat i + n) ns).
  assert (Hmid : length mid = n)
    by (unfold mid; rewrite length_take, length_drop; lia).
  assert (Hpre : len pre = i)
    by (unfold len, pre; rewrite length_take; lia).
  assert (Hns : ns = pre ++ mid ++ post).
  { unfold pre, mid, post. rewrite <- drop_drop.
    rewrite (take_drop n), take_drop. reflexivity. }
  rewrite Hns at 1. rewrite <- Hmid at 1 2. rewrite <- Hpre at 1.
  apply clearCells_app.
Qed.

Lemma clear_from_start (l : screenLine) (x : Z) :
  clear screenStartOfLine x l =
    Ok (if (x <? 0) || (len (nodes l) =? 0) then l
        else if len (nodes l) - 1 <=? x then set_nodes [] l
        else set_nodes (replicate (Z.to_nat (x + 1)) emptyNode
                          ++ drop (Z.to_nat (x + 1)) (nodes l)) l).
Proof.
  unfold clear, screenStartOfLine. cbn [Z.ltb Z.compare].
  pose proof (len_nonneg (nodes l)) as Hlen.
  destruct (Z.ltb_spec x 0) as [Hx|Hx]; [reflexivity|]. cbn [orb].
  destruct (Z.leb_spec (len (nodes l)) 0) as [H0|H0].
  { destruct (Z.eqb_spec (len (nodes l)) 0); [reflexivity|lia]. }
  destruct (Z.eqb_spec (len (nodes l)) 0); [lia|].
  destruct (Z.leb_spec (len (nodes l) - 1) x) as [Hend|Hend].
  { rewrite slice_empty. reflexivity. }
  rewrite clearCells_spec by lia. cbn [mbind res_bind].
  rewrite Z.sub_0_r. cbn [Z.to_nat take app Nat.add]. reflexivity.
Qed.

Lemma applyEscape_K1 (s : Screen) :
  applyEscape (rune_of "K") [bytes "1"] s =
    at_line (currentLine s) (clear screenStartOfLine (x s)) s.
Proof. reflexivity. Qed.

(** C4 (as amended).  Erase in Line with parameter 1 on the line [l] at
    the cursor: the other fields of the line are kept; if the cursor
    column is before the last cell, the cells from column 0 to x become
    empty cells, the other cells and the length are kept; if it is at or
    beyond the last cell, the cells are truncated to length 0; a negative
    column changes nothing. *)
Theorem EL1_erases_to_cursor (s : Screen) (yidx : Z) (l : screenLine) :
  currentLine s = Some yidx ->
  screen s !! Z.to_nat yidx = Some l ->
  exists l',
    applyEscape (rune_of "K") [bytes "1"] s
      = Ok (set_screen (<[Z.to_nat yidx := l']> (screen s)) s)
    /\ metadata l' = metadata l /\ elements l' = elements l
    /\ hyperlinks l' = hyperlinks l
    /\ (0 <= x s < len (nodes l) - 1 ->
        len (nodes l') = len (nodes l)
        /\ (forall i, 0 <= i <= x s ->
              nodes l' !! Z.to_nat i = Some emptyNode)
        /\ (forall i, x s < i ->
              nodes l' !! Z.to_nat i = nodes l !! Z.to_nat i))
    /\ (0 <= x s -> len (nodes l) - 1 <= x s -> nodes l' = [])
    /\ (x s < 0 -> nodes l' = nodes l).
Proof.
  intros Hcur Hl. rewrite applyEscape_K1, Hcur. unfold at_line.
  assert (Hy : 0 <= yidx).
  { unfold currentLine in Hcur.
    destruct (Z.ltb_spec (GoInt.add (top s) (y s)) 0); [discriminate|].
    destruct (_ <=? _); simpl in Hcur; [discriminate|].
    injection Hcur as <-. lia. }
  rewrite (index_ok _ _ _ Hy Hl). cbn [mbind res_bind].
  rewrite clear_from_start. cbn [mbind res_bind].
  pose proof (lookup_lt_Some _ _ _ Hl) as Hlt.
  rewrite set_index_ok by (unfold len; lia). cbn [mbind res_bind].
  eexists; split; [reflexivity|].
  pose proof (len_nonneg (nodes l)) as Hlen.
  destruct (Z.ltb_spec (x s) 0) as [Hx|Hx]; cbn [orb].
  { repeat split; intros; try lia; reflexivity. }
  destruct (Z.eqb_spec (len (nodes l)) 0) as [H0|H0].
  { repeat split; intros; try lia.
    unfold len in H0. destruct (nodes l); [reflexivity|simpl in H0; lia]. }
  destruct (Z.leb_spec (len (nodes l) - 1) (x s)) as [Hend|Hend].
  { repeat split; intros; try lia; reflexivity. }
  cbn [set_nodes metadata elements hyperlinks nodes].
  repeat split; try reflexivity; intros; try lia.
  - unfold len in *. rewrite length_app, length_replicate, length_drop. lia.
  - rewrite lookup_app_l by (rewrite length_replicate; lia).
    apply lookup_replicate_2. lia.
  - rewrite lookup_app_r by (rewrite length_replicate; lia).
    rewrite length_replicate, lookup_drop. f_equal. lia.
Qed.

(** ** Erasing in the display *)

Lemma top_sized (s : Screen) :
  sized s -> top s = Z.max 0 (len (screen s) - lines s).
Proof.
  intros (Hc & Hl & Hn). unfold top, GoInt.sub.
  pose proof (len_nonneg (screen s)).
  rewrite wrap_id; [reflexivity|].
  unfold GoInt.min_int, GoInt.max_int in *. lia.
Qed.

Lemma top_le_len (s : Screen) : sized s -> 0 <= top s <= len (screen s).
Proof.
  intros Hs. rewrite (top_sized s Hs). destruct Hs as (Hc & Hl & Hn).
  pose proof (len_nonneg (screen s)). lia.
Qed.

(** C7.  Erase in Display with parameter 2 keeps the lines above the
    window, [buffer[:top()]], and with parameter 3 no line at all; both
    put the cursor at (0,0) and change nothing else. *)
Theorem ED2_ED3_reset (s : Screen) :
  sized s ->
  applyEscape (rune_of "J") [bytes "2"] s
    = Ok (set_y 0 (set_x 0
            (set_screen (take (Z.to_nat (top s)) (screen s)) s)))
  /\ applyEscape (rune_of "J") [bytes "3"] s
    = Ok (set_y 0 (set_x 0 (set_screen [] s))).
Proof.
  intros Hs. split.
  - change (applyEscape (rune_of "J") [bytes "2"] s)
      with (scr ← slice (screen s) 0 (top s);
            Ok (set_y 0 (set_x 0 (set_screen scr s)))).
    pose proof (top_le_len s Hs).
    rewrite slice_prefix by lia. reflexivity.
  - change (applyEscape (rune_of "J") [bytes "3"] s)
      with (scr ← slice (screen s) 0 0;
            Ok (set_y 0 (set_x 0 (set_screen scr s)))).
    rewrite slice_empty. reflexivity.
Qed.

(** ** Erasing where there is no line *)

Lemma currentLine_None_yidx (s : Screen) :
  currentLine s = None ->
  (GoInt.add (top s) (y s) <? 0)
    || (len (screen s) <=? GoInt.add (top s) (y s)) = true.
Proof.
  unfold currentLine. destruct (_ || _); [reflexivity|discriminate].
Qed.

Lemma currentLine_empty (s : Screen) : screen s = [] -> currentLine s = None.
Proof.
  intros H. unfold currentLine.
  replace (len (screen s)) with 0 by (rewrite H; reflexivity).
  destruct (Z.ltb_spec (GoInt.add (top s) (y s)) 0); [reflexivity|].
  destruct (Z.leb_spec 0 (GoInt.add (top s) (y s))); [reflexivity|lia].
Qed.

Lemma applyEscape_K_nil (s : Screen) (ins : list gostring) :
  currentLine s = None -> applyEscape (rune_of "K") ins s = Ok s.
Proof.
  intros Hcur. unfold applyEscape.
  destruct (HasPrefix_question _); [reflexivity|].
  change (rune_of "K" =? rune_of "A") with false.
  change (rune_of "K" =? rune_of "B") with false.
  change (rune_of "K" =? rune_of "C") with false.
  change (rune_of "K" =? rune_of "D") with false.
  change (rune_of "K" =? rune_of "E") with false.
  change (rune_of "K" =? rune_of "F") with false.
  change (rune_of "K" =? rune_of "G") with false.
  change (rune_of "K" =? rune_of "H") with false.
  change (rune_of "K" =? rune_of "J") with false.
  change (rune_of "K" =? rune_of "K") with true.
  cbv iota. rewrite Hcur. cbn [at_line].
  repeat (destruct (_ || _) || destruct (is_str _ _)); reflexivity.
Qed.

Lemma applyEscape_J0_nil (s : Screen) (ins : list gostring) :
  currentLine s = None ->
  is_str (inst ins 0) "0" || is_str (inst ins 0) "" = true ->
  applyEscape (rune_of "J") ins s = Ok s.
Proof.
  intros Hcur H0. unfold applyEscape.
  assert (Hq : HasPrefix_question (inst ins 0) = false).
  { unfold is_str, bytes_eqb in H0.
    apply orb_true_iff in H0 as [H0|H0];
      apply bool_decide_eq_true in H0; rewrite H0; reflexivity. }
  rewrite Hq.
  change (rune_of "J" =? rune_of "A") with false.
  change (rune_of "J" =? rune_of "B") with false.
  change (rune_of "J" =? rune_of "C") with false.
  change (rune_of "J" =? rune_of "D") with false.
  change (rune_of "J" =? rune_of "E") with false.
  change (rune_of "J" =? rune_of "F") with false.
  change (rune_of "J" =? rune_of "G") with false.
  change (rune_of "J" =? rune_of "H") with false.
  change (rune_of "J" =? rune_of "J") with true.
  cbv iota. rewrite H0, Hcur. cbn [at_line mbind res_bind].
  rewrite (currentLine_None_yidx s Hcur). reflexivity.
Qed.

Lemma currentLine_below (s : Screen) :
  sized s -> len (screen s) <= top s + y s <= GoInt.max_int ->
  currentLine s = None.
Proof.
  intros Hs Hy. unfold currentLine, GoInt.add.
  pose proof (top_le_len s Hs). pose proof (len_nonneg (screen s)).
  rewrite wrap_id by (unfold GoInt.min_int, GoInt.max_int in *; lia).
  destruct (Z.ltb_spec (top s + y s) 0); [reflexivity|].
  destruct (Z.leb_spec (len (screen s)) (top s + y s)); [reflexivity|lia].
Qed.

(** C10.  When there is no line at the cursor (the buffer is empty, or
    the cursor points below the lines allocated so far), [currentLine]
    returns nil, and Erase in Line with any parameters and Erase in
    Display without a parameter or with parameter 0 return without a
    panic and leave the screen as it was. *)
Theorem erase_without_line (s : Screen) :
  screen s = []
  \/ (sized s /\ len (screen s) <= top s + y s <= GoInt.max_int) ->
  currentLine s = None
  /\ (forall ins, applyEscape (rune_of "K") ins s = Ok s)
  /\ applyEscape (rune_of "J") [] s = Ok s
  /\ (forall rest, applyEscape (rune_of "J") (bytes "0" :: rest) s = Ok s)
  /\ at_line (currentLine s) (clear (x s) screenEndOfLine) s = Ok s
  /\ at_line (currentLine s) (clear screenStartOfLine (x s)) s = Ok s
  /\ at_line (currentLine s) clearAll s = Ok s.
Proof.
  intros H.
  assert (Hcur : currentLine s = None).
  { destruct H as [H|[Hs Hy]];
      [apply currentLine_empty, H|apply currentLine_below; assumption]. }
  split; [exact Hcur|]. repeat split.
  - intros ins. apply applyEscape_K_nil, Hcur.
  - apply applyEscape_J0_nil; [exact Hcur|reflexivity].
  - intros rest. apply applyEscape_J0_nil; [exact Hcur|reflexivity].
  - rewrite Hcur. reflexivity.
  - rewrite Hcur. reflexivity.
  - rewrite Hcur. reflexivity.
Qed.

(** ** Cursor motion *)

Lemma applyEscape_A (ins : list gostring) (s : Screen) :
  HasPrefix_question (inst ins 0) = false ->
  applyEscape (rune_of "A") ins s = up (inst ins 0) s.
Proof. intros H. unfold applyEscape. rewrite H. reflexivity. Qed.

Lemma applyEscape_B (ins : list gostring) (s : Screen) :
  HasPrefix_question (inst ins 0) = false ->
  applyEscape (rune_of "B") ins s = down (inst ins 0) s.
Proof. intros H. unfold applyEscape. rewrite H. reflexivity. Qed.

Lemma applyEscape_C (ins : list gostring) (s : Screen) :
  HasPrefix_question (inst ins 0) = false ->
  applyEscape (rune_of "C") ins s = Ok (forward (inst ins 0) s).
Proof. intros H. unfold applyEscape. rewrite H. reflexivity. Qed.

Lemma applyEscape_D (ins : list gostring) (s : Screen) :
  HasPrefix_question (inst ins 0) = false ->
  applyEscape (rune_of "D") ins s = Ok (backward (inst ins 0) s).
Proof. intros H. unfold applyEscape. rewrite H. reflexivity. Qed.

Lemma rem_mod_nonneg a b : 0 <= a -> 0 < b -> Z.rem a b = a mod b.
Proof. intros. apply Z.rem_mod_nonneg; lia. Qed.

Lemma up_spec (i : gostring) (s : Screen) :
  let n := ansiInt i in
  sized s -> 0 <= n -> 0 <= x s -> 0 <= y s <= GoInt.max_int ->
  n <= GoInt.max_int ->
  up i s =
    Ok (set_x (x s mod cols s)
          (if y s - n <? 0
           then set_y 0 (set_CursorUpOOB (CursorUpOOB s + 1) (set_y (y s - n) s))
           else set_y (y s - n) s)).
Proof.
  intros n (Hc & Hl & Hb) Hn Hx Hy Hn'. unfold up, GoInt.sub, GoInt.rem.
  fold n. rewrite wrap_id by (unfold GoInt.min_int, GoInt.max_int in *; lia).
  cbn [y set_y].
  destruct (y s - n <? 0); cbn [x cols set_y set_CursorUpOOB];
    (destruct (Z.eqb_spec (cols s) 0); [lia|]);
    rewrite rem_mod_nonneg by lia; reflexivity.
Qed.

Lemma down_spec (i : gostring) (s : Screen) :
  let n := ansiInt i in
  sized s -> 0 <= n -> 0 <= x s -> 0 <= y s -> y s + n <= GoInt.max_int ->
  down i s =
    Ok (set_x (x s mod cols s)
          (if lines s <=? y s + n
           then set_y (lines s - 1)
                  (set_CursorDownOOB (CursorDownOOB s + 1)
                     (set_y (y s + n) s))
           else set_y (y s + n) s)).
Proof.
  intros n (Hc & Hl & Hb) Hn Hx Hy Hn'. unfold down, GoInt.add, GoInt.sub, GoInt.rem.
  fold n. rewrite wrap_id by (unfold GoInt.min_int, GoInt.max_int in *; lia).
  cbn [y set_y lines].
  destruct (lines s <=? y s + n); cbn [x cols lines set_y set_CursorDownOOB];
    (destruct (Z.eqb_spec (cols s) 0); [lia|]);
    rewrite ?wrap_id by (unfold GoInt.min_int, GoInt.max_int in *; lia);
    rewrite rem_mod_nonneg by lia; reflexivity.
Qed.

Lemma forward_spec (i : gostring) (s : Screen) :
  let n := ansiInt i in
  sized s -> 0 <= n -> 0 <= x s -> x s + n <= GoInt.max_int ->
  forward i s =
    if cols s <=? x s + n
    then set_x (cols s - 1)
           (set_CursorFwdOOB (CursorFwdOOB s + 1) (set_x (x s + n) s))
    else set_x (x s + n) s.
Proof.
  intros n (Hc & Hl & Hb) Hn Hx Hn'. unfold forward, GoInt.add, GoInt.sub.
  fold n. rewrite wrap_id by (unfold GoInt.min_int, GoInt.max_int in *; lia).
  cbn [x set_x cols].
  destruct (cols s <=? x s + n); cbn [cols set_x set_CursorFwdOOB];
    rewrite ?wrap_id by (unfold GoInt.min_int, GoInt.max_int in *; lia);
    reflexivity.
Qed.

Lemma backward_spec (i : gostring) (s : Screen) :
  let n := ansiInt i in
  0 <= n <= GoInt.max_int -> 0 <= x s <= GoInt.max_int ->
  backward i s =
    if x s - n <? 0
    then set_x 0 (set_CursorBackOOB (CursorBackOOB s + 1) (set_x (x s - n) s))
    else set_x (x s - n) s.
Proof.
  intros n Hn Hx. unfold backward, GoInt.sub.
  fold n. rewrite wrap_id by (unfold GoInt.min_int, GoInt.max_int in *; lia).
  reflexivity.
Qed.

Lemma ansiInt_default :
  ansiInt [] = 1 /\ inst [] 0 = []
  /\ (forall j, strconv.Atoi j = None -> ansiInt j = 1).
Proof.
  repeat split. intros j Hj. unfold ansiInt. rewrite Hj.
  destruct j; reflexivity.
Qed.

(** C6 (as amended).  A parameter that is missing, empty or malformed
    counts as 1.  For a parameter list that is not a private one (no
    leading ?), a count n >= 0 and a cursor at non-negative coordinates,
    where x + n and y + n fit an int: each of A, B, C, D moves along its
    axis and clamps on the side it moves to, counting one on its own
    counter exactly when it clamps and leaving the other counters; A and B
    also reduce x modulo cols; a cursor inside the window stays inside. *)
Theorem cursor_motion (ins : list gostring) (s : Screen) :
  let n := ansiInt (inst ins 0) in
  sized s -> HasPrefix_question (inst ins 0) = false -> 0 <= n ->
  0 <= x s -> 0 <= y s ->
  x s + n <= GoInt.max_int -> y s + n <= GoInt.max_int ->
  (ansiInt [] = 1 /\ inst [] 0 = []
   /\ (forall j, strconv.Atoi j = None -> ansiInt j = 1))
  /\ (exists s', applyEscape (rune_of "A") ins s = Ok s'
        /\ y s' = Z.max 0 (y s - n) /\ x s' = x s mod cols s
        /\ counters s' =
             (CursorUpOOB s + clamped (y s - n <? 0), CursorDownOOB s,
              CursorFwdOOB s, CursorBackOOB s)
        /\ 0 <= x s' < cols s'
        /\ (in_window s -> in_window s'))
  /\ (exists s', applyEscape (rune_of "B") ins s = Ok s'
        /\ y s' = Z.min (lines s - 1) (y s + n) /\ x s' = x s mod cols s
        /\ counters s' =
             (CursorUpOOB s, CursorDownOOB s + clamped (lines s <=? y s + n),
              CursorFwdOOB s, CursorBackOOB s)
        /\ in_window s')
  /\ (exists s', applyEscape (rune_of "C") ins s = Ok s'
        /\ x s' = Z.min (cols s - 1) (x s + n) /\ y s' = y s
        /\ counters s' =
             (CursorUpOOB s, CursorDownOOB s,
              CursorFwdOOB s + clamped (cols s <=? x s + n), CursorBackOOB s)
        /\ 0 <= x s' < cols s'
        /\ (in_window s -> in_window s'))
  /\ (exists s', applyEscape (rune_of "D") ins s = Ok s'
        /\ x s' = Z.max 0 (x s - n) /\ y s' = y s
        /\ counters s' =
             (CursorUpOOB s, CursorDownOOB s, CursorFwdOOB s,
              CursorBackOOB s + clamped (x s - n <? 0))
        /\ (in_window s -> in_window s')).
Proof.
  intros n Hs Hq Hn Hx Hy Hxn Hyn.
  pose proof Hs as (Hc & Hl & Hb).
  split; [exact ansiInt_default|].
  pose proof (Z.mod_pos_bound (x s) (cols s) ltac:(lia)) as Hmod.
  unfold in_window, counters, clamped.
  split; [|split; [|split]].
  - rewrite (applyEscape_A _ _ Hq), up_spec; fold n; try lia; [|exact Hs].
    eexists; split; [reflexivity|].
    destruct (Z.ltb_spec (y s - n) 0); cbn; repeat split; try lia.
    all: intros; repeat split; rewrite ?Z.add_0_r, ?Z.mod_small by lia;
      try reflexivity; lia.
  - rewrite (applyEscape_B _ _ Hq), down_spec; fold n; try lia; [|exact Hs].
    eexists; split; [reflexivity|].
    destruct (Z.leb_spec (lines s) (y s + n)); cbn; repeat split;
      rewrite ?Z.add_0_r; try reflexivity; lia.
  - rewrite (applyEscape_C _ _ Hq), forward_spec; fold n; try lia; [|exact Hs].
    eexists; split; [reflexivity|].
    destruct (Z.leb_spec (cols s) (x s + n)); cbn; repeat split; try lia.
    all: intros; repeat split; rewrite ?Z.add_0_r; try reflexivity; lia.
  - rewrite (applyEscape_D _ _ Hq), backward_spec; fold n; try lia.
    eexists; split; [reflexivity|].
    destruct (Z.ltb_spec (x s - n) 0); cbn; repeat split; try lia.
    all: intros; repeat split; rewrite ?Z.add_0_r; try reflexivity; lia.
Qed.

(** ** Line allocation and scroll-out *)

Lemma framed_refl (s : Screen) : framed s s.
Proof. repeat split; lia. Qed.

Lemma framed_trans (s1 s2 s3 : Screen) :
  framed s1 s2 -> framed s2 s3 -> framed s1 s3.
Proof.
  intros (a1 & a2 & a3 & a4 & a5) (b1 & b2 & b3 & b4 & b5).
  repeat split; try congruence; lia.
Qed.

Lemma evicts_nil (s : Screen) : evicts s s [].
Proof.
  split.
  - change (len (@nil screenLine)) with 0. lia.
  - cbn [map]. destruct (ScrollOutFunc s); rewrite app_nil_r; reflexivity.
Qed.

Lemma accounted_refl (s : Screen) : accounted s s.
Proof.
  repeat split; try tauto. exists []. apply evicts_nil.
Qed.

Lemma evicts_trans (s1 s2 s3 : Screen) e1 e2 :
  ScrollOutFunc s2 = ScrollOutFunc s1 ->
  evicts s1 s2 e1 -> evicts s2 s3 e2 -> evicts s1 s3 (e1 ++ e2).
Proof.
  intros Hf [a1 a2] [b1 b2]. split.
  - rewrite b1, a1, len_app. lia.
  - rewrite b2, a2, Hf. destruct (ScrollOutFunc s1);
      rewrite ?map_app, ?app_nil_r, <- ?app_assoc; reflexivity.
Qed.

Lemma accounted_trans (s1 s2 s3 : Screen) :
  accounted s1 s2 -> accounted s2 s3 -> accounted s1 s3.
Proof.
  intros (a1 & a2 & a3 & e1 & a4) (b1 & b2 & b3 & e2 & b4).
  repeat split; try congruence; [tauto|].
  exists (e1 ++ e2). eapply evicts_trans; eassumption.
Qed.

Lemma framed_accounted (s s' : Screen) : framed s s' -> accounted s s'.
Proof.
  intros (a1 & a2 & a3 & a4 & a5). repeat split; try assumption.
  - unfold capped. rewrite a1. intros H Hm. specialize (H Hm). lia.
  - exists []. split.
    + change (len (@nil screenLine)) with 0. lia.
    + cbn [map]. rewrite a4.
      destruct (ScrollOutFunc s); rewrite app_nil_r; reflexivity.
Qed.

(** Case A of the loop: a line is added, nothing is evicted. *)
Lemma allocStep_add (s : Screen) :
  (maxLines s <=? 0) || (len (screen s) + 1 <=? maxLines s) = true ->
  exists s', allocStep s = Ok s'
    /\ screen s' = screen s ++ [newScreenLine []]
    /\ maxLines s' = maxLines s /\ ScrollOutFunc s' = ScrollOutFunc s
    /\ evicts s s' [] /\ (capped s -> capped s').
Proof.
  intros H. unfold allocStep. rewrite H.
  eexists; split; [reflexivity|].
  assert (Hcap : 0 < maxLines s ->
            len (screen s ++ [newScreenLine []]) <= maxLines s).
  { intros Hm. rewrite len_app. change (len [newScreenLine []]) with 1.
    apply orb_true_iff in H as [H|H]; lia. }
  unfold evicts, capped.
  destruct (lines _ <=? y _); simpl_rec; cbn [map len length Z.of_nat];
    rewrite Z.add_0_r;
    destruct (ScrollOutFunc s); rewrite app_nil_r; repeat split; auto.
Qed.

(** Case B of the loop: the first line is evicted. *)
Lemma allocStep_rotate (s : Screen) :
  (maxLines s <=? 0) || (len (screen s) + 1 <=? maxLines s) = false ->
  exists line0 rest s', screen s = line0 :: rest
    /\ allocStep s = Ok s'
    /\ screen s' = rest ++ [newScreenLine []]
    /\ maxLines s' = maxLines s /\ ScrollOutFunc s' = ScrollOutFunc s
    /\ evicts s s' [line0] /\ (capped s -> capped s').
Proof.
  intros H. unfold allocStep. rewrite H.
  apply orb_false_iff in H as [H1 H2].
  apply Z.leb_gt in H1, H2.
  destruct (screen s) as [|line0 rest] eqn:Hscr.
  { change (len []) with 0 in H2. lia. }
  exists line0, rest.
  change (index (line0 :: rest) 0) with (Ok line0). cbn [mbind res_bind].
  rewrite slice_empty. cbn [mbind res_bind].
  assert (Hrest : forall s0, screen s0 = line0 :: rest ->
            slice (screen s0) 1 (len (screen s0)) = Ok rest).
  { intros s0 ->. rewrite slice_suffix; [reflexivity|lia|].
    rewrite len_cons. pose proof (len_nonneg rest). lia. }
  assert (Hsl : slice (line0 :: rest) 1 (len (line0 :: rest)) = Ok rest).
  { rewrite slice_suffix; [reflexivity|lia|].
    rewrite len_cons. pose proof (len_nonneg rest). lia. }
  assert (Hcap : capped s -> 0 < maxLines s ->
            len (rest ++ [newScreenLine []]) <= maxLines s).
  { intros Hc Hm. specialize (Hc Hm). rewrite Hscr in Hc.
    rewrite len_cons in Hc. rewrite len_app.
    change (len [newScreenLine []]) with 1. lia. }
  unfold evicts.
  destruct (ScrollOutFunc s) eqn:Hf;
    cbn [screen call_ScrollOutFunc set_LinesScrolledOut];
    rewrite Hscr, Hsl; cbn [mbind res_bind];
    (eexists; split; [reflexivity|]; split; [reflexivity|]);
    unfold capped at 2; simpl_rec; rewrite ?Hf; cbn [map len length Z.of_nat];
    rewrite ?app_nil_r; repeat split; auto.
Qed.

(** The loop of currentLineForWriting adds [a] lines and evicts [k]: the
    evicted lines are the first [k] of the old buffer followed by the new
    lines, the new buffer is what is left of them. *)
Lemma allocLines_spec (fuel : nat) (s s' : Screen) :
  allocLines fuel s = Ok s' ->
  exists a k : nat,
    let all := screen s ++ replicate (a + k) (newScreenLine []) in
    screen s' = drop k all /\ evicts s s' (take k all)
    /\ maxLines s' = maxLines s /\ ScrollOutFunc s' = ScrollOutFunc s
    /\ (capped s -> capped s') /\ is_Some (currentLine s').
Proof.
  revert s. induction fuel as [|fuel IH]; intros s; cbn [allocLines].
  - destruct (currentLine s) eqn:Hcur; [|discriminate].
    intros [= <-]. exists 0%nat, 0%nat. cbn [Nat.add replicate].
    cbv zeta. rewrite app_nil_r, take_0, drop_0.
    repeat split; try tauto; try apply evicts_nil.
    rewrite Hcur. eexists; reflexivity.
  - destruct (currentLine s) eqn:Hcur.
    { intros [= <-]. exists 0%nat, 0%nat. cbn [Nat.add replicate].
      cbv zeta. rewrite app_nil_r, take_0, drop_0.
      repeat split; try tauto; try apply evicts_nil.
      rewrite Hcur. eexists; reflexivity. }
    destruct ((maxLines s <=? 0) || (len (screen s) + 1 <=? maxLines s))
      eqn:Hcase.
    + destruct (allocStep_add s Hcase) as (s1 & -> & Hs1 & Hm1 & Hf1 & He1 & Hc1).
      cbn [mbind res_bind]. intros Hrun.
      destruct (IH _ Hrun) as (a & k & Hscr & Hev & Hm & Hf & Hc & Hsome).
      exists (S a), k. cbn zeta in *.
      rewrite Hs1, <- app_assoc in Hscr, Hev.
      change ([newScreenLine []] ++ replicate (a + k) (newScreenLine []))
        with (replicate (S a + k) (newScreenLine [])) in Hscr, Hev.
      repeat split; try congruence; try tauto.
      * pose proof (evicts_trans _ _ _ _ _ Hf1 He1 Hev) as [H1 H2]. exact H1.
      * pose proof (evicts_trans _ _ _ _ _ Hf1 He1 Hev) as [H1 H2]. exact H2.
    + destruct (allocStep_rotate s Hcase)
        as (line0 & rest & s1 & Hs & -> & Hs1 & Hm1 & Hf1 & He1 & Hc1).
      cbn [mbind res_bind]. intros Hrun.
      destruct (IH _ Hrun) as (a & k & Hscr & Hev & Hm & Hf & Hc & Hsome).
      exists a, (S k). cbn zeta in *.
      rewrite Hs1, <- app_assoc in Hscr, Hev.
      change ([newScreenLine []] ++ replicate (a + k) (newScreenLine []))
        with (replicate (S (a + k)) (newScreenLine [])) in Hscr, Hev.
      rewrite Hs. replace (a + S k)%nat with (S (a + k)) by lia.
      cbn [app drop take].
      repeat split; try congruence; try tauto.
      * pose proof (evicts_trans _ _ _ _ _ Hf1 He1 Hev) as [H1 H2]. exact H1.
      * pose proof (evicts_trans _ _ _ _ _ Hf1 He1 Hev) as [H1 H2]. exact H2.
Qed.

End Properties.

Ltac solve_framed :=
  unfold framed; simpl_rec; repeat split; (reflexivity || lia).

Section Properties.
Context `{T : Types} `{E : !Env}.


Lemma len_insert {A} (l : list A) i a : len (<[i := a]> l) = len l.
Proof. unfold len. rewrite length_insert. reflexivity. Qed.

Lemma at_line_screen ptr f (s s' : Screen) :
  at_line ptr f s = Ok s' ->
  s' = s \/ exists i l, s' = set_screen (<[i := l]> (screen s)) s.
Proof.
  unfold at_line. destruct ptr as [yidx|]; [|intros [= <-]; left; reflexivity].
  intros H. inv_res. apply set_index_inv in Hm1 as [_ ->].
  right. eexists _, _. symmetry. exact H.
Qed.

Lemma at_line_framed ptr f (s s' : Screen) :
  at_line ptr f s = Ok s' -> framed s s'.
Proof.
  intros H. apply at_line_screen in H as [->|(i & l & ->)].
  - apply framed_refl.
  - unfold framed. simpl_rec. rewrite len_insert. repeat split; lia.
Qed.

Lemma clearLines_framed n i (s s' : Screen) :
  clearLines n i s = Ok s' -> framed s s'.
Proof.
  revert i s. induction n as [|n IH]; intros i s; cbn [clearLines].
  - intros [= <-]. apply framed_refl.
  - intros H. inv_res. eapply framed_trans; [|eapply IH, H].
    eapply at_line_framed, Hm.
Qed.

Lemma up_framed i (s s' : Screen) : up i s = Ok s' -> framed s s'.
Proof.
  unfold up. intros H. inv_res. subst s'.
  destruct (_ <? 0); solve_framed.
Qed.

Lemma down_framed i (s s' : Screen) : down i s = Ok s' -> framed s s'.
Proof.
  unfold down. intros H. inv_res. subst s'.
  destruct (_ <=? _); solve_framed.
Qed.

Lemma forward_framed i (s : Screen) : framed s (forward i s).
Proof. unfold forward. destruct (_ <=? _); solve_framed. Qed.

Lemma backward_framed i (s : Screen) : framed s (backward i s).
Proof. unfold backward. destruct (_ <? 0); solve_framed. Qed.

Lemma slice_prefix_len {A} (l l' : list A) b :
  slice l 0 b = Ok l' -> len l' <= len l.
Proof.
  unfold slice. destruct (_ && _); [|discriminate]. intros [= <-].
  unfold len. rewrite length_take, length_drop. lia.
Qed.

End Properties.

Ltac to_framed :=
  repeat match goal with
  | H : up _ _ = Ok _ |- _ => apply up_framed in H
  | H : down _ _ = Ok _ |- _ => apply down_framed in H
  | H : at_line _ _ _ = Ok _ |- _ => apply at_line_framed in H
  | H : clearLines _ _ _ = Ok _ |- _ => apply clearLines_framed in H
  | H : slice _ 0 _ = Ok _ |- _ => apply slice_prefix_len in H
  end.

Ltac framed_auto :=
  to_framed; unfold framed in *; simpl_rec;
  repeat match goal with H : _ /\ _ |- _ => destruct H end;
  repeat split; (congruence || lia).

Section Properties.
Context `{T : Types} `{E : !Env}.


Lemma applyEscape_framed code ins (s s' : Screen) :
  applyEscape code ins s = Ok s' -> framed s s'.
Proof.
  unfold applyEscape.
  repeat match goal with
  | |- (if ?c then _ else _) = Ok _ -> _ => destruct c
  end;
  intros H; inv_res;
  repeat match goal with
  | H : (if ?c then _ else _) = Ok _ |- _ => destruct c
  end;
  inv_res; subst;
  try (apply forward_framed); try (apply backward_framed);
  unfold color; framed_auto.
Qed.

Lemma currentLineForWriting_accounted fuel (s s' : Screen) yidx :
  currentLineForWriting fuel s = Ok (s', yidx) ->
  accounted s s' /\ 0 <= yidx < len (screen s').
Proof.
  unfold currentLineForWriting. intros H. inv_res.
  destruct (currentLine a) as [i|] eqn:Hcur; [|discriminate].
  inv_res. injection H as <- <-.
  apply set_index_inv in Hm1 as [Hi ->].
  destruct (allocLines_spec _ _ _ Hm) as (n & k & _ & Hev & Hmax & Hf & Hc & _).
  split.
  - eapply accounted_trans; [|apply framed_accounted].
    + split; [exact Hmax|]. split; [exact Hf|]. split; [exact Hc|].
      eexists; exact Hev.
    + unfold framed. simpl_rec. rewrite len_insert. repeat split; lia.
  - simpl_rec. rewrite len_insert. exact Hi.
Qed.

Lemma set_index_framed (s : Screen) i l scr' :
  set_index (screen s) i l = Ok scr' -> framed s (set_screen scr' s).
Proof.
  intros H. apply set_index_inv in H as [_ ->].
  unfold framed. simpl_rec. rewrite len_insert. repeat split; lia.
Qed.

Lemma write_accounted fuel data (s s' : Screen) :
  write fuel data s = Ok s' -> accounted s s'.
Proof.
  unfold write. intros H. inv_res. destruct a as [s1 yidx].
  inv_res. subst s'.
  pose proof (currentLineForWriting_accounted _ _ _ _ Hm) as [Hacc _].
  eapply accounted_trans; [exact Hacc|apply framed_accounted].
  eapply set_index_framed. eassumption.
Qed.

Lemma append_accounted fuel data (s s' : Screen) :
  append fuel data s = Ok s' -> accounted s s'.
Proof.
  unfold append. intros H. inv_res. subst s'.
  eapply accounted_trans; [eapply write_accounted, Hm|].
  apply framed_accounted. solve_framed.
Qed.

Lemma appendMany_accounted fuel data (s s' : Screen) :
  appendMany fuel data s = Ok s' -> accounted s s'.
Proof.
  revert s. induction data as [|c data IH]; intros s; cbn [appendMany].
  - intros [= <-]. apply accounted_refl.
  - intros H. inv_res.
    eapply accounted_trans; [eapply append_accounted, Hm|eapply IH, H].
Qed.

Lemma appendElement_accounted fuel i (s s' : Screen) :
  appendElement fuel i s = Ok s' -> accounted s s'.
Proof.
  unfold appendElement. intros H. inv_res. destruct a as [s1 yidx].
  inv_res. subst s'.
  pose proof (currentLineForWriting_accounted _ _ _ _ Hm) as [Hacc _].
  eapply accounted_trans; [exact Hacc|apply framed_accounted].
  eapply framed_trans; [eapply set_index_framed; eassumption|].
  solve_framed.
Qed.

Lemma setLineMetadata_accounted fuel ns data (s s' : Screen) :
  setLineMetadata fuel ns data s = Ok s' -> accounted s s'.
Proof.
  unfold setLineMetadata. intros H. inv_res. destruct a as [s1 yidx].
  inv_res. subst s'.
  pose proof (currentLineForWriting_accounted _ _ _ _ Hm) as [Hacc _].
  eapply accounted_trans; [exact Hacc|apply framed_accounted].
  eapply set_index_framed. eassumption.
Qed.

Lemma newLine_framed (s : Screen) : framed s (newLine s).
Proof. unfold newLine. solve_framed. Qed.

Lemma revNewLine_framed (s : Screen) : framed s (revNewLine s).
Proof. unfold revNewLine. destruct (_ <? _); solve_framed. Qed.

Lemma carriageReturn_framed (s : Screen) : framed s (carriageReturn s).
Proof. unfold carriageReturn. solve_framed. Qed.

Lemma backspace_framed (s : Screen) : framed s (backspace s).
Proof. unfold backspace. destruct (_ <? _); solve_framed. Qed.

Section WithClear.
Hypothesis Hclear : Screen_clear_framed.

Lemma processOperatingSystemCommand_accounted fuel end_ (p p' : parser) :
  processOperatingSystemCommand fuel end_ p = Ok p' ->
  accounted (scr p) (scr p').
Proof.
  assert (Hown : forall (b : bool) s s0,
    (if b then
       Screen_clear (if negb (x s =? 0) then newLine s else s)
         (y (if negb (x s =? 0) then newLine s else s))
         screenStartOfLine screenEndOfLine
     else Ok s) = Ok s0 -> accounted s s0).
  { intros b s s0. destruct b; [|intros [= <-]; apply accounted_refl].
    intros Hc. apply Hclear in Hc. apply framed_accounted.
    eapply framed_trans; [|exact Hc].
    destruct (negb _); [apply newLine_framed|apply framed_refl]. }
  assert (Hnl : forall (b : bool) s,
    accounted s (if b then newLine s else s)).
  { intros [] s; [apply framed_accounted, newLine_framed|apply accounted_refl]. }
  unfold processOperatingSystemCommand. intros H. inv_res.
  destruct (parseElementSequence a) as [image err].
  destruct image as [im|], err as [e|]; simpl_rec;
    try (apply Ok_inj in H; subst p'; apply accounted_refl);
    inv_res; subst p'; simpl_rec;
    (eapply accounted_trans;
       [first [eapply Hown; eassumption|eapply (Hown true); eassumption]|]);
    (eapply accounted_trans; [|first [apply Hnl|apply (Hnl true)]]).
  - eapply accounted_trans; eapply appendMany_accounted; eassumption.
  - eapply appendElement_accounted; eassumption.
  - eapply accounted_trans; eapply appendMany_accounted; eassumption.
Qed.

Lemma processApplicationProgramCommand_accounted fuel end_ (p p' : parser) :
  processApplicationProgramCommand fuel end_ p = Ok p' ->
  accounted (scr p) (scr p').
Proof.
  unfold processApplicationProgramCommand. intros H. inv_res.
  destruct (parseBuildkiteAPC _ a) as [[data err] ts].
  destruct err as [e|]; [|destruct data as [d|]];
    inv_res; subst p'; simpl_rec.
  - eapply accounted_trans; eapply appendMany_accounted; eassumption.
  - eapply setLineMetadata_accounted; eassumption.
  - apply accounted_refl.
Qed.

Lemma addInstruction_scr (p p' : parser) :
  addInstruction p = Ok p' -> scr p' = scr p.
Proof.
  unfold addInstruction. intros H. inv_res.
  destruct a; apply Ok_inj in H; subst p'; reflexivity.
Qed.

Lemma handleControlSequence_accounted char (p p' : parser) :
  handleControlSequence char p = Ok p' -> accounted (scr p) (scr p').
Proof.
  unfold handleControlSequence.
  repeat match goal with
  | |- (if ?c then _ else _) = Ok _ -> _ => destruct c
  end; intros H; inv_res; subst; simpl_rec;
  try apply accounted_refl.
  - rewrite (addInstruction_scr _ _ Hm). apply accounted_refl.
  - rewrite <- (addInstruction_scr _ _ Hm).
    apply framed_accounted. eapply applyEscape_framed; eassumption.
Qed.

Lemma handleNormal_accounted fuel char (p p' : parser) :
  handleNormal fuel char p = Ok p' -> accounted (scr p) (scr p').
Proof.
  unfold handleNormal.
  repeat match goal with
  | |- (if ?c then _ else _) = Ok _ -> _ => destruct c
  end; intros H; inv_res; subst; simpl_rec;
  try apply accounted_refl.
  - apply framed_accounted, newLine_framed.
  - apply framed_accounted, carriageReturn_framed.
  - apply framed_accounted, backspace_framed.
  - eapply append_accounted; eassumption.
Qed.

Lemma handleEscape_accounted char (p : parser) :
  accounted (scr p) (scr (handleEscape char p)).
Proof.
  unfold handleEscape.
  repeat match goal with
  | |- context [if ?c then _ else _] => destruct c
  end; simpl_rec; try apply accounted_refl.
  - apply framed_accounted, revNewLine_framed.
  - apply framed_accounted. solve_framed.
Qed.

Lemma parseStep_accounted fuel (p p' : parser) :
  parseStep fuel p = Ok p' -> accounted (scr p) (scr p').
Proof.
  unfold parseStep. intros H. inv_res.
  destruct (utf8.DecodeRune a) as [char charLen].
  inv_res. subst p'. simpl_rec.
  destruct (mode p).
  - eapply handleNormal_accounted; eassumption.
  - apply Ok_inj in Hm0. subst a0. apply handleEscape_accounted.
  - eapply handleControlSequence_accounted; eassumption.
  - unfold handleOperatingSystemCommand in Hm0.
    destruct (_ =? _); [eapply processOperatingSystemCommand_accounted; eassumption|].
    destruct (_ =? _); apply Ok_inj in Hm0; subst a0; apply accounted_refl.
  - unfold handleOSCEscape in Hm0.
    destruct (_ =? _); [eapply processOperatingSystemCommand_accounted; eassumption|].
    apply Ok_inj in Hm0; subst a0; apply accounted_refl.
  - apply Ok_inj in Hm0. subst a0. apply accounted_refl.
  - unfold handleApplicationProgramCommand in Hm0.
    destruct (_ =? _); [eapply processApplicationProgramCommand_accounted; eassumption|].
    destruct (_ =? _); apply Ok_inj in Hm0; subst a0; apply accounted_refl.
  - unfold handleAPCEscape in Hm0.
    destruct (_ =? _); [eapply processApplicationProgramCommand_accounted; eassumption|].
    apply Ok_inj in Hm0; subst a0; apply accounted_refl.
Qed.

Lemma parseLoop_accounted n fuel (p p' : parser) :
  parseLoop n fuel p = Ok p' -> accounted (scr p) (scr p').
Proof.
  revert p. induction n as [|n IH]; intros p; cbn [parseLoop];
    destruct (_ <? _); try discriminate;
    try (intros [= <-]; apply accounted_refl).
  intros H. inv_res.
  eapply accounted_trans; [eapply parseStep_accounted, Hm|eapply IH, H].
Qed.

Lemma Write_accounted fuel input (p p' : parser) n e :
  Write fuel input p = Ok (p', n, e) -> accounted (scr p) (scr p').
Proof.
  unfold Write, parseToScreen. intros H. inv_res.
  injection H as <- _ _.
  unfold dropDone in Hm. inv_res. subst a. simpl_rec.
  apply parseLoop_accounted in Hm0.
  destruct (_ =? _); exact Hm0.
Qed.

End WithClear.

(** C3.  The loop of currentLineForWriting, the only place where lines are
    added: when it ends after adding [a] lines and evicting [k], the
    evicted lines are the first [k] of the old buffer followed by the new
    lines, the callback (if set) was called once with the HTML of each in
    this order, LinesScrolledOut went up by [k], and a buffer within
    maxLines stays within it.  One rotation, taken when maxLines is
    reached: the first line is passed to the callback (if set), rendered
    as it was before the rotation, LinesScrolledOut goes up by one and
    the length of the buffer is unchanged.  Every operation of the Screen
    and every Write: the buffer stays within maxLines, and the counter
    and the calls of the callback account for the same lines. *)
Theorem scrollback_capped_and_accounted :
  (forall fuel (s s' : Screen), allocLines fuel s = Ok s' ->
     exists a k : nat,
       let all := screen s ++ replicate (a + k) (newScreenLine []) in
       screen s' = drop k all /\ evicts s s' (take k all)
       /\ (capped s -> capped s'))
  /\ (forall s : Screen, 0 < maxLines s -> maxLines s <= len (screen s) ->
        exists line0 rest s',
          screen s = line0 :: rest /\ allocStep s = Ok s'
          /\ screen s' = rest ++ [newScreenLine []]
          /\ LinesScrolledOut s' = LinesScrolledOut s + 1
          /\ scrollOutCalls s' =
               scrollOutCalls s
                 ++ (if ScrollOutFunc s then [asHTML line0] else []))
  /\ (forall (s s' : Screen),
        (exists fuel c, append fuel c s = Ok s')
        \/ (exists fuel i, appendElement fuel i s = Ok s')
        \/ (exists fuel ns data, setLineMetadata fuel ns data s = Ok s')
        \/ (exists code ins, applyEscape code ins s = Ok s')
        \/ s' = newLine s \/ s' = revNewLine s
        \/ s' = carriageReturn s \/ s' = backspace s ->
        accounted s s')
  /\ (Screen_clear_framed ->
      forall fuel input (p p' : parser) n e,
        Write fuel input p = Ok (p', n, e) ->
        accounted (scr p) (scr p')).
Proof.
  split; [|split; [|split]].
  - intros fuel s s' H.
    destruct (allocLines_spec _ _ _ H) as (a & k & H1 & H2 & _ & _ & H3 & _).
    exists a, k. cbv zeta. auto.
  - intros s Hm Hl.
    assert (Hcase : (maxLines s <=? 0)
                    || (len (screen s) + 1 <=? maxLines s) = false).
    { apply orb_false_iff. split; apply Z.leb_gt; lia. }
    destruct (allocStep_rotate s Hcase)
      as (line0 & rest & s' & H1 & H2 & H3 & _ & _ & [H4 H5] & _).
    exists line0, rest, s'. repeat split; assumption.
  - intros s s'
      [(fuel & c & H)|[(fuel & i & H)|[(fuel & ns & data & H)
       |[(code & ins & H)|[->|[->|[->| ->]]]]]]].
    + eapply append_accounted, H.
    + eapply appendElement_accounted, H.
    + eapply setLineMetadata_accounted, H.
    + eapply framed_accounted, applyEscape_framed, H.
    + apply framed_accounted, newLine_framed.
    + apply framed_accounted, revNewLine_framed.
    + apply framed_accounted, carriageReturn_framed.
    + apply framed_accounted, backspace_framed.
  - intros Hclear fuel input p p' n e H.
    exact (Write_accounted Hclear _ _ _ _ _ _ H).
Qed.

(** ** Decoding a rune *)

Lemma first_cases (p0 : Z) :
  In (utf8.first p0) [0xF0; 0xF1; 0x02; 0x13; 0x03; 0x23; 0x34; 0x04; 0x44].
Proof.
  unfold utf8.first.
  repeat match goal with
  | |- context [if ?c then _ else _] => destruct c
  end; cbn; tauto.
Qed.

Lemma DecodeRune_size (l : list byte) :
  l <> [] -> 1 <= snd (utf8.DecodeRune l) <= len l.
Proof.
  intros Hl. unfold utf8.DecodeRune.
  assert (Hn : 1 <= len l).
  { destruct l; [congruence|]. rewrite len_cons.
    pose proof (len_nonneg l). lia. }
  destruct (Z.ltb_spec (len l) 1); [lia|].
  pose proof (first_cases (utf8.at_ l 0)) as Hx.
  cbn [In] in Hx.
  destruct Hx as [<-|[<-|[<-|[<-|[<-|[<-|[<-|[<-|[<-|[]]]]]]]]]];
    repeat match goal with
    | |- context [Z.land ?a 7] =>
        let v := eval vm_compute in (Z.land a 7) in
        change (Z.land a 7) with v
    | |- context [?a <=? ?b] =>
        match a with
        | Zpos _ => match b with Zpos _ =>
            let v := eval vm_compute in (a <=? b) in
            change (a <=? b) with v end
        end
    end; cbv iota; cbn [snd]; try lia.
  all: repeat match goal with
  | |- context [if ?c then _ else _] =>
      match c with
      | context [if _ then _ else _] => fail 1
      | _ => destruct c eqn:?
      end
  end; cbn [snd]; try lia.
  all: repeat match goal with
  | H : (_ <? _) = false |- _ => apply Z.ltb_ge in H
  | H : (_ <=? _) = false |- _ => apply Z.leb_gt in H
  | H : (_ <=? _) = true |- _ => apply Z.leb_le in H
  end; try lia.
Qed.

End Properties.

Ltac norm_consts :=
  repeat match goal with
  | |- context [Z.land ?a 7] =>
      let v := eval vm_compute in (Z.land a 7) in
      change (Z.land a 7) with v
  | |- context [utf8.acceptRanges ?a] =>
      let v := eval vm_compute in (utf8.acceptRanges a) in
      change (utf8.acceptRanges a) with v
  | |- context [?a <=? ?b] =>
      match a with
      | Zpos _ => match b with Zpos _ =>
          let v := eval vm_compute in (a <=? b) in
          change (a <=? b) with v end
      end
  end; cbv iota; cbn [fst snd].

Ltac ltb_cases :=
  repeat match goal with
  | |- context [?a <? ?b] => destruct (Z.ltb_spec a b)
  | |- context [?a <=? ?b] => destruct (Z.leb_spec a b)
  end; cbn [orb]; try reflexivity; try lia.

Lemma DecodeRune_app (l q : list byte) :
  l <> [] -> starts_rune q ->
  utf8.DecodeRune (l ++ q) = utf8.DecodeRune l.
Proof.
  intros Hl Hq.
  destruct q as [|q0 q]; [rewrite app_nil_r; reflexivity|].
  cbn [starts_rune] in Hq. unfold continuation_byte in Hq.
  pose proof (len_nonneg q) as Hlq.
  unfold utf8.locb, utf8.hicb.
  destruct l as [|a [|b [|c [|d l]]]]; [congruence|..];
    unfold utf8.DecodeRune, utf8.at_, utf8.locb, utf8.hicb;
    cbn [app nth]; rewrite ?len_cons, ?len_app, ?len_cons;
    change (len (@nil byte)) with 0; change (b2z "000") with 0;
    try (pose proof (len_nonneg l));
    pose proof (first_cases (b2z a)) as Hx; cbn [In] in Hx;
    destruct Hx as [<-|[<-|[<-|[<-|[<-|[<-|[<-|[<-|[<-|[]]]]]]]]]];
    norm_consts; ltb_cases.
Qed.

Section Properties.
Context `{T : Types} `{E : !Env}.

End Properties.

(** ** More fuel *)

Lemma res_le_refl {A} (r : res A) : res_le r r.
Proof. right. reflexivity. Qed.

Lemma res_le_bind {A B} (m1 m2 : res A) (f1 f2 : A -> res B) :
  res_le m1 m2 -> (forall a, res_le (f1 a) (f2 a)) ->
  res_le (m1 ≫= f1) (m2 ≫= f2).
Proof.
  intros [->| ->] Hf; [left; reflexivity|].
  destruct m2; cbn [mbind res_bind]; [apply Hf|right|left]; reflexivity.
Qed.

Lemma res_le_final {A} (r1 r2 : res A) :
  res_le r1 r2 -> r1 <> OutOfFuel -> r1 = r2.
Proof. intros [H|H] Hne; [contradiction|exact H]. Qed.

Lemma res_le_trans {A} (r1 r2 r3 : res A) :
  res_le r1 r2 -> res_le r2 r3 -> res_le r1 r3.
Proof. intros [->| ->] H; [left; reflexivity|exact H]. Qed.

Section Properties.
Context `{T : Types} `{E : !Env}.

End Properties.

Ltac mono_step :=
  first
    [ apply res_le_refl
    | assumption
    | apply res_le_bind; [|intros ?]
    | match goal with
      | |- res_le (if ?c then _ else _) (if ?c then _ else _) => destruct c
      | |- res_le (match ?x with _ => _ end) (match ?x with _ => _ end) =>
          destruct x
      end ].

Section Properties.
Context `{T : Types} `{E : !Env}.

Lemma allocLines_mono f f' (s : Screen) :
  (f <= f')%nat -> res_le (allocLines f s) (allocLines f' s).
Proof.
  revert f' s. induction f as [|f IH]; intros f' s Hf.
  - cbn [allocLines]. destruct (currentLine s) eqn:Hcur.
    + destruct f'; cbn [allocLines]; rewrite Hcur; apply res_le_refl.
    + left. reflexivity.
  - destruct f' as [|f']; [lia|]. cbn [allocLines].
    destruct (currentLine s); [apply res_le_refl|].
    apply res_le_bind; [apply res_le_refl|]. intros a. apply IH. lia.
Qed.

Section Mono.
Variables f f' : nat.
Hypothesis Hf : (f <= f')%nat.

Lemma currentLineForWriting_mono (s : Screen) :
  res_le (currentLineForWriting f s) (currentLineForWriting f' s).
Proof.
  unfold currentLineForWriting.
  apply res_le_bind; [apply allocLines_mono, Hf|]. intros a.
  apply res_le_refl.
Qed.

Lemma write_mono data (s : Screen) :
  res_le (write f data s) (write f' data s).
Proof.
  unfold write.
  apply res_le_bind; [apply currentLineForWriting_mono|]. intros a.
  apply res_le_refl.
Qed.

Lemma append_mono data (s : Screen) :
  res_le (append f data s) (append f' data s).
Proof.
  unfold append. apply res_le_bind; [apply write_mono|]. intros a.
  apply res_le_refl.
Qed.

Lemma appendMany_mono data (s : Screen) :
  res_le (appendMany f data s) (appendMany f' data s).
Proof.
  revert s. induction data as [|c data IH]; intros s; cbn [appendMany].
  - apply res_le_refl.
  - apply res_le_bind; [apply append_mono|]. intros a. apply IH.
Qed.

Lemma appendElement_mono i (s : Screen) :
  res_le (appendElement f i s) (appendElement f' i s).
Proof.
  unfold appendElement.
  apply res_le_bind; [apply currentLineForWriting_mono|]. intros a.
  apply res_le_refl.
Qed.

Lemma setLineMetadata_mono ns data (s : Screen) :
  res_le (setLineMetadata f ns data s) (setLineMetadata f' ns data s).
Proof.
  unfold setLineMetadata.
  apply res_le_bind; [apply currentLineForWriting_mono|]. intros a.
  apply res_le_refl.
Qed.

Lemma processOperatingSystemCommand_mono end_ (p : parser) :
  res_le (processOperatingSystemCommand f end_ p)
         (processOperatingSystemCommand f' end_ p).
Proof.
  unfold processOperatingSystemCommand.
  apply res_le_bind; [apply res_le_refl|]. intros a.
  destruct (parseElementSequence a) as [image err].
  destruct image, err; try apply res_le_refl;
    (apply res_le_bind; [apply res_le_refl|]; intros s);
    (apply res_le_bind; [|intros s'; apply res_le_refl]).
  - apply res_le_bind; [apply appendMany_mono|]. intros a0.
    apply appendMany_mono.
  - apply appendElement_mono.
  - apply res_le_bind; [apply appendMany_mono|]. intros a0.
    apply appendMany_mono.
Qed.

Lemma processApplicationProgramCommand_mono end_ (p : parser) :
  res_le (processApplicationProgramCommand f end_ p)
         (processApplicationProgramCommand f' end_ p).
Proof.
  unfold processApplicationProgramCommand.
  apply res_le_bind; [apply res_le_refl|]. intros a.
  destruct (parseBuildkiteAPC _ a) as [[data err] ts].
  destruct err; [|destruct data]; try apply res_le_refl.
  - apply res_le_bind; [apply appendMany_mono|]. intros s.
    apply res_le_bind; [apply appendMany_mono|]. intros s'.
    apply res_le_refl.
  - apply res_le_bind; [apply setLineMetadata_mono|]. intros s.
    apply res_le_refl.
Qed.

Lemma parseStep_mono (p : parser) :
  res_le (parseStep f p) (parseStep f' p).
Proof.
  unfold parseStep.
  apply res_le_bind; [apply res_le_refl|]. intros a.
  destruct (utf8.DecodeRune a) as [char charLen].
  apply res_le_bind; [|intros; apply res_le_refl].
  destruct (mode p); try apply res_le_refl.
  - unfold handleNormal.
    repeat match goal with
    | |- res_le (if ?c then _ else _) (if ?c then _ else _) => destruct c
    end; try apply res_le_refl.
    apply res_le_bind; [apply append_mono|]. intros; apply res_le_refl.
  - unfold handleOperatingSystemCommand.
    repeat match goal with
    | |- res_le (if ?c then _ else _) (if ?c then _ else _) => destruct c
    end; try apply res_le_refl.
    apply processOperatingSystemCommand_mono.
  - unfold handleOSCEscape.
    destruct (_ =? _); [|apply res_le_refl].
    apply processOperatingSystemCommand_mono.
  - unfold handleApplicationProgramCommand.
    repeat match goal with
    | |- res_le (if ?c then _ else _) (if ?c then _ else _) => destruct c
    end; try apply res_le_refl.
    apply processApplicationProgramCommand_mono.
  - unfold handleAPCEscape.
    destruct (_ =? _); [|apply res_le_refl].
    apply processApplicationProgramCommand_mono.
Qed.

End Mono.

Lemma parseLoop_mono n n' f f' (p : parser) :
  (n <= n')%nat -> (f <= f')%nat ->
  res_le (parseLoop n f p) (parseLoop n' f' p).
Proof.
  intros Hn Hf. revert n' p Hn.
  induction n as [|n IH]; intros n' p Hn; cbn [parseLoop].
  - destruct (cursor p <? len (buffer p)) eqn:Hc; [left; reflexivity|].
    destruct n'; cbn [parseLoop]; rewrite Hc; apply res_le_refl.
  - destruct n' as [|n']; [lia|]. cbn [parseLoop].
    destruct (_ <? _); [|apply res_le_refl].
    apply res_le_bind; [apply parseStep_mono, Hf|]. intros a.
    apply IH. lia.
Qed.

Lemma Write_mono f f' input (p : parser) :
  (f <= f')%nat ->
  res_le (state_after (Write f input p)) (state_after (Write f' input p)).
Proof.
  intros Hf. unfold state_after, Write, parseToScreen.
  apply res_le_bind; [|intros [[? ?] ?]; apply res_le_refl].
  apply res_le_bind; [|intros; apply res_le_refl].
  apply res_le_bind; [|intros; apply res_le_refl].
  apply parseLoop_mono; exact Hf.
Qed.

End Properties.

(** ** Slices of a longer buffer *)

Lemma slice_app_l {A} (l q : list A) a b :
  b <= len l -> slice (l ++ q) a b = slice l a b.
Proof.
  intros Hb. unfold slice. rewrite len_app.
  pose proof (len_nonneg q).
  destruct (Z.leb_spec 0 a); [|reflexivity].
  destruct (Z.leb_spec a b); [|reflexivity].
  destruct (Z.leb_spec b (len l)); [|lia].
  destruct (Z.leb_spec b (len l + len q)); [|lia].
  cbn [andb]. f_equal. rewrite drop_app, take_app_le; [reflexivity|].
  rewrite length_drop. unfold len in *. lia.
Qed.

Lemma slice_shift {A} (pre l : list A) a b :
  0 <= a ->
  slice (pre ++ l) (a + len pre) (b + len pre) = slice l a b.
Proof.
  intros Ha. unfold slice. rewrite len_app.
  pose proof (len_nonneg pre).
  destruct (Z.leb_spec 0 a); [|lia].
  destruct (Z.leb_spec 0 (a + len pre)); [|lia].
  destruct (Z.leb_spec a b), (Z.leb_spec (a + len pre) (b + len pre));
    try lia; [|reflexivity].
  destruct (Z.leb_spec b (len l)),
    (Z.leb_spec (b + len pre) (len pre + len l)); try lia; [|reflexivity].
  cbn [andb]. f_equal.
  replace (b + len pre - (a + len pre)) with (b - a) by lia.
  f_equal.
  replace (Z.to_nat (a + len pre)) with (length pre + Z.to_nat a)%nat
    by (unfold len; lia).
  rewrite drop_app_add. reflexivity.
Qed.

Lemma slice_tail_app {A} (l q : list A) a :
  0 <= a <= len l ->
  slice (l ++ q) a (len (l ++ q)) = res_map (fun t => t ++ q) (slice l a (len l)).
Proof.
  intros Ha. pose proof (len_nonneg q).
  rewrite !slice_suffix by (rewrite ?len_app; lia).
  cbn [res_map mbind res_bind]. f_equal.
  rewrite drop_app. f_equal.
  replace (Z.to_nat a - length l)%nat with 0%nat by (unfold len in *; lia).
  apply drop_0.
Qed.

Section Properties.
Context `{T : Types} `{E : !Env}.

End Properties.

Ltac case_binds :=
  cbn [mbind res_bind res_map];
  repeat match goal with
  | |- context [mbind _ ?m] =>
      match m with
      | context [mbind _ _] => fail 1
      | context [if _ then _ else _] => fail 1
      | context [match _ with Some _ => _ | None => _ end] => fail 1
      | Ok _ => fail 1
      | _ => destruct m; cbn [mbind res_bind res_map]
      end
  | |- context [if ?c then _ else _] =>
      match c with
      | context [if _ then _ else _] => fail 1
      | context [mbind _ _] => fail 1
      | _ => destruct c; cbn [mbind res_bind res_map]
      end
  | |- context [match ?x with Some _ => _ | None => _ end] =>
      match x with
      | context [mbind _ _] => fail 1
      | _ => destruct x; cbn [mbind res_bind res_map]
      end
  | |- context [let '(_, _) := ?x in _] =>
      match x with
      | context [mbind _ _] => fail 1
      | _ => destruct x; cbn [mbind res_bind res_map]
      end
  end.

Section Properties.
Context `{T : Types} `{E : !Env}.

(** ** A step of the parser on a longer buffer *)

Section Ext.
Variable q : list byte.

Lemma processOperatingSystemCommand_ext fuel end_ (st : parser) :
  end_ <= len (buffer st) ->
  processOperatingSystemCommand fuel end_ (ext q st)
    = res_map (ext q) (processOperatingSystemCommand fuel end_ st).
Proof.
  intros He. unfold processOperatingSystemCommand, ext. simpl_rec.
  rewrite slice_app_l by exact He. unfold res_map.
  destruct (slice (buffer st) (instructionStartedAt st) end_);
    cbn [mbind res_bind]; try reflexivity.
  destruct (parseElementSequence a) as [image err].
  destruct image, err; cbn [mbind res_bind]; try reflexivity;
    case_binds; reflexivity.
Qed.

Lemma processApplicationProgramCommand_ext fuel end_ (st : parser) :
  end_ <= len (buffer st) ->
  processApplicationProgramCommand fuel end_ (ext q st)
    = res_map (ext q) (processApplicationProgramCommand fuel end_ st).
Proof.
  intros He. unfold processApplicationProgramCommand, ext. simpl_rec.
  rewrite slice_app_l by exact He. unfold res_map.
  destruct (slice (buffer st) (instructionStartedAt st) end_);
    cbn [mbind res_bind]; try reflexivity.
  destruct (parseBuildkiteAPC _ a) as [[data err] ts].
  destruct err; [|destruct data]; cbn [mbind res_bind]; try reflexivity;
    simpl_rec; case_binds; reflexivity.
Qed.

Lemma addInstruction_ext (st : parser) :
  cursor st <= len (buffer st) ->
  addInstruction (ext q st) = res_map (ext q) (addInstruction st).
Proof.
  intros He. unfold addInstruction, ext. simpl_rec.
  rewrite slice_app_l by exact He. unfold res_map.
  destruct (slice _ _ _) as [[|b l]| |]; reflexivity.
Qed.

Lemma handleControlSequence_ext char (st : parser) :
  cursor st <= len (buffer st) ->
  handleControlSequence char (ext q st)
    = res_map (ext q) (handleControlSequence char st).
Proof.
  intros He. unfold handleControlSequence.
  repeat match goal with
  | |- context [if ?c then _ else _] =>
      match c with
      | context [if _ then _ else _] => fail 1
      | context [mbind _ _] => fail 1
      | _ => destruct c
      end
  end; try reflexivity;
  rewrite addInstruction_ext by exact He; unfold res_map;
  destruct (addInstruction st); cbn [mbind res_bind]; try reflexivity.
  unfold ext. simpl_rec.
  destruct (applyEscape _ _ _); reflexivity.
Qed.

Lemma handleNormal_ext fuel char (st : parser) :
  handleNormal fuel char (ext q st)
    = res_map (ext q) (handleNormal fuel char st).
Proof.
  unfold handleNormal, ext, res_map. simpl_rec.
  case_binds; reflexivity.
Qed.

Lemma handleEscape_ext char (st : parser) :
  handleEscape char (ext q st) = ext q (handleEscape char st).
Proof.
  unfold handleEscape. case_binds; reflexivity.
Qed.

Lemma parseStep_ext fuel (st : parser) :
  0 <= cursor st < len (buffer st) ->
  utf8.DecodeRune (drop (Z.to_nat (cursor st)) (buffer st) ++ q)
    = utf8.DecodeRune (drop (Z.to_nat (cursor st)) (buffer st)) ->
  parseStep fuel (ext q st) = res_map (ext q) (parseStep fuel st).
Proof.
  intros Hc Hd. unfold parseStep.
  replace (slice (buffer (ext q st)) (cursor (ext q st))
             (len (buffer (ext q st))))
    with (res_map (fun t => t ++ q)
            (slice (buffer st) (cursor st) (len (buffer st))))
    by (symmetry; apply slice_tail_app; lia).
  rewrite slice_suffix by lia. cbn [res_map mbind res_bind].
  rewrite Hd. clear Hd.
  destruct (utf8.DecodeRune _) as [char charLen].
  change (mode (ext q st)) with (mode st).
  destruct (mode st).
  - rewrite handleNormal_ext. unfold res_map.
    destruct (handleNormal fuel char st); reflexivity.
  - rewrite handleEscape_ext. reflexivity.
  - rewrite handleControlSequence_ext by lia. unfold res_map.
    destruct (handleControlSequence char st); reflexivity.
  - unfold handleOperatingSystemCommand.
    change (cursor (ext q st)) with (cursor st).
    destruct (_ =? _).
    { rewrite processOperatingSystemCommand_ext by lia. unfold res_map.
      destruct (processOperatingSystemCommand _ _ _); reflexivity. }
    destruct (_ =? _); reflexivity.
  - unfold handleOSCEscape.
    change (cursor (ext q st)) with (cursor st).
    destruct (_ =? _); [|reflexivity].
    rewrite processOperatingSystemCommand_ext by lia. unfold res_map.
    destruct (processOperatingSystemCommand _ _ _); reflexivity.
  - reflexivity.
  - unfold handleApplicationProgramCommand.
    change (cursor (ext q st)) with (cursor st).
    destruct (_ =? _).
    { rewrite processApplicationProgramCommand_ext by lia. unfold res_map.
      destruct (processApplicationProgramCommand _ _ _); reflexivity. }
    destruct (_ =? _); reflexivity.
  - unfold handleAPCEscape.
    change (cursor (ext q st)) with (cursor st).
    destruct (_ =? _); [|reflexivity].
    rewrite processApplicationProgramCommand_ext by lia. unfold res_map.
    destruct (processApplicationProgramCommand _ _ _); reflexivity.
Qed.

End Ext.

(** ** A step of the parser behind a prefix *)

Section Shift.
Variable pre : list byte.

Lemma shift_eta (st : parser) s m c e ins i sp ts :
  MkParser s (pre ++ buffer st) m (c + len pre) (e + len pre) ins
    (i + len pre) sp ts
  = shift pre (MkParser s (buffer st) m c e ins i sp ts).
Proof. reflexivity. Qed.

Lemma processOperatingSystemCommand_shift fuel end_ (st : parser) :
  0 <= instructionStartedAt st ->
  processOperatingSystemCommand fuel (end_ + len pre) (shift pre st)
    = res_map (shift pre) (processOperatingSystemCommand fuel end_ st).
Proof.
  intros Hi. unfold processOperatingSystemCommand, shift. simpl_rec.
  rewrite slice_shift by exact Hi. unfold res_map.
  destruct (slice (buffer st) (instructionStartedAt st) end_);
    cbn [mbind res_bind]; try reflexivity.
  destruct (parseElementSequence a) as [image err].
  destruct image, err; cbn [mbind res_bind]; try reflexivity;
    case_binds; reflexivity.
Qed.

Lemma processApplicationProgramCommand_shift fuel end_ (st : parser) :
  0 <= instructionStartedAt st ->
  processApplicationProgramCommand fuel (end_ + len pre) (shift pre st)
    = res_map (shift pre) (processApplicationProgramCommand fuel end_ st).
Proof.
  intros Hi. unfold processApplicationProgramCommand, shift. simpl_rec.
  rewrite slice_shift by exact Hi. unfold res_map.
  destruct (slice (buffer st) (instructionStartedAt st) end_);
    cbn [mbind res_bind]; try reflexivity.
  destruct (parseBuildkiteAPC _ a) as [[data err] ts].
  destruct err; [|destruct data]; cbn [mbind res_bind]; try reflexivity;
    simpl_rec; case_binds; reflexivity.
Qed.

Lemma addInstruction_shift (st : parser) :
  0 <= instructionStartedAt st ->
  addInstruction (shift pre st) = res_map (shift pre) (addInstruction st).
Proof.
  intros Hi. unfold addInstruction, shift. simpl_rec.
  rewrite slice_shift by exact Hi. unfold res_map.
  destruct (slice _ _ _) as [[|b l]| |]; reflexivity.
Qed.

Lemma addInstruction_offsets (st st' : parser) :
  addInstruction st = Ok st' ->
  buffer st' = buffer st /\ cursor st' = cursor st
  /\ escapeStartedAt st' = escapeStartedAt st
  /\ instructionStartedAt st' = instructionStartedAt st
  /\ mode st' = mode st.
Proof.
  unfold addInstruction. intros H. inv_res.
  destruct a; apply Ok_inj in H; subst st'; repeat split.
Qed.

Lemma handleControlSequence_shift char (st : parser) :
  0 <= instructionStartedAt st ->
  handleControlSequence char (shift pre st)
    = res_map (shift pre) (handleControlSequence char st).
Proof.
  intros Hi. unfold handleControlSequence.
  repeat match goal with
  | |- context [if ?c then _ else _] =>
      match c with
      | context [if _ then _ else _] => fail 1
      | context [mbind _ _] => fail 1
      | _ => destruct c
      end
  end; try reflexivity;
  rewrite addInstruction_shift by exact Hi; unfold res_map;
  destruct (addInstruction st) eqn:Ha; cbn [mbind res_bind]; try reflexivity.
  - replace (cursor (shift pre a) + utf8.RuneLen_ascii)
      with (cursor a + utf8.RuneLen_ascii + len pre)
      by (unfold shift; simpl_rec; lia).
    reflexivity.
  - unfold shift. simpl_rec.
    destruct (applyEscape _ _ _); reflexivity.
Qed.

Lemma handleNormal_shift fuel char (st : parser) :
  handleNormal fuel char (shift pre st)
    = res_map (shift pre) (handleNormal fuel char st).
Proof.
  unfold handleNormal, shift, res_map. simpl_rec.
  case_binds; reflexivity.
Qed.

Lemma handleEscape_shift char (st : parser) :
  handleEscape char (shift pre st) = shift pre (handleEscape char st).
Proof.
  unfold handleEscape.
  replace (cursor (shift pre st) + utf8.RuneLen_ascii)
    with (cursor st + utf8.RuneLen_ascii + len pre)
    by (unfold shift; simpl_rec; lia).
  case_binds; reflexivity.
Qed.

Lemma parseStep_shift fuel (st : parser) :
  pinv st -> cursor st < len (buffer st) ->
  parseStep fuel (shift pre st) = res_map (shift pre) (parseStep fuel st).
Proof.
  intros [Hc Hm] Hlt. unfold parseStep.
  assert (Hsl : slice (buffer (shift pre st)) (cursor (shift pre st))
                  (len (buffer (shift pre st)))
                = slice (buffer st) (cursor st) (len (buffer st))).
  { unfold shift. simpl_rec. rewrite len_app.
    rewrite (Z.add_comm (len pre)). apply slice_shift. lia. }
  rewrite Hsl. clear Hsl.
  destruct (slice _ _ _) as [rest| |]; cbn [res_map mbind res_bind];
    try reflexivity.
  destruct (utf8.DecodeRune rest) as [char charLen].
  change (mode (shift pre st)) with (mode st).
  assert (Hfin : forall r : res parser,
    (res_map (shift pre) r
       ≫= λ p, Ok (set_cursor (cursor p + charLen) p))
    = (r ≫= λ p, Ok (set_cursor (cursor p + charLen) p))
        ≫= λ a, Ok (shift pre a)).
  { intros [p| |]; cbn [res_map mbind res_bind]; try reflexivity.
    replace (cursor (shift pre p) + charLen)
      with (cursor p + charLen + len pre)
      by (unfold shift; simpl_rec; lia).
    reflexivity. }
  destruct (mode st).
  - rewrite handleNormal_shift. apply Hfin.
  - rewrite handleEscape_shift. apply (Hfin (Ok _)).
  - rewrite handleControlSequence_shift by lia. apply Hfin.
  - unfold handleOperatingSystemCommand.
    change (cursor (shift pre st)) with (cursor st + len pre).
    destruct (_ =? _).
    { rewrite processOperatingSystemCommand_shift by lia. apply Hfin. }
    destruct (_ =? _);
      [exact (Hfin (Ok (set_mode parserModeOSCEsc st)))
      |exact (Hfin (Ok st))].
  - unfold handleOSCEscape.
    change (cursor (shift pre st)) with (cursor st + len pre).
    destruct (_ =? _); [|exact (Hfin (Ok (set_mode parserModeOSC st)))].
    replace (cursor st + len pre - 1) with (cursor st - 1 + len pre) by lia.
    rewrite processOperatingSystemCommand_shift by lia. apply Hfin.
  - exact (Hfin (Ok (handleCharset char st))).
  - unfold handleApplicationProgramCommand.
    change (cursor (shift pre st)) with (cursor st + len pre).
    destruct (_ =? _).
    { rewrite processApplicationProgramCommand_shift by lia. apply Hfin. }
    destruct (_ =? _);
      [exact (Hfin (Ok (set_mode parserModeAPCEsc st)))
      |exact (Hfin (Ok st))].
  - unfold handleAPCEscape.
    change (cursor (shift pre st)) with (cursor st + len pre).
    destruct (_ =? _); [|exact (Hfin (Ok (set_mode parserModeAPC st)))].
    replace (cursor st + len pre - 1) with (cursor st - 1 + len pre) by lia.
    rewrite processApplicationProgramCommand_shift by lia. apply Hfin.
Qed.

End Shift.

(** ** The offsets stay consistent *)

Lemma processOperatingSystemCommand_offsets fuel end_ (st st' : parser) :
  processOperatingSystemCommand fuel end_ st = Ok st' ->
  buffer st' = buffer st /\ cursor st' = cursor st
  /\ mode st' = parserModeNormal.
Proof.
  unfold processOperatingSystemCommand. intros H. inv_res.
  destruct (parseElementSequence a) as [image err].
  destruct image, err; inv_res; subst st'; repeat split.
Qed.

Lemma processApplicationProgramCommand_offsets fuel end_ (st st' : parser) :
  processApplicationProgramCommand fuel end_ st = Ok st' ->
  buffer st' = buffer st /\ cursor st' = cursor st
  /\ mode st' = parserModeNormal.
Proof.
  unfold processApplicationProgramCommand. intros H. inv_res.
  destruct (parseBuildkiteAPC _ a) as [[data err] ts].
  destruct err; [|destruct data]; inv_res; subst st'; repeat split.
Qed.

Lemma pinv_normal (st : parser) c :
  mode st = parserModeNormal -> 0 <= c <= len (buffer st) ->
  pinv (set_cursor c st).
Proof.
  intros Hm Hc. unfold pinv. simpl_rec. rewrite Hm. split; [exact Hc|exact I].
Qed.

Lemma parseStep_pinv fuel (st st' : parser) :
  pinv st -> cursor st < len (buffer st) ->
  parseStep fuel st = Ok st' ->
  pinv st' /\ buffer st' = buffer st.
Proof.
  intros [Hc Hm] Hlt. unfold parseStep.
  rewrite slice_suffix by lia. cbn [mbind res_bind].
  assert (Hne : drop (Z.to_nat (cursor st)) (buffer st) <> []).
  { intros Hnil. apply (f_equal length) in Hnil.
    rewrite length_drop in Hnil. unfold len in *. simpl in Hnil. lia. }
  pose proof (DecodeRune_size _ Hne) as Hsz.
  assert (Hlen : len (drop (Z.to_nat (cursor st)) (buffer st))
                 = len (buffer st) - cursor st).
  { unfold len. rewrite length_drop. unfold len in *. lia. }
  rewrite Hlen in Hsz. clear Hne Hlen.
  destruct (utf8.DecodeRune _) as [char charLen]. cbn [snd] in Hsz.
  intros H. inv_res. subst st'.
  destruct (mode st) eqn:Hmode.
  - (* Normal *)
    unfold handleNormal in Hm0.
    repeat match goal with
    | H : (if ?c then _ else _) = Ok _ |- _ => destruct c
    end; inv_res; subst a; unfold pinv; simpl_rec; rewrite ?Hmode;
      repeat split; lia.
  - (* Escape *)
    apply Ok_inj in Hm0. subst a. unfold handleEscape, utf8.RuneLen_ascii.
    repeat match goal with
    | |- context [if ?c then _ else _] => destruct c
    end; unfold pinv; simpl_rec; repeat split; lia.
  - (* Control *)
    unfold handleControlSequence, utf8.RuneLen_ascii in Hm0.
    repeat match goal with
    | H : (if ?c then _ else _) = Ok _ |- _ => destruct c
    end; inv_res;
    try match goal with
    | H : addInstruction _ = Ok _ |- _ =>
        apply addInstruction_offsets in H as (Hb & Hcu & He & Hi & Hmo)
    end; subst; unfold pinv; simpl_rec; rewrite ?Hb, ?Hcu, ?He, ?Hi, ?Hmo, ?Hmode;
      repeat split; lia.
  - (* OSC *)
    unfold handleOperatingSystemCommand in Hm0.
    destruct (_ =? _).
    { apply processOperatingSystemCommand_offsets in Hm0 as (Hb & Hcu & Hmo).
      unfold pinv. simpl_rec. rewrite Hb, Hcu, Hmo. repeat split; lia. }
    destruct (_ =? _); apply Ok_inj in Hm0; subst a; unfold pinv; simpl_rec;
      rewrite ?Hmode; repeat split; lia.
  - (* OSCEsc *)
    unfold handleOSCEscape in Hm0.
    destruct (_ =? _).
    { apply processOperatingSystemCommand_offsets in Hm0 as (Hb & Hcu & Hmo).
      unfold pinv. simpl_rec. rewrite Hb, Hcu, Hmo. repeat split; lia. }
    apply Ok_inj in Hm0; subst a; unfold pinv; simpl_rec;
      repeat split; lia.
  - (* Charset *)
    apply Ok_inj in Hm0. subst a. unfold handleCharset, pinv. simpl_rec.
    repeat split; lia.
  - (* APC *)
    unfold handleApplicationProgramCommand in Hm0.
    destruct (_ =? _).
    { apply processApplicationProgramCommand_offsets in Hm0 as (Hb & Hcu & Hmo).
      unfold pinv. simpl_rec. rewrite Hb, Hcu, Hmo. repeat split; lia. }
    destruct (_ =? _); apply Ok_inj in Hm0; subst a; unfold pinv; simpl_rec;
      rewrite ?Hmode; repeat split; lia.
  - (* APCEsc *)
    unfold handleAPCEscape in Hm0.
    destruct (_ =? _).
    { apply processApplicationProgramCommand_offsets in Hm0 as (Hb & Hcu & Hmo).
      unfold pinv. simpl_rec. rewrite Hb, Hcu, Hmo. repeat split; lia. }
    apply Ok_inj in Hm0; subst a; unfold pinv; simpl_rec;
      repeat split; lia.
Qed.

(** ** The loop of parseToScreen *)

Lemma parseLoop_pinv n fuel (st st' : parser) :
  pinv st -> parseLoop n fuel st = Ok st' ->
  pinv st' /\ buffer st' = buffer st /\ len (buffer st') <= cursor st'.
Proof.
  revert st. induction n as [|n IH]; intros st Hinv; cbn [parseLoop];
    destruct (Z.ltb_spec (cursor st) (len (buffer st))) as [Hlt|Hge];
    try discriminate;
    try (intros [= <-]; repeat split; [apply Hinv..|lia]).
  intros H. inv_res.
  destruct (parseStep_pinv _ _ _ Hinv Hlt Hm) as [Hinv' Hb].
  destruct (IH _ Hinv' H) as (H1 & H2 & H3).
  repeat split; try apply H1; [congruence|exact H3].
Qed.

Lemma parseLoop_shift n fuel pre (st : parser) :
  pinv st ->
  parseLoop n fuel (shift pre st) = res_map (shift pre) (parseLoop n fuel st).
Proof.
  revert st. induction n as [|n IH]; intros st Hinv; cbn [parseLoop].
  all: assert (Hg : (cursor (shift pre st) <? len (buffer (shift pre st)))
                    = (cursor st <? len (buffer st)))
    by (unfold shift; simpl_rec; rewrite len_app;
        destruct (Z.ltb_spec (cursor st) (len (buffer st)));
        destruct (Z.ltb_spec (cursor st + len pre) (len pre + len (buffer st)));
        (reflexivity || lia)).
  all: rewrite Hg; destruct (Z.ltb_spec (cursor st) (len (buffer st)));
    try reflexivity.
  rewrite parseStep_shift by assumption.
  destruct (parseStep fuel st) as [st1| |] eqn:Hstep;
    cbn [res_map mbind res_bind]; try reflexivity.
  apply IH. eapply parseStep_pinv; eassumption.
Qed.

Lemma done_range (st : parser) : pinv st -> 0 <= done st <= len (buffer st).
Proof.
  intros [Hc Hm]. unfold done. destruct (mode st); lia.
Qed.

Lemma dropDone_ok (st : parser) :
  pinv st ->
  exists m, dropDone st = Ok m /\ pinv m
    /\ st = shift (take (Z.to_nat (done st)) (buffer st)) m
    /\ scr m = scr st.
Proof.
  intros Hinv. pose proof (done_range st Hinv) as Hd.
  unfold dropDone. fold (done st).
  rewrite slice_suffix by lia. cbn [mbind res_bind].
  eexists. split; [reflexivity|].
  assert (Hl : len (take (Z.to_nat (done st)) (buffer st)) = done st).
  { unfold len in *. rewrite length_take. lia. }
  split; [|split].
  - destruct Hinv as [Hc Hm]. unfold pinv, done in *. simpl_rec.
    unfold len in *. rewrite length_drop.
    destruct (mode st); repeat split; lia.
  - unfold shift. simpl_rec. rewrite Hl, take_drop.
    destruct st. simpl_rec. f_equal; lia.
  - reflexivity.
Qed.

Lemma dropDone_shift pre (st : parser) :
  pinv st -> dropDone (shift pre st) = dropDone st.
Proof.
  intros Hinv. pose proof (done_range st Hinv) as Hd.
  unfold dropDone. fold (done st).
  change (mode (shift pre st)) with (mode st).
  replace (match mode st with
           | parserModeNormal => cursor (shift pre st)
           | _ => escapeStartedAt (shift pre st)
           end) with (done st + len pre)
    by (unfold done, shift; simpl_rec; destruct (mode st); reflexivity).
  unfold shift. simpl_rec. rewrite len_app, (Z.add_comm (len pre)).
  rewrite slice_shift by lia.
  destruct (slice _ _ _); cbn [mbind res_bind]; try reflexivity.
  do 2 f_equal; lia.
Qed.

Section ExtLoop.
Variable q : list byte.

Lemma ext_guard (st : parser) :
  cursor st < len (buffer st) ->
  (cursor (ext q st) <? len (buffer (ext q st))) = true.
Proof.
  intros H. unfold ext. simpl_rec. rewrite len_app.
  pose proof (len_nonneg q). apply Z.ltb_lt. lia.
Qed.

Lemma parseStep_ext' fuel (st : parser) :
  pinv st -> no_rune_split (buffer st) q ->
  cursor st < len (buffer st) ->
  parseStep fuel (ext q st) = res_map (ext q) (parseStep fuel st).
Proof.
  intros [Hc _] Hq Hlt. apply parseStep_ext; [lia|].
  apply Hq. unfold len in *. lia.
Qed.

Lemma parseLoop_ext_fwd n fuel (st st1 : parser) n2 :
  pinv st -> no_rune_split (buffer st) q ->
  parseLoop n fuel st = Ok st1 ->
  res_le (parseLoop n2 fuel (ext q st1))
         (parseLoop (n + n2) fuel (ext q st)).
Proof.
  revert st. induction n as [|n IH]; intros st Hinv Hq.
  - cbn [parseLoop]. destruct (_ <? _); [discriminate|].
    intros [= <-]. apply res_le_refl.
  - cbn [parseLoop].
    destruct (Z.ltb_spec (cursor st) (len (buffer st))) as [Hlt|Hge].
    + intros H. inv_res.
      change (S n + n2)%nat with (S (n + n2)). cbn [parseLoop].
      rewrite (ext_guard st Hlt), parseStep_ext', Hm by assumption.
      cbn [res_map mbind res_bind].
      destruct (parseStep_pinv _ _ _ Hinv Hlt Hm) as [Hinv' Hb].
      apply IH; [exact Hinv'|rewrite Hb; exact Hq|exact H].
    + intros [= <-]. apply parseLoop_mono; lia.
Qed.

Lemma parseLoop_ext_panic n fuel (st : parser) n2 :
  pinv st -> no_rune_split (buffer st) q ->
  parseLoop n fuel st = Panic ->
  parseLoop (n + n2) fuel (ext q st) = Panic.
Proof.
  revert st. induction n as [|n IH]; intros st Hinv Hq.
  - cbn [parseLoop]. destruct (_ <? _); discriminate.
  - cbn [parseLoop].
    destruct (Z.ltb_spec (cursor st) (len (buffer st))) as [Hlt|Hge];
      [|discriminate].
    change (S n + n2)%nat with (S (n + n2)). cbn [parseLoop].
    rewrite (ext_guard st Hlt), parseStep_ext' by assumption.
    destruct (parseStep fuel st) as [st'| |] eqn:Hstep;
      cbn [res_map mbind res_bind]; try discriminate; [|reflexivity].
    destruct (parseStep_pinv _ _ _ Hinv Hlt Hstep) as [Hinv' Hb].
    apply IH; [exact Hinv'|rewrite Hb; exact Hq].
Qed.

Lemma parseLoop_ext_bwd n fuel (st : parser) r :
  pinv st -> no_rune_split (buffer st) q ->
  parseLoop n fuel (ext q st) = r -> r <> OutOfFuel ->
  (parseLoop n fuel st = Panic /\ r = Panic)
  \/ exists st1, parseLoop n fuel st = Ok st1
       /\ parseLoop n fuel (ext q st1) = r.
Proof.
  revert st. induction n as [|n IH]; intros st Hinv Hq Hr Hne.
  - cbn [parseLoop] in *.
    destruct (Z.ltb_spec (cursor st) (len (buffer st))) as [Hlt|Hge].
    + rewrite (ext_guard st Hlt) in Hr. congruence.
    + right. exists st. split; [reflexivity|exact Hr].
  - cbn [parseLoop] in Hr. cbn [parseLoop].
    destruct (Z.ltb_spec (cursor st) (len (buffer st))) as [Hlt|Hge].
    + rewrite (ext_guard st Hlt), parseStep_ext' in Hr by assumption.
      destruct (parseStep fuel st) as [st'| |] eqn:Hstep;
        cbn [res_map mbind res_bind] in *.
      * destruct (parseStep_pinv _ _ _ Hinv Hlt Hstep) as [Hinv' Hb].
        destruct (IH st' Hinv' ltac:(rewrite Hb; exact Hq) Hr Hne)
          as [[H1 H2]|(st1 & H1 & H2)]; [left; auto|].
        right. exists st1. split; [exact H1|].
        pose proof (parseLoop_mono n (S n) fuel fuel (ext q st1)
                      ltac:(lia) ltac:(lia)) as Hmono.
        rewrite H2 in Hmono. symmetry.
        apply res_le_final; assumption.
      * left. split; [reflexivity|congruence].
      * congruence.
    + right. exists st. split; [reflexivity|].
      cbn [parseLoop]. exact Hr.
Qed.

End ExtLoop.

(** ** Two writes and one *)

Lemma state_after_Write fuel input (st : parser) :
  state_after (Write fuel input st)
    = parseLoop fuel fuel (ext input st) ≫= dropDone.
Proof.
  unfold state_after, Write, parseToScreen.
  assert (Hs : (if len (buffer st) =? 0 then set_buffer input st
                else set_buffer (buffer st ++ input) st) = ext input st).
  { unfold ext. destruct (Z.eqb_spec (len (buffer st)) 0) as [H0|]; [|reflexivity].
    destruct (buffer st); [reflexivity|]. rewrite len_cons in H0.
    pose proof (len_nonneg l). lia. }
  rewrite Hs.
  destruct (parseLoop fuel fuel (ext input st)); cbn [mbind res_bind];
    try reflexivity.
  destruct (dropDone a); reflexivity.
Qed.

Lemma ext_ext p q (st : parser) :
  ext (p ++ q) st = ext q (ext p st).
Proof. unfold ext. simpl_rec. rewrite app_assoc. reflexivity. Qed.

Lemma ext_shift pre q (st : parser) :
  ext q (shift pre st) = shift pre (ext q st).
Proof. unfold ext, shift. simpl_rec. rewrite app_assoc. reflexivity. Qed.

Lemma pinv_ext q (st : parser) : pinv st -> pinv (ext q st).
Proof.
  intros [Hc Hm]. unfold pinv, ext. simpl_rec. rewrite len_app.
  pose proof (len_nonneg q). split; [lia|exact Hm].
Qed.

Lemma pinv_idle p (st : parser) : idle st -> pinv (ext p st).
Proof.
  intros (Hb & Hc & Hm). unfold pinv, ext. simpl_rec.
  rewrite Hb, Hc, Hm. cbn [app]. pose proof (len_nonneg p). split; [lia|exact I].
Qed.

Lemma bind_dropDone_shift pre (r : res parser) :
  (forall a, r = Ok a -> pinv a) ->
  res_map (shift pre) r ≫= dropDone = r ≫= dropDone.
Proof.
  intros H. destruct r; cbn [res_map mbind res_bind]; try reflexivity.
  apply dropDone_shift, H. reflexivity.
Qed.

Lemma bind_final {A B} (r : res A) (f : A -> res B) :
  r ≫= f <> OutOfFuel -> r <> OutOfFuel.
Proof. intros H ->. apply H. reflexivity. Qed.

(** The second of two writes continues the run of the first: its state
    after the loop is the state of the single write, behind the bytes
    that the first write dropped. *)
Lemma Write_split_bwd p q (st : parser) o :
  idle st -> no_rune_split p q ->
  Writes st (p ++ q) o -> Writes2 st p q o.
Proof.
  intros Hidle Hq (F & HW & Hne). rewrite state_after_Write, ext_ext in HW.
  pose proof (pinv_idle p st Hidle) as Hinv0.
  assert (Hq0 : no_rune_split (buffer (ext p st)) q).
  { destruct Hidle as (Hb & _). unfold ext. simpl_rec. rewrite Hb. exact Hq. }
  assert (Hr : parseLoop F F (ext q (ext p st)) <> OutOfFuel).
  { eapply bind_final. rewrite HW. exact Hne. }
  destruct (parseLoop_ext_bwd q F F (ext p st) _ Hinv0 Hq0 eq_refl Hr)
    as [[H1 H2]|(B1 & H1 & H2)].
  - left. rewrite H2 in HW. cbn [mbind res_bind] in HW. subst o.
    split; [|reflexivity].
    exists F. rewrite state_after_Write, H1. split; [reflexivity|discriminate].
  - right.
    destruct (parseLoop_pinv _ _ _ _ Hinv0 H1) as (Hinv1 & _ & _).
    destruct (dropDone_ok B1 Hinv1) as (m & Hdrop & Hinvm & Hshift & _).
    remember (take (Z.to_nat (done B1)) (buffer B1)) as pre eqn:Hpre.
    clear Hpre.
    exists m. split.
    + exists F. rewrite state_after_Write, H1. cbn [mbind res_bind].
      split; [exact Hdrop|discriminate].
    + exists F. rewrite state_after_Write. split; [|exact Hne].
      rewrite <- HW, <- H2.
      rewrite Hshift, ext_shift, parseLoop_shift
        by (apply pinv_ext, Hinvm).
      symmetry. apply bind_dropDone_shift.
      intros a Ha. eapply parseLoop_pinv; [apply pinv_ext, Hinvm|exact Ha].
Qed.

Lemma Write_split_fwd p q (st : parser) o :
  idle st -> no_rune_split p q ->
  Writes2 st p q o -> Writes st (p ++ q) o.
Proof.
  intros Hidle Hq H.
  pose proof (pinv_idle p st Hidle) as Hinv0.
  assert (Hq0 : no_rune_split (buffer (ext p st)) q).
  { destruct Hidle as (Hb & _). unfold ext. simpl_rec. rewrite Hb. exact Hq. }
  destruct H as [[(f & HW & _) ->]|(m & (f1 & HW1 & _) & (f2 & HW2 & Hne))].
  - rewrite state_after_Write in HW.
    destruct (parseLoop f f (ext p st)) as [B1| |] eqn:Hloop;
      cbn [mbind res_bind] in HW; try discriminate.
    + destruct (parseLoop_pinv _ _ _ _ Hinv0 Hloop) as (Hinv1 & _ & _).
      destruct (dropDone_ok B1 Hinv1) as (m & Hdrop & _). congruence.
    + exists f. rewrite state_after_Write, ext_ext.
      pose proof (parseLoop_ext_panic q f f (ext p st) 0 Hinv0 Hq0 Hloop) as Hp.
      rewrite Nat.add_0_r in Hp. rewrite Hp.
      split; [reflexivity|discriminate].
  - set (G := (f1 + f2)%nat).
    assert (HG1 : state_after (Write G p st) = Ok m).
    { symmetry. apply res_le_final; [|discriminate].
      rewrite <- HW1. apply Write_mono. lia. }
    assert (HG2 : state_after (Write G q m) = o).
    { symmetry. apply res_le_final; [|exact Hne].
      rewrite <- HW2. apply Write_mono. lia. }
    clear HW1 HW2. rewrite state_after_Write in HG1, HG2.
    destruct (parseLoop G G (ext p st)) as [B1| |] eqn:Hloop;
      cbn [mbind res_bind] in HG1; try discriminate.
    destruct (parseLoop_pinv _ _ _ _ Hinv0 Hloop) as (Hinv1 & _ & _).
    destruct (dropDone_ok B1 Hinv1) as (m' & Hdrop & Hinvm & Hshift & _).
    remember (take (Z.to_nat (done B1)) (buffer B1)) as pre eqn:Hpre.
    clear Hpre.
    assert (m' = m) by congruence. subst m'.
    assert (Hr' : parseLoop G G (ext q m) <> OutOfFuel).
    { eapply bind_final. rewrite HG2. exact Hne. }
    pose proof (parseLoop_ext_fwd q G G (ext p st) B1 G Hinv0 Hq0 Hloop)
      as Hfwd.
    rewrite Hshift, ext_shift, parseLoop_shift in Hfwd
      by (apply pinv_ext, Hinvm).
    assert (Hr1 : res_map (shift pre) (parseLoop G G (ext q m))
                  <> OutOfFuel).
    { destruct (parseLoop G G (ext q m)); cbn; congruence. }
    apply res_le_final in Hfwd; [|exact Hr1].
    exists (G + G)%nat. rewrite state_after_Write, ext_ext.
    split; [|exact Hne].
    pose proof (parseLoop_mono (G + G) (G + G) G (G + G)
                  (ext q (ext p st)) ltac:(lia) ltac:(lia)) as Hmono.
    rewrite <- Hfwd in Hmono. apply res_le_final in Hmono; [|exact Hr1].
    rewrite <- Hmono, <- HG2.
    apply bind_dropDone_shift.
    intros a Ha. eapply parseLoop_pinv; [apply pinv_ext, Hinvm|exact Ha].
Qed.

Lemma no_rune_split_starts_rune (p q : list byte) :
  starts_rune q -> no_rune_split p q.
Proof.
  intros Hq i Hi. apply DecodeRune_app; [|exact Hq].
  intros Hnil. apply (f_equal length) in Hnil.
  rewrite length_drop in Hnil. simpl in Hnil. lia.
Qed.

Lemma no_rune_split_ascii (p q : list byte) :
  Forall (fun b => b2z b < 0x80) (p ++ q) -> no_rune_split p q.
Proof.
  intros H. apply no_rune_split_starts_rune.
  apply Forall_app in H as [_ H].
  destruct q as [|b q]; [exact I|].
  cbn [starts_rune]. unfold continuation_byte.
  apply Forall_cons in H as [H _]. lia.
Qed.

(** The outcome of a write does not depend on the fuel. *)
Lemma Writes_deterministic (st : parser) input o1 o2 :
  Writes st input o1 -> Writes st input o2 -> o1 = o2.
Proof.
  intros (f1 & H1 & Hne1) (f2 & H2 & Hne2).
  pose proof (Write_mono f1 (f1 + f2) input st ltac:(lia)) as Hm1.
  pose proof (Write_mono f2 (f1 + f2) input st ltac:(lia)) as Hm2.
  rewrite H1 in Hm1. rewrite H2 in Hm2.
  apply res_le_final in Hm1; [|exact Hne1].
  apply res_le_final in Hm2; [|exact Hne2].
  congruence.
Qed.

Lemma NewScreen_idle opts (st : parser) : NewScreen opts = Some st -> idle st.
Proof.
  unfold NewScreen. destruct (applyOptions opts zeroScreen); [|discriminate].
  intros [= <-]. repeat split.
Qed.

(** C1 (as amended).  From a state in which the parser keeps nothing in
    its buffer (a new Screen is one), and for a split of the input into
    [p] and [q] that cuts no UTF-8 encoding (no encoding that starts in
    [p] is completed by bytes of [q]): writing [p] and then [q] ends with
    an outcome (the state of the Screen and its parser, or a panic) if
    and only if writing [p ++ q] at once ends with the same outcome. *)
Theorem Write_split (p q : list byte) (st : parser) (o : res parser) :
  idle st -> no_rune_split p q ->
  (Writes2 st p q o <-> Writes st (p ++ q) o).
Proof.
  intros Hidle Hq. split.
  - apply Write_split_fwd; assumption.
  - apply Write_split_bwd; assumption.
Qed.

(** ** Aborted escape sequences *)

(** An unrecognised character after ESC, or inside a control sequence:
    the Screen is left as it was, the parser is back in Normal mode, and
    the next rune is read at the escape start plus the width of the
    character that ended the sequence. *)
Theorem abort_step :
  (forall fuel (st : parser) char charLen,
     0 <= cursor st < len (buffer st) ->
     mode st = parserModeEscape ->
     utf8.DecodeRune (drop (Z.to_nat (cursor st)) (buffer st))
       = (char, charLen) ->
     rune_in char "[]()_M78" = false ->
     parseStep fuel st
       = Ok (set_cursor (escapeStartedAt st + charLen)
               (set_mode parserModeNormal st)))
  /\ (forall fuel (st : parser) char charLen,
     0 <= cursor st < len (buffer st) ->
     mode st = parserModeControl ->
     utf8.DecodeRune (drop (Z.to_nat (cursor st)) (buffer st))
       = (char, charLen) ->
     rune_in (unicode.ToUpper char) "?0123456789;ABCDEFGJKMQHL" = false ->
     parseStep fuel st
       = Ok (set_cursor (escapeStartedAt st + charLen)
               (set_mode parserModeNormal st))).
Proof.
  split; intros fuel st char charLen Hc Hm Hd Hr; unfold parseStep;
    rewrite slice_suffix by lia; cbn [mbind res_bind]; rewrite Hd, Hm.
  - unfold handleEscape. cbn [mbind res_bind].
    change (rune_in char "[]()_M78")
      with (existsb (fun z => char =? z) [91; 93; 40; 41; 95; 77; 55; 56])
      in Hr.
    cbn [existsb] in Hr.
    repeat (apply orb_false_iff in Hr as [? Hr]).
    change (rune_of "[") with 91. change (rune_of "]") with 93.
    change (rune_of "(") with 40. change (rune_of ")") with 41.
    change (rune_of "_") with 95. change (rune_of "M") with 77.
    change (rune_of "7") with 55. change (rune_of "8") with 56.
    repeat match goal with H : (_ =? _) = false |- _ => rewrite H; clear H end.
    reflexivity.
  - unfold handleControlSequence.
    set (u := unicode.ToUpper char) in *.
    change (rune_in u "?0123456789;ABCDEFGJKMQHL")
      with (existsb (fun z => u =? z)
              [63; 48; 49; 50; 51; 52; 53; 54; 55; 56; 57; 59;
               65; 66; 67; 68; 69; 70; 71; 74; 75; 77; 81; 72; 76]) in Hr.
    cbn [existsb] in Hr.
    repeat (apply orb_false_iff in Hr as [? Hr]).
    change (rune_in u "?0123456789")
      with (existsb (fun z => u =? z)
              [63; 48; 49; 50; 51; 52; 53; 54; 55; 56; 57]).
    change (rune_in u "ABCDEFGJKMQ")
      with (existsb (fun z => u =? z)
              [65; 66; 67; 68; 69; 70; 71; 74; 75; 77; 81]).
    change (rune_in u "HL") with (existsb (fun z => u =? z) [72; 76]).
    change (rune_of ";") with 59.
    cbn [existsb].
    repeat match goal with H : (_ =? _) = false |- _ => rewrite H; clear H end.
    reflexivity.
Qed.

Lemma DecodeRune_ascii (b : byte) (rest : list byte) :
  b2z b < 0x80 -> utf8.DecodeRune (b :: rest) = (b2z b, 1).
Proof.
  intros Hb. unfold utf8.DecodeRune, utf8.at_, utf8.first.
  rewrite len_cons. pose proof (len_nonneg rest).
  destruct (Z.ltb_spec (1 + len rest) 1); [lia|]. cbn [nth].
  destruct (Z.ltb_spec (b2z b) 0x80); [|lia]. reflexivity.
Qed.

(** A step of the parser on an ASCII byte. *)
Lemma parseStep_ascii fuel (st : parser) (b : byte) :
  0 <= cursor st ->
  buffer st !! Z.to_nat (cursor st) = Some b ->
  b2z b < 0x80 ->
  parseStep fuel st =
    (p ← match mode st with
         | parserModeEscape => Ok (handleEscape (b2z b) st)
         | parserModeControl => handleControlSequence (b2z b) st
         | parserModeOSC => handleOperatingSystemCommand fuel (b2z b) st
         | parserModeOSCEsc => handleOSCEscape fuel (b2z b) st
         | parserModeCharset => Ok (handleCharset (b2z b) st)
         | parserModeAPC =>
             handleApplicationProgramCommand fuel (b2z b) st
         | parserModeAPCEsc => handleAPCEscape fuel (b2z b) st
         | parserModeNormal => handleNormal fuel (b2z b) st
         end;
     Ok (set_cursor (cursor p + 1) p)).
Proof.
  intros Hc Hb Ha. unfold parseStep.
  pose proof (lookup_lt_Some _ _ _ Hb) as Hlt.
  rewrite slice_suffix by (unfold len; lia). cbn [mbind res_bind].
  rewrite (drop_S _ _ _ Hb), DecodeRune_ascii by exact Ha.
  reflexivity.
Qed.

Lemma parseLoop_S n fuel (p : parser) :
  parseLoop (S n) fuel p =
    if cursor p <? len (buffer p)
    then p' ← parseStep fuel p; parseLoop n fuel p'
    else Ok p.
Proof. reflexivity. Qed.

Lemma parseLoop_end n fuel (p : parser) :
  (cursor p <? len (buffer p)) = false -> parseLoop n fuel p = Ok p.
Proof. intros H. destruct n; cbn [parseLoop]; rewrite H; reflexivity. Qed.

End Properties.

(** Closed conditions and closed sums are computed; the rest of the goal
    is left as it is. *)
Ltac eval_closed :=
  repeat match goal with
  | |- context [if ?c then _ else _] =>
      let v := eval vm_compute in c in
      first [constr_eq v true | constr_eq v false];
      change c with v; cbv iota
  | |- context [Z.add ?a ?b] =>
      let v := eval vm_compute in (Z.add a b) in
      match v with
      | Z0 => idtac | Zpos _ => idtac | Zneg _ => idtac
      end;
      change (Z.add a b) with v
  | |- context [Z.sub ?a ?b] =>
      let v := eval vm_compute in (Z.sub a b) in
      match v with
      | Z0 => idtac | Zpos _ => idtac | Zneg _ => idtac
      end;
      change (Z.sub a b) with v
  end.

Ltac norm_parser :=
  unfold set_scr, set_buffer, set_mode, set_cursor, set_escapeStartedAt,
    set_instructions, set_instructionStartedAt, set_savePosition,
    set_lastTimestamp;
  cbn [scr buffer mode cursor escapeStartedAt instructions
       instructionStartedAt savePosition lastTimestamp].

(** One iteration of the loop on a state whose buffer, mode and offsets
    are known and whose next byte is ASCII. *)
Ltac loop_step :=
  rewrite parseLoop_S; norm_parser; eval_closed;
  erewrite parseStep_ascii;
    [|norm_parser; vm_compute; congruence
     |norm_parser; reflexivity
     |vm_compute; reflexivity];
  norm_parser;
  unfold handleNormal, handleEscape, handleControlSequence, handleCharset,
    addInstruction, utf8.RuneLen_ascii;
  norm_parser; eval_closed; cbn [mbind res_bind]; norm_parser; eval_closed.

Section Properties.
Context `{T : Types} `{E : !Env}.

(** ** Control sequences, from the bytes to applyEscape *)

Lemma b2z_inj (a b : byte) : b2z a = b2z b -> a = b.
Proof.
  unfold b2z. intros H. apply N2Z.inj in H.
  pose proof (Byte.of_to_N a) as Ha. rewrite H, Byte.of_to_N in Ha.
  congruence.
Qed.

Lemma param_byte_cases (b : byte) :
  param_byte b = true ->
  b2z b < 0x80 /\ unicode.ToUpper (b2z b) = b2z b
  /\ (b2z b =? rune_of ";") = bool_decide (b = ";"%byte)
  /\ (bool_decide (b = ";"%byte) = false ->
      rune_in (b2z b) "?0123456789" = true).
Proof.
  unfold param_byte.
  change (rune_in (b2z b) "?0123456789;")
    with (existsb (fun z => b2z b =? z)
            [63; 48; 49; 50; 51; 52; 53; 54; 55; 56; 57; 59]).
  change (rune_in (b2z b) "?0123456789")
    with (existsb (fun z => b2z b =? z)
            [63; 48; 49; 50; 51; 52; 53; 54; 55; 56; 57]).
  change (rune_of ";") with 59.
  cbn [existsb]. intros H.
  assert (Hsemi : (b2z b =? 59) = bool_decide (b = ";"%byte)).
  { destruct (Z.eqb_spec (b2z b) 59) as [He|Hne].
    - symmetry. apply bool_decide_eq_true. apply b2z_inj. exact He.
    - symmetry. apply bool_decide_eq_false. intros ->. apply Hne. reflexivity. }
  assert (Hv : In (b2z b) [63; 48; 49; 50; 51; 52; 53; 54; 55; 56; 57; 59]).
  { cbn [In].
    repeat (apply orb_true_iff in H as [H|H];
            [apply Z.eqb_eq in H; rewrite H; tauto|]).
    discriminate. }
  split; [|split; [|split]].
  - cbn [In] in Hv. lia.
  - unfold unicode.ToUpper. cbn [In] in Hv.
    destruct (Z.leb_spec 0x61 (b2z b)); [lia|]. cbn [andb].
    destruct (Z.eqb_spec (b2z b) 0x131); [lia|].
    destruct (Z.eqb_spec (b2z b) 0x17F); [lia|]. reflexivity.
  - exact Hsemi.
  - intros Hns. rewrite <- Hsemi in Hns. apply Z.eqb_neq in Hns.
    cbn [In] in Hv.
    repeat (destruct Hv as [Hv|Hv]; [try (rewrite <- Hv; reflexivity); lia|]).
    contradiction.
Qed.

Lemma slice_middle {A} (pre cur rest : list A) :
  slice (pre ++ cur ++ rest) (len pre) (len pre + len cur) = Ok cur.
Proof.
  pose proof (len_nonneg pre). pose proof (len_nonneg cur).
  pose proof (len_nonneg rest).
  rewrite slice_ok by (rewrite ?len_app; lia). f_equal.
  rewrite to_nat_len, drop_app_length.
  replace (Z.to_nat (len pre + len cur - len pre)) with (length cur)
    by (unfold len; lia).
  apply take_app_length.
Qed.

Lemma addInstruction_middle (pre cur rest : list byte) (s : Screen) m e ins
    sp ts :
  addInstruction
    (MkParser s (pre ++ cur ++ rest) m (len pre + len cur) e ins (len pre)
       sp ts)
  = Ok (MkParser s (pre ++ cur ++ rest) m (len pre + len cur) e
          (match cur with [] => ins | _ => ins ++ [cur] end) (len pre)
          sp ts).
Proof.
  unfold addInstruction. norm_parser. rewrite slice_middle.
  destruct cur; reflexivity.
Qed.

Lemma scan_params_loop (body : list byte) :
  forall (pre cur : list byte) (ins : list gostring) (tail : list byte)
         (s : Screen) c e i sp ts n fuel,
    forallb param_byte body = true ->
    c = len pre + len cur -> i = len pre ->
    parseLoop (length body + n) fuel
      (MkParser s (pre ++ cur ++ body ++ tail) parserModeControl c e ins i
         sp ts)
    = parseLoop n fuel
        (MkParser s (pre ++ cur ++ body ++ tail) parserModeControl
           (c + len body) e (scan_params ins cur body).1
           (c + len body - len (scan_params ins cur body).2) sp ts).
Proof.
  induction body as [|b body IH];
    intros pre cur ins tail s c e i sp ts n fuel Hb Hc Hi.
  - cbn [length Nat.add scan_params fst snd].
    change (len (@nil byte)) with 0. subst c i.
    do 2 f_equal; lia.
  - cbn [forallb] in Hb. apply andb_true_iff in Hb as [Hb Hbody].
    destruct (param_byte_cases b Hb) as (Hascii & Hup & Hsemi & Hdig).
    pose proof (len_nonneg pre). pose proof (len_nonneg cur).
    cbn [length Nat.add]. rewrite parseLoop_S. norm_parser.
    assert (Hg : (c <? len (pre ++ cur ++ (b :: body) ++ tail)) = true).
    { apply Z.ltb_lt. rewrite !len_app, len_cons.
      pose proof (len_nonneg body). pose proof (len_nonneg tail). lia. }
    rewrite Hg.
    rewrite (parseStep_ascii _ _ b); norm_parser; [|lia| |exact Hascii].
    2:{ subst c. replace (Z.to_nat (len pre + len cur))
          with (length (pre ++ cur)) by (rewrite length_app; unfold len; lia).
        rewrite (app_assoc pre cur). apply list_lookup_middle. reflexivity. }
    unfold handleControlSequence. rewrite Hup, Hsemi.
    cbn [scan_params]. rewrite len_cons.
    destruct (bool_decide (b = ";"%byte)) eqn:Hd.
    + apply bool_decide_eq_true in Hd. subst b.
      change (rune_in (b2z ";") "?0123456789") with false. cbv iota.
      subst c i. rewrite addInstruction_middle. cbn [mbind res_bind].
      norm_parser. unfold utf8.RuneLen_ascii.
      assert (Hre : pre ++ cur ++ (";"%byte :: body) ++ tail
                    = (pre ++ cur ++ [";"%byte]) ++ [] ++ body ++ tail).
      { cbn [app]. rewrite <- !app_assoc. reflexivity. }
      assert (Hl : len (pre ++ cur ++ [";"%byte]) = len pre + len cur + 1).
      { rewrite !len_app. change (len [";"%byte]) with 1. lia. }
      rewrite Hre.
      rewrite (IH (pre ++ cur ++ [";"%byte]) [] _ tail s
                 (len pre + len cur + 1) e (len pre + len cur + 1) sp ts
                 n fuel Hbody);
        [|change (len (@nil byte)) with 0; lia|lia].
      do 2 f_equal; lia.
    + rewrite (Hdig eq_refl). cbn [mbind res_bind]. norm_parser.
      assert (Hre : pre ++ cur ++ (b :: body) ++ tail
                    = pre ++ (cur ++ [b]) ++ body ++ tail).
      { cbn [app]. rewrite <- !app_assoc. reflexivity. }
      rewrite Hre.
      rewrite (IH pre (cur ++ [b]) ins tail s (c + 1) e i sp ts n fuel Hbody);
        [| rewrite len_app; change (len [b]) with 1; lia | exact Hi].
      do 2 f_equal; lia.
Qed.

Lemma scan_params_suffix (body : list byte) :
  forall (ins : list gostring) (cur : list byte),
    exists pre, cur ++ body = pre ++ (scan_params ins cur body).2.
Proof.
  induction body as [|b body IH]; intros ins cur; cbn [scan_params].
  - exists []. rewrite app_nil_r. reflexivity.
  - destruct (bool_decide (b = ";"%byte)).
    + destruct (IH (match cur with [] => ins | _ => ins ++ [cur] end) [])
        as [pre Hpre].
      exists (cur ++ b :: pre). cbn [app] in Hpre.
      rewrite Hpre at 1. rewrite <- app_assoc. reflexivity.
    + destruct (IH ins (cur ++ [b])) as [pre Hpre].
      exists pre. rewrite <- Hpre, <- app_assoc. reflexivity.
Qed.

Lemma final_byte_cases (c : byte) :
  final_byte c = true ->
  b2z c < 0x80
  /\ rune_in (unicode.ToUpper (b2z c)) "?0123456789" = false
  /\ (unicode.ToUpper (b2z c) =? rune_of ";") = false
  /\ rune_in (unicode.ToUpper (b2z c)) "ABCDEFGJKMQ" = true.
Proof.
  unfold final_byte. intros H. apply andb_true_iff in H as [Hlt Hin].
  apply Z.ltb_lt in Hlt. split; [exact Hlt|]. split; [|split; [|exact Hin]].
  - revert Hin. generalize (unicode.ToUpper (b2z c)). intros u.
    change (rune_in u "ABCDEFGJKMQ")
      with (existsb (fun z => u =? z) [65;66;67;68;69;70;71;74;75;77;81]).
    change (rune_in u "?0123456789")
      with (existsb (fun z => u =? z) [63;48;49;50;51;52;53;54;55;56;57]).
    cbn [existsb]. intros Hin.
    repeat (apply orb_true_iff in Hin as [Hin|Hin];
            [apply Z.eqb_eq in Hin; subst u; reflexivity|]).
    discriminate.
  - revert Hin. generalize (unicode.ToUpper (b2z c)). intros u.
    change (rune_in u "ABCDEFGJKMQ")
      with (existsb (fun z => u =? z) [65;66;67;68;69;70;71;74;75;77;81]).
    change (rune_of ";") with 59.
    cbn [existsb]. intros Hin.
    repeat (apply orb_true_iff in Hin as [Hin|Hin];
            [apply Z.eqb_eq in Hin; subst u; reflexivity|]).
    discriminate.
Qed.

Lemma mode_byte_cases (c : byte) :
  mode_byte c = true ->
  b2z c < 0x80
  /\ rune_in (unicode.ToUpper (b2z c)) "?0123456789" = false
  /\ (unicode.ToUpper (b2z c) =? rune_of ";") = false
  /\ rune_in (unicode.ToUpper (b2z c)) "ABCDEFGJKMQ" = false
  /\ rune_in (unicode.ToUpper (b2z c)) "HL" = true.
Proof.
  unfold mode_byte. intros H. apply andb_true_iff in H as [Hlt Hin].
  apply Z.ltb_lt in Hlt. split; [exact Hlt|].
  revert Hin. generalize (unicode.ToUpper (b2z c)). intros u.
  change (rune_in u "HL") with (existsb (fun z => u =? z) [72; 76]).
  change (rune_in u "ABCDEFGJKMQ")
    with (existsb (fun z => u =? z) [65;66;67;68;69;70;71;74;75;77;81]).
  change (rune_in u "?0123456789")
    with (existsb (fun z => u =? z) [63;48;49;50;51;52;53;54;55;56;57]).
  change (rune_of ";") with 59.
  cbn [existsb]. intros Hin.
  repeat (apply orb_true_iff in Hin as [Hin|Hin];
          [apply Z.eqb_eq in Hin; subst u; repeat split; reflexivity|]).
  discriminate.
Qed.

Lemma control_sequence_body (body tail : list byte) (s : Screen)
    e ins i sp ts n fuel :
  forallb param_byte body = true ->
  parseLoop (S (S (length body + n))) fuel
    (MkParser s ([ESC; "["%byte] ++ [] ++ body ++ tail) parserModeNormal
       0 e ins i sp ts)
  = parseLoop n fuel
      (MkParser s ([ESC; "["%byte] ++ [] ++ body ++ tail) parserModeControl
         (2 + len body) 0 (scan_params [] [] body).1
         (2 + len body - len (scan_params [] [] body).2) sp ts).
Proof.
  intros Hbody.
  pose proof (len_nonneg body) as Hlb. pose proof (len_nonneg tail) as Hlt.
  assert (Hlen : len ([ESC; "["%byte] ++ [] ++ body ++ tail)
                 = 2 + len body + len tail).
  { rewrite !len_app. change (len [ESC; "["%byte]) with 2.
    change (len (@nil byte)) with 0. lia. }
  rewrite parseLoop_S. norm_parser. rewrite Hlen.
  replace (0 <? 2 + len body + len tail) with true
    by (symmetry; apply Z.ltb_lt; lia).
  rewrite (parseStep_ascii _ _ ESC);
    [|norm_parser; lia|reflexivity|vm_compute; reflexivity].
  norm_parser. unfold handleNormal. norm_parser. eval_closed.
  cbn [mbind res_bind]. norm_parser. eval_closed.
  rewrite parseLoop_S. norm_parser. rewrite Hlen.
  replace (1 <? 2 + len body + len tail) with true
    by (symmetry; apply Z.ltb_lt; lia).
  rewrite (parseStep_ascii _ _ "["%byte);
    [|norm_parser; lia|reflexivity|vm_compute; reflexivity].
  norm_parser. unfold handleEscape, utf8.RuneLen_ascii. norm_parser.
  eval_closed. cbn [mbind res_bind]. norm_parser. eval_closed.
  apply (scan_params_loop body [ESC; "["%byte] [] [] tail s 2 0 2 sp ts
           n fuel Hbody eq_refl eq_refl).
Qed.

Lemma control_sequence_last (body : list byte) (c : byte) (s : Screen)
    e sp ts m fuel :
  b2z c < 0x80 ->
  parseLoop (S m) fuel
    (MkParser s ([ESC; "["%byte] ++ [] ++ body ++ [c]) parserModeControl
       (2 + len body) e (scan_params [] [] body).1
       (2 + len body - len (scan_params [] [] body).2) sp ts)
  = p ← handleControlSequence (b2z c)
          (MkParser s ([ESC; "["%byte] ++ [] ++ body ++ [c])
             parserModeControl (2 + len body) e (scan_params [] [] body).1
             (2 + len body - len (scan_params [] [] body).2) sp ts);
    parseLoop m fuel (set_cursor (cursor p + 1) p).
Proof.
  intros Hascii. pose proof (len_nonneg body) as Hlb.
  rewrite parseLoop_S. norm_parser.
  replace (2 + len body <? len ([ESC; "["%byte] ++ [] ++ body ++ [c]))
    with true.
  2:{ symmetry. apply Z.ltb_lt. rewrite !len_app.
      change (len [ESC; "["%byte]) with 2. change (len [c]) with 1.
      change (len (@nil byte)) with 0. lia. }
  rewrite (parseStep_ascii _ _ c); [|norm_parser; lia| |exact Hascii].
  2:{ norm_parser.
      replace (Z.to_nat (2 + len body))
        with (length ([ESC; "["%byte] ++ [] ++ body))
        by (rewrite !length_app; cbn [length]; unfold len; lia).
      rewrite !app_assoc. apply list_lookup_middle. reflexivity. }
  norm_parser.
  destruct (handleControlSequence _ _) as [p| |]; reflexivity.
Qed.

Lemma addInstruction_last (body : list byte) (c : byte) (s : Screen)
    m e sp ts :
  addInstruction
    (MkParser s ([ESC; "["%byte] ++ [] ++ body ++ [c]) m
       (2 + len body) e (scan_params [] [] body).1
       (2 + len body - len (scan_params [] [] body).2) sp ts)
  = Ok (MkParser s ([ESC; "["%byte] ++ [] ++ body ++ [c]) m
          (2 + len body) e (csi_params body)
          (2 + len body - len (scan_params [] [] body).2) sp ts).
Proof.
  destruct (scan_params_suffix body [] []) as [pre Hpre].
  cbn [app] in Hpre. unfold csi_params.
  destruct (scan_params [] [] body) as [ins' cur'] eqn:Hscan.
  cbn [fst snd] in *.
  assert (Hlp : len body = len pre + len cur').
  { rewrite Hpre, len_app. reflexivity. }
  assert (Hbuf : [ESC; "["%byte] ++ [] ++ body ++ [c]
                 = ([ESC; "["%byte] ++ pre) ++ cur' ++ [c]).
  { cbn [app]. rewrite Hpre, <- app_assoc. reflexivity. }
  assert (Hlpre : len ([ESC; "["%byte] ++ pre) = 2 + len pre).
  { rewrite len_app. reflexivity. }
  rewrite Hbuf.
  replace (2 + len body) with (len ([ESC; "["%byte] ++ pre) + len cur')
    by lia.
  replace (len ([ESC; "["%byte] ++ pre) + len cur' - len cur')
    with (len ([ESC; "["%byte] ++ pre)) by lia.
  apply addInstruction_middle.
Qed.

Lemma dropDone_all (s : Screen) (buf : list byte) c e ins i sp ts :
  c = len buf ->
  dropDone (MkParser s buf parserModeNormal c e ins i sp ts)
  = Ok (MkParser s [] parserModeNormal 0 (e - c) ins (i - c) sp ts).
Proof.
  intros ->. unfold dropDone. norm_parser.
  pose proof (len_nonneg buf).
  rewrite slice_suffix by lia. rewrite to_nat_len, drop_all.
  cbn [mbind res_bind]. rewrite Z.sub_diag. reflexivity.
Qed.

(** The run of a complete control sequence through the parser. *)
Lemma control_sequence_run (body : list byte) (c : byte) (s : Screen)
    e ins i sp ts (fuel : nat) :
  forallb param_byte body = true -> final_byte c = true ->
  (3 + length body <= fuel)%nat ->
  state_after
    (Write fuel (ESC :: "["%byte :: body ++ [c])
       (MkParser s [] parserModeNormal 0 e ins i sp ts))
  = res_map
      (fun s' =>
         MkParser s' [] parserModeNormal 0 (- (len body + 3))
           (csi_params body) (- (len (scan_params [] [] body).2 + 1))
           sp ts)
      (applyEscape (unicode.ToUpper (b2z c)) (csi_params body) s).
Proof.
  intros Hbody Hc Hfuel.
  destruct (final_byte_cases c Hc) as (Hascii & Hnd & Hns & Hfin).
  pose proof (len_nonneg body) as Hlb.
  rewrite state_after_Write. unfold ext. norm_parser. cbn [app].
  destruct (Nat.le_exists_sub _ _ Hfuel) as [k [Hk _]].
  assert (Hn : exists n, n = fuel) by (exists fuel; reflexivity).
  destruct Hn as [n Hn]. rewrite <- Hn at 1.
  replace n with (S (S (length body + S k))) by lia.
  change (ESC :: "["%byte :: body ++ [c])
    with ([ESC; "["%byte] ++ [] ++ body ++ [c]).
  rewrite control_sequence_body by exact Hbody.
  rewrite control_sequence_last by exact Hascii.
  unfold handleControlSequence. rewrite Hnd, Hns, Hfin.
  rewrite addInstruction_last. cbn [mbind res_bind]. norm_parser.
  unfold res_map.
  destruct (applyEscape _ _ s) as [s'| |]; cbn [mbind res_bind];
    try reflexivity.
  norm_parser.
  assert (Hlen : len ([ESC; "["%byte] ++ [] ++ body ++ [c])
                 = 2 + len body + 1).
  { rewrite !len_app. change (len [ESC; "["%byte]) with 2.
    change (len (@nil byte)) with 0. change (len [c]) with 1. lia. }
  rewrite parseLoop_end by (norm_parser; apply Z.ltb_ge; lia).
  cbn [mbind res_bind]. rewrite dropDone_all by (rewrite Hlen; reflexivity).
  do 2 f_equal; lia.
Qed.

(** A complete control sequence [ESC [ body c], written in one call to
    an idle parser, whose final byte [c] is one of A B C D E F G J K M Q
    (in either case) and whose body is made of parameter bytes: the
    screen receives exactly one call, [applyEscape] with the upper-case
    final byte and the non-empty parameters of the body; the parser is
    idle again and the buffer is empty. *)
Theorem control_sequence_dispatch (body : list byte) (c : byte)
    (st : parser) (fuel : nat) :
  idle st -> forallb param_byte body = true -> final_byte c = true ->
  (3 + length body <= fuel)%nat ->
  state_after (Write fuel (ESC :: "["%byte :: body ++ [c]) st)
  = res_map
      (fun s' =>
         MkParser s' [] parserModeNormal 0 (- (len body + 3))
           (csi_params body) (- (len (scan_params [] [] body).2 + 1))
           (savePosition st) (lastTimestamp st))
      (applyEscape (unicode.ToUpper (b2z c)) (csi_params body) (scr st)).
Proof.
  intros (Hbuf & Hcur & Hmode) Hbody Hc Hfuel.
  destruct st as [s buf m cu e ins i sp ts]. cbn in Hbuf, Hcur, Hmode.
  subst buf cu m. norm_parser.
  apply control_sequence_run; assumption.
Qed.

(** A complete control sequence [ESC [ body c] whose final byte is H, L,
    h or l, written in one call to an idle parser, leaves the screen as
    it was, whatever the parameters: the sequence is consumed and only
    the parser's bookkeeping changes. *)
Theorem control_sequence_H_L_ignored (body : list byte) (c : byte)
    (st : parser) (fuel : nat) :
  idle st -> forallb param_byte body = true -> mode_byte c = true ->
  (3 + length body <= fuel)%nat ->
  state_after (Write fuel (ESC :: "["%byte :: body ++ [c]) st)
  = Ok (MkParser (scr st) [] parserModeNormal 0 (- (len body + 3))
          (scan_params [] [] body).1
          (- (len (scan_params [] [] body).2 + 1))
          (savePosition st) (lastTimestamp st)).
Proof.
  intros (Hbuf & Hcur & Hmode) Hbody Hc Hfuel.
  destruct st as [s buf m cu e ins i sp ts]. cbn in Hbuf, Hcur, Hmode.
  subst buf cu m. norm_parser.
  destruct (mode_byte_cases c Hc) as (Hascii & Hnd & Hns & Hnf & Hhl).
  pose proof (len_nonneg body) as Hlb.
  rewrite state_after_Write. unfold ext. norm_parser. cbn [app].
  destruct (Nat.le_exists_sub _ _ Hfuel) as [k [Hk _]].
  assert (Hn : exists n, n = fuel) by (exists fuel; reflexivity).
  destruct Hn as [n Hn]. rewrite <- Hn at 1.
  replace n with (S (S (length body + S k))) by lia.
  change (ESC :: "["%byte :: body ++ [c])
    with ([ESC; "["%byte] ++ [] ++ body ++ [c]).
  rewrite control_sequence_body by exact Hbody.
  rewrite control_sequence_last by exact Hascii.
  unfold handleControlSequence. rewrite Hnd, Hns, Hnf, Hhl.
  cbn [mbind res_bind]. norm_parser.
  assert (Hlen : len ([ESC; "["%byte] ++ [] ++ body ++ [c])
                 = 2 + len body + 1).
  { rewrite !len_app. change (len [ESC; "["%byte]) with 2.
    change (len (@nil byte)) with 0. change (len [c]) with 1. lia. }
  rewrite parseLoop_end by (norm_parser; apply Z.ltb_ge; lia).
  cbn [mbind res_bind]. rewrite dropDone_all by (rewrite Hlen; reflexivity).
  do 2 f_equal; lia.
Qed.

(** A call of Write that returns, returns the length of its input and a
    nil error. *)
Theorem Write_returns_len fuel input (st p : parser) n err :
  Write fuel input st = Ok (p, n, err) -> n = len input /\ err = None.
Proof.
  unfold Write. destruct (parseToScreen fuel input st); cbn [mbind res_bind];
    [|discriminate..].
  intros H. apply Ok_inj in H. injection H as _ <- <-. split; reflexivity.
Qed.

(** Cursor Horizontal Absolute, code G of applyEscape: for a parameter
    list that is not private, the cursor goes to column n-1 clamped to the
    window, [0 <= x < cols], and nothing else changes. *)
Theorem cursor_horizontal_absolute (ins : list gostring) (s : Screen) :
  HasPrefix_question (inst ins 0) = false ->
  0 < cols s <= GoInt.max_int ->
  GoInt.min_int < ansiInt (inst ins 0) <= GoInt.max_int ->
  applyEscape (rune_of "G") ins s
    = Ok (set_x (Z.min (Z.max (ansiInt (inst ins 0) - 1) 0) (cols s - 1)) s)
  /\ 0 <= Z.min (Z.max (ansiInt (inst ins 0) - 1) 0) (cols s - 1) < cols s.
Proof.
  intros Hq Hc Hn. split; [|lia].
  unfold applyEscape. rewrite Hq.
  change (rune_of "G" =? rune_of "A") with false.
  change (rune_of "G" =? rune_of "B") with false.
  change (rune_of "G" =? rune_of "C") with false.
  change (rune_of "G" =? rune_of "D") with false.
  change (rune_of "G" =? rune_of "E") with false.
  change (rune_of "G" =? rune_of "F") with false.
  change (rune_of "G" =? rune_of "G") with true. cbv iota zeta.
  unfold GoInt.sub, GoInt.min_int, GoInt.max_int in *.
  destruct s; cbn in *.
  rewrite !wrap_id by (unfold GoInt.min_int, GoInt.max_int; lia).
  reflexivity.
Qed.

(** Cursor Position, code H of applyEscape, when it is called: for a
    parameter list that is not private, the cursor goes to row p1-1 and
    column p2-1, each clamped to the window, and nothing else changes. *)
Theorem cursor_position_absolute (ins : list gostring) (s : Screen) :
  HasPrefix_question (inst ins 0) = false ->
  0 < cols s <= GoInt.max_int -> 0 < lines s <= GoInt.max_int ->
  GoInt.min_int < ansiInt (inst ins 0) <= GoInt.max_int ->
  GoInt.min_int < ansiInt (inst ins 1) <= GoInt.max_int ->
  applyEscape (rune_of "H") ins s
    = Ok (set_x (Z.min (Z.max (ansiInt (inst ins 1) - 1) 0) (cols s - 1))
            (set_y (Z.min (Z.max (ansiInt (inst ins 0) - 1) 0) (lines s - 1))
               s))
  /\ 0 <= Z.min (Z.max (ansiInt (inst ins 1) - 1) 0) (cols s - 1) < cols s
  /\ 0 <= Z.min (Z.max (ansiInt (inst ins 0) - 1) 0) (lines s - 1) < lines s.
Proof.
  intros Hq Hc Hl Hn Hm. split; [|lia].
  unfold applyEscape. rewrite Hq.
  change (rune_of "H" =? rune_of "A") with false.
  change (rune_of "H" =? rune_of "B") with false.
  change (rune_of "H" =? rune_of "C") with false.
  change (rune_of "H" =? rune_of "D") with false.
  change (rune_of "H" =? rune_of "E") with false.
  change (rune_of "H" =? rune_of "F") with false.
  change (rune_of "H" =? rune_of "G") with false.
  change (rune_of "H" =? rune_of "H") with true. cbv iota zeta.
  unfold GoInt.sub, GoInt.min_int, GoInt.max_int in *.
  destruct s; cbn in *.
  rewrite !wrap_id by (unfold GoInt.min_int, GoInt.max_int; lia).
  reflexivity.
Qed.

Lemma clear_formula (xStart xEnd : Z) (l : screenLine) :
  clear xStart xEnd l =
    Ok (let a := Z.max xStart 0 in
        if (xEnd <? a) || (len (nodes l) <=? a) then l
        else if len (nodes l) - 1 <=? xEnd
             then set_nodes (take (Z.to_nat a) (nodes l)) l
             else set_nodes (take (Z.to_nat a) (nodes l)
                               ++ replicate (Z.to_nat (xEnd - a + 1)) emptyNode
                               ++ drop (Z.to_nat (xEnd + 1)) (nodes l)) l).
Proof.
  unfold clear. cbv zeta.
  assert (Ha : (if xStart <? 0 then 0 else xStart) = Z.max xStart 0)
    by (destruct (Z.ltb_spec xStart 0); lia).
  rewrite Ha. set (a := Z.max xStart 0). assert (0 <= a) by lia.
  pose proof (len_nonneg (nodes l)) as Hlen.
  destruct (Z.ltb_spec xEnd a); [reflexivity|]. cbn [orb].
  destruct (Z.leb_spec (len (nodes l)) a); [reflexivity|].
  destruct (Z.leb_spec (len (nodes l) - 1) xEnd).
  - rewrite slice_prefix by lia. reflexivity.
  - rewrite clearCells_spec; [| lia | clearbody a; lia].
    cbn [mbind res_bind].
    replace (Z.to_nat a + Z.to_nat (xEnd - a + 1))%nat
      with (Z.to_nat (xEnd + 1)) by lia.
    reflexivity.
Qed.

(** clear, for every range and every line: it returns (no index is out of
    range), it never makes the line longer, it keeps the metadata, the
    elements and the hyperlinks, every cell that is left outside
    [max(xStart,0) .. xEnd] is the cell that was there, every cell that is
    left inside is the empty cell, and cells are removed only from
    max(xStart,0) on and only if the range reaches the last cell. *)
Theorem clear_range (xStart xEnd : Z) (l : screenLine) :
  exists ns,
    clear xStart xEnd l = Ok (ScreenLine ns (metadata l) (elements l)
                                (hyperlinks l))
    /\ len ns <= len (nodes l)
    /\ (forall i c, ns !! i = Some c ->
          if (Z.max xStart 0 <=? Z.of_nat i) && (Z.of_nat i <=? xEnd)
          then c = emptyNode
          else nodes l !! i = Some c)
    /\ (len ns < len (nodes l) ->
          len ns = Z.max xStart 0 /\ len (nodes l) - 1 <= xEnd).
Proof.
  rewrite clear_formula. cbv zeta.
  set (a := Z.max xStart 0). assert (Ha : 0 <= a) by lia. clearbody a.
  pose proof (len_nonneg (nodes l)) as Hlen.
  destruct (Z.ltb_spec xEnd a) as [H1|H1]; cbn [orb].
  { exists (nodes l). split; [destruct l; reflexivity|].
    split; [lia|]. split; [|lia]. intros i c Hi.
    destruct (Z.leb_spec a (Z.of_nat i)); cbn [andb]; [|exact Hi].
    destruct (Z.leb_spec (Z.of_nat i) xEnd); [lia|exact Hi]. }
  destruct (Z.leb_spec (len (nodes l)) a) as [H2|H2].
  { exists (nodes l). split; [destruct l; reflexivity|].
    split; [lia|]. split; [|lia]. intros i c Hi.
    pose proof (lookup_lt_Some _ _ _ Hi). unfold len in H2.
    destruct (Z.leb_spec a (Z.of_nat i)); [lia|exact Hi]. }
  destruct (Z.leb_spec (len (nodes l) - 1) xEnd) as [H3|H3].
  - exists (take (Z.to_nat a) (nodes l)). split; [reflexivity|].
    assert (Hl : len (take (Z.to_nat a) (nodes l)) = a)
      by (unfold len in *; rewrite length_take; lia).
    split; [lia|]. split; [|lia]. intros i c Hi.
    pose proof (lookup_lt_Some _ _ _ Hi) as Hlt.
    unfold len in Hl. rewrite lookup_take_lt in Hi by lia.
    destruct (Z.leb_spec a (Z.of_nat i)); [lia|exact Hi].
  - eexists. split; [reflexivity|].
    assert (Hl : len (take (Z.to_nat a) (nodes l)
                      ++ replicate (Z.to_nat (xEnd - a + 1)) emptyNode
                      ++ drop (Z.to_nat (xEnd + 1)) (nodes l))
                 = len (nodes l)).
    { unfold len in *.
      rewrite !length_app, length_take, length_replicate, length_drop. lia. }
    split; [lia|]. split; [|lia]. intros i c Hi.
    destruct (Z.leb_spec a (Z.of_nat i)) as [Hai|Hai]; cbn [andb].
    + rewrite lookup_app_r in Hi by (rewrite length_take; unfold len in *; lia).
      rewrite length_take in Hi.
      replace (Z.to_nat a `min` length (nodes l))%nat with (Z.to_nat a) in Hi
        by (unfold len in *; lia).
      destruct (Z.leb_spec (Z.of_nat i) xEnd) as [Hie|Hie].
      * rewrite lookup_app_l in Hi by (rewrite length_replicate; lia).
        apply lookup_replicate in Hi as [-> _]. reflexivity.
      * rewrite lookup_app_r in Hi by (rewrite length_replicate; lia).
        rewrite length_replicate, lookup_drop in Hi.
        rewrite <- Hi. f_equal. lia.
    + rewrite lookup_app_l in Hi by (rewrite length_take; unfold len in *; lia).
      rewrite lookup_take_lt in Hi by lia. exact Hi.
Qed.

Lemma set_screen_set_screen (a b : list screenLine) (s : Screen) :
  set_screen a (set_screen b s) = set_screen a s.
Proof. reflexivity. Qed.

Lemma set_screen_id (s : Screen) : set_screen (screen s) s = s.
Proof. destruct s; reflexivity. Qed.

Lemma currentLine_Some (s : Screen) :
  sized s -> 0 <= y s -> top s + y s < len (screen s) ->
  currentLine s = Some (top s + y s).
Proof.
  intros Hs Hy Hlt. unfold currentLine, GoInt.add.
  pose proof (top_le_len s Hs). destruct Hs as (_ & _ & Hn).
  rewrite wrap_id by (unfold GoInt.min_int, GoInt.max_int in *; lia).
  destruct (Z.ltb_spec (top s + y s) 0); [lia|].
  destruct (Z.leb_spec (len (screen s)) (top s + y s)); [lia|reflexivity].
Qed.

(** With the cursor row inside the window, the first loop of
    currentLineForWriting adds the missing lines and nothing else. *)
Lemma allocLines_in_window (fuel : nat) (s : Screen) :
  sized s -> window_fits s -> 0 <= y s < lines s ->
  (missing_lines s <= fuel)%nat ->
  allocLines fuel s = Ok (set_screen (with_missing_lines s) s)
  /\ currentLine (set_screen (with_missing_lines s) s)
     = Some (Z.max 0 (len (with_missing_lines s) - lines s) + y s)
  /\ Z.max 0 (len (with_missing_lines s) - lines s) + y s
     < len (with_missing_lines s)
  /\ len (with_missing_lines s) <= GoInt.max_int.
Proof.
  unfold with_missing_lines, missing_lines.
  remember (Z.to_nat (y s + 1 - len (screen s))) as n eqn:Hn.
  revert s fuel Hn. induction n as [|n IH];
    intros s fuel Hn Hs Hw Hy Hfuel.
  - cbn [replicate]. rewrite app_nil_r, set_screen_id.
    pose proof (top_sized s Hs) as Htop.
    assert (Hlt : top s + y s < len (screen s)) by lia.
    pose proof (currentLine_Some s Hs ltac:(lia) Hlt) as Hcur.
    rewrite <- Htop. destruct Hs as (? & ? & ?).
    repeat split; try assumption.
    destruct fuel; cbn [allocLines]; rewrite Hcur; reflexivity.
  - destruct fuel as [|fuel]; [lia|].
    pose proof (len_nonneg (screen s)) as Hlen.
    assert (Hylen : len (screen s) <= y s) by lia.
    pose proof (top_sized s Hs) as Htop.
    assert (Hnone : currentLine s = None).
    { apply currentLine_below; [exact Hs|].
      destruct Hs as (? & ? & ?). lia. }
    cbn [allocLines]. rewrite Hnone.
    assert (Hcase : (maxLines s <=? 0)
                    || (len (screen s) + 1 <=? maxLines s) = true).
    { destruct (Z.leb_spec (maxLines s) 0); [reflexivity|].
      destruct Hw as [_ Hw]. apply Z.leb_le. lia. }
    unfold allocStep. rewrite Hcase. cbn [mbind res_bind].
    cbn [lines y set_screen].
    replace (lines s <=? y s) with false by (symmetry; apply Z.leb_gt; lia).
    set (s1 := set_screen (screen s ++ [newScreenLine []]) s).
    assert (Hlen1 : len (screen s1) = len (screen s) + 1).
    { unfold s1. cbn [screen set_screen]. rewrite len_app. reflexivity. }
    assert (Hs1 : sized s1).
    { destruct Hs as (? & ? & ?). unfold sized, s1 in *.
      cbn [cols lines screen set_screen] in *.
      rewrite len_app. change (len [newScreenLine []]) with 1.
      repeat split; lia. }
    specialize (IH s1 fuel).
    replace (lines s1) with (lines s) in IH by reflexivity.
    replace (y s1) with (y s) in IH by reflexivity.
    rewrite Hlen1 in IH.
    destruct IH as (Hrun & Hcur & Hlt & Hmax);
      [lia|exact Hs1|exact Hw|exact Hy|lia|].
    unfold s1 in Hrun, Hcur, Hlt, Hmax.
    cbn [screen set_screen] in Hrun, Hcur, Hlt, Hmax.
    rewrite set_screen_set_screen in Hrun, Hcur.
    rewrite <- app_assoc in Hrun, Hcur, Hlt, Hmax.
    change ([newScreenLine []] ++ replicate n (newScreenLine []))
      with (replicate (S n) (newScreenLine [])) in *.
    repeat split; assumption.
Qed.

Lemma len_padNodes (ns : list node) (x : Z) :
  len (padNodes ns x) = Z.max (len ns) (x + 1).
Proof.
  unfold padNodes, len. rewrite length_app, length_replicate. lia.
Qed.

(** With the cursor row inside the window and a column that is not
    negative, currentLineForWriting returns the line at the cursor row of
    the buffer with the missing lines added, padded with empty cells up to
    the cursor column. *)
Lemma currentLineForWriting_in_window (fuel : nat) (s : Screen) :
  sized s -> window_fits s -> 0 <= y s < lines s ->
  (missing_lines s <= fuel)%nat ->
  exists (yidx : nat) (line : screenLine),
    with_missing_lines s !! yidx = Some line
    /\ Z.of_nat yidx
       = Z.max 0 (len (with_missing_lines s) - lines s) + y s
    /\ currentLineForWriting fuel s
       = Ok (set_screen
               (<[yidx := set_nodes (padNodes (nodes line) (x s)) line]>
                  (with_missing_lines s)) s,
             Z.of_nat yidx).
Proof.
  intros Hs Hw Hy Hfuel.
  destruct (allocLines_in_window fuel s Hs Hw Hy Hfuel)
    as (Hrun & Hcur & Hlt & Hmax).
  set (yi := Z.max 0 (len (with_missing_lines s) - lines s) + y s) in *.
  assert (Hyi : 0 <= yi) by (unfold yi; lia).
  destruct (lookup_lt_is_Some_2 (with_missing_lines s) (Z.to_nat yi))
    as [line Hline]; [unfold len in Hlt; lia|].
  exists (Z.to_nat yi), line. split; [exact Hline|].
  split; [lia|].
  unfold currentLineForWriting. rewrite Hrun. cbn [mbind res_bind].
  rewrite Hcur. cbn [screen set_screen x].
  rewrite (index_ok _ _ _ Hyi Hline). cbn [mbind res_bind].
  rewrite set_index_ok by lia. cbn [mbind res_bind].
  rewrite set_screen_set_screen. rewrite Z2Nat.id by lia. reflexivity.
Qed.

(** append with the cursor row inside the window and a column that is
    not negative: the lines missing below the buffer are added (no line is
    scrolled out), the line at the cursor is padded with empty cells up to
    the cursor column, the cell at the cursor column becomes the rune with
    the current style, the cursor moves one column to the right (it is not
    clamped), and with a hyperlink style the column is mapped to the
    current URL.  No other line, cell or field changes. *)
Theorem append_stores_rune (fuel : nat) (r : Z) (s : Screen) :
  sized s -> window_fits s -> 0 <= y s < lines s ->
  0 <= x s < GoInt.max_int -> (missing_lines s <= fuel)%nat ->
  exists (yidx : nat) (line line' : screenLine),
    with_missing_lines s !! yidx = Some line
    /\ Z.of_nat yidx
       = Z.max 0 (len (with_missing_lines s) - lines s) + y s
    /\ append fuel r s
       = Ok (set_x (x s + 1)
               (set_screen (<[yidx := line']> (with_missing_lines s)) s))
    /\ nodes line'
       = <[Z.to_nat (x s) := Node r (sstyle s)]>
           (nodes line
              ++ replicate (Z.to_nat (x s + 1 - len (nodes line))) emptyNode)
    /\ nodes line' !! Z.to_nat (x s) = Some (Node r (sstyle s))
    /\ len (nodes line') = Z.max (len (nodes line)) (x s + 1)
    /\ metadata line' = metadata line /\ elements line' = elements line
    /\ hyperlinks line'
       = if style_hyperlink (sstyle s)
         then Some (<[x s := urlBrush s]> (default ∅ (hyperlinks line)))
         else hyperlinks line.
Proof.
  intros Hs Hw Hy Hx Hfuel.
  destruct (currentLineForWriting_in_window fuel s Hs Hw Hy Hfuel)
    as (yidx & line & Hline & Hyidx & Hrun).
  pose proof (lookup_lt_Some _ _ _ Hline) as Hlt.
  pose proof (len_padNodes (nodes line) (x s)) as Hpad.
  pose proof (len_nonneg (nodes line)) as Hnl.
  exists yidx, line.
  eexists (ScreenLine
             (<[Z.to_nat (x s) := Node r (sstyle s)]>
                (padNodes (nodes line) (x s)))
             (metadata line) (elements line)
             (if style_hyperlink (sstyle s)
              then Some (<[x s := urlBrush s]> (default ∅ (hyperlinks line)))
              else hyperlinks line)).
  split; [exact Hline|]. split; [exact Hyidx|].
  split.
  - unfold append, write. rewrite Hrun. cbn [mbind res_bind].
    cbn [screen set_screen x sstyle urlBrush].
    rewrite (index_ok _ (Z.of_nat yidx)
               (set_nodes (padNodes (nodes line) (x s)) line))
      by (try lia; rewrite Nat2Z.id, list_lookup_insert_eq by lia;
          reflexivity).
    cbn [mbind res_bind nodes set_nodes].
    rewrite set_index_ok by lia. cbn [mbind res_bind].
    rewrite set_index_ok by (rewrite len_insert; unfold len; lia).
    cbn [mbind res_bind]. rewrite Nat2Z.id, list_insert_insert_eq.
    unfold GoInt.add. cbn [x set_screen].
    rewrite wrap_id by (unfold GoInt.min_int, GoInt.max_int in *; lia).
    rewrite set_screen_set_screen.
    destruct (style_hyperlink (sstyle s)); reflexivity.
  - cbn [nodes metadata elements hyperlinks].
    split; [reflexivity|]. split.
    { apply list_lookup_insert_eq. unfold len in Hpad. lia. }
    split; [rewrite len_insert; exact Hpad|].
    repeat split.
Qed.

(** appendElement with the cursor row inside the window and a column that
    is not negative: the element is added at the end of the elements of
    the line at the cursor, the cell at the cursor column gets the current
    style with the element bit set and, as its rune, the position of the
    element converted to a rune, and the cursor moves one column to the
    right.  While the line holds fewer than 2^31 elements, that rune is
    the index of the element in the elements of the line. *)
Theorem appendElement_stores_index (fuel : nat) (e : element) (s : Screen) :
  sized s -> window_fits s -> 0 <= y s < lines s ->
  0 <= x s < GoInt.max_int -> (missing_lines s <= fuel)%nat ->
  exists (yidx : nat) (line line' : screenLine) (cell : node),
    with_missing_lines s !! yidx = Some line
    /\ Z.of_nat yidx
       = Z.max 0 (len (with_missing_lines s) - lines s) + y s
    /\ appendElement fuel e s
       = Ok (set_x (x s + 1)
               (set_screen (<[yidx := line']> (with_missing_lines s)) s))
    /\ elements line' = elements line ++ [e]
    /\ nodes line' !! Z.to_nat (x s) = Some cell
    /\ nstyle cell = style_setElement (sstyle s) true
    /\ blob cell = GoInt.to_rune (len (elements line))
    /\ (len (elements line) < 2 ^ 31 ->
        elements line' !! Z.to_nat (blob cell) = Some e)
    /\ len (nodes line') = Z.max (len (nodes line)) (x s + 1)
    /\ metadata line' = metadata line /\ hyperlinks line' = hyperlinks line.
Proof.
  intros Hs Hw Hy Hx Hfuel.
  destruct (currentLineForWriting_in_window fuel s Hs Hw Hy Hfuel)
    as (yidx & line & Hline & Hyidx & Hrun).
  pose proof (lookup_lt_Some _ _ _ Hline) as Hlt.
  pose proof (len_padNodes (nodes line) (x s)) as Hpad.
  pose proof (len_nonneg (nodes line)) as Hnl.
  pose proof (len_nonneg (elements line)) as Hel.
  exists yidx, line.
  exists (ScreenLine
            (<[Z.to_nat (x s) :=
                 Node (GoInt.to_rune (len (elements line)))
                   (style_setElement (sstyle s) true)]>
               (padNodes (nodes line) (x s)))
            (metadata line) (elements line ++ [e]) (hyperlinks line)).
  exists (Node (GoInt.to_rune (len (elements line)))
            (style_setElement (sstyle s) true)).
  split; [exact Hline|]. split; [exact Hyidx|].
  split.
  - unfold appendElement. rewrite Hrun. cbn [mbind res_bind].
    cbn [screen set_screen x sstyle].
    rewrite (index_ok _ (Z.of_nat yidx)
               (set_nodes (padNodes (nodes line) (x s)) line))
      by (try lia; rewrite Nat2Z.id, list_lookup_insert_eq by lia;
          reflexivity).
    cbn [mbind res_bind nodes elements set_nodes set_elements].
    rewrite set_index_ok by lia. cbn [mbind res_bind].
    rewrite set_index_ok by (rewrite len_insert; unfold len; lia).
    cbn [mbind res_bind]. rewrite Nat2Z.id, list_insert_insert_eq.
    unfold GoInt.add. cbn [x set_screen].
    rewrite wrap_id by (unfold GoInt.min_int, GoInt.max_int in *; lia).
    rewrite set_screen_set_screen. reflexivity.
  - cbn [nodes metadata elements hyperlinks blob nstyle].
    split; [reflexivity|]. split.
    { apply list_lookup_insert_eq. unfold len in Hpad. lia. }
    split; [reflexivity|]. split; [reflexivity|]. split.
    { intros Hsmall. unfold GoInt.to_rune.
      rewrite Z.mod_small by lia.
      replace (len (elements line) + 2 ^ 31 - 2 ^ 31)
        with (len (elements line)) by lia.
      rewrite to_nat_len. apply list_lookup_middle. reflexivity. }
    split; [rewrite len_insert; exact Hpad|].
    split; reflexivity.
Qed.

(** setLineMetadata with the cursor row inside the window: the metadata of
    the line at the cursor is not nil afterwards; in the given namespace
    every key of the new data has its new value and every other key keeps
    the value it had, and the other namespaces are as they were.  The
    cells, elements and hyperlinks of the line are kept, apart from the
    padding with empty cells up to the cursor column. *)
Theorem setLineMetadata_merges (fuel : nat) (namespace : gostring)
    (data : gmap gostring gostring) (s : Screen) :
  sized s -> window_fits s -> 0 <= y s < lines s ->
  (missing_lines s <= fuel)%nat ->
  exists (yidx : nat) (line line' : screenLine)
         (md : gmap gostring (gmap gostring gostring))
         (merged : gmap gostring gostring),
    with_missing_lines s !! yidx = Some line
    /\ Z.of_nat yidx
       = Z.max 0 (len (with_missing_lines s) - lines s) + y s
    /\ setLineMetadata fuel namespace data s
       = Ok (set_screen (<[yidx := line']> (with_missing_lines s)) s)
    /\ metadata line' = Some md
    /\ md !! namespace = Some merged
    /\ (forall k v, data !! k = Some v -> merged !! k = Some v)
    /\ (forall k, data !! k = None ->
          merged !! k
          = default ∅ (default ∅ (metadata line) !! namespace) !! k)
    /\ (forall n, n <> namespace ->
          md !! n = default ∅ (metadata line) !! n)
    /\ nodes line'
       = nodes line
           ++ replicate (Z.to_nat (x s + 1 - len (nodes line))) emptyNode
    /\ elements line' = elements line /\ hyperlinks line' = hyperlinks line.
Proof.
  intros Hs Hw Hy Hfuel.
  destruct (currentLineForWriting_in_window fuel s Hs Hw Hy Hfuel)
    as (yidx & line & Hline & Hyidx & Hrun).
  pose proof (lookup_lt_Some _ _ _ Hline) as Hlt.
  set (md :=
         match metadata line with
         | None => {[ namespace := data ]}
         | Some md =>
             match md !! namespace with
             | None => <[ namespace := data ]> md
             | Some ns => <[ namespace := data ∪ ns ]> md
             end
         end).
  exists yidx, line.
  exists (ScreenLine (padNodes (nodes line) (x s)) (Some md) (elements line)
            (hyperlinks line)).
  exists md.
  exists (data ∪ default ∅ (default ∅ (metadata line) !! namespace)).
  split; [exact Hline|]. split; [exact Hyidx|].
  split.
  { unfold setLineMetadata. rewrite Hrun. cbn [mbind res_bind].
    cbn [screen set_screen].
    rewrite (index_ok _ (Z.of_nat yidx)
               (set_nodes (padNodes (nodes line) (x s)) line))
      by (try lia; rewrite Nat2Z.id, list_lookup_insert_eq by lia;
          reflexivity).
    cbn [mbind res_bind metadata set_nodes].
    rewrite set_index_ok by (rewrite len_insert; unfold len; lia).
    cbn [mbind res_bind]. rewrite Nat2Z.id, list_insert_insert_eq.
    rewrite set_screen_set_screen. reflexivity. }
  cbn [nodes metadata elements hyperlinks].
  split; [reflexivity|]. split.
  { unfold md. destruct (metadata line) as [m|]; simpl.
    - destruct (m !! namespace) as [ns|] eqn:Hns; simpl;
        rewrite lookup_insert_eq; [reflexivity|].
      rewrite (right_id_L ∅ (∪)). reflexivity.
    - rewrite lookup_singleton_eq, lookup_empty. simpl.
      rewrite (right_id_L ∅ (∪)). reflexivity. }
  split.
  { intros k v Hk. apply lookup_union_Some_l. exact Hk. }
  split.
  { intros k Hk. apply lookup_union_r. exact Hk. }
  split.
  { intros n Hn. unfold md. destruct (metadata line) as [m|]; simpl.
    - destruct (m !! namespace); rewrite lookup_insert_ne by congruence;
        reflexivity.
    - rewrite lookup_singleton_ne by congruence. reflexivity. }
  repeat split.
Qed.

Lemma package_option_window (o : ScreenOption) (s s' : Screen) :
  package_option o -> o s = Some s' ->
  0 < cols s -> 0 < lines s -> window_fits s ->
  0 < cols s' /\ 0 < lines s' /\ window_fits s'
  /\ screen s' = screen s /\ x s' = x s /\ y s' = y s.
Proof.
  intros [(w & h & ->)|[(mc & ml & ->)| ->]] Hrun Hc Hl [Hwc Hwl].
  - unfold WithSize, SetSize in Hrun.
    destruct (Z.leb_spec w 0); [discriminate|].
    destruct (Z.leb_spec h 0); [discriminate|]. cbn [orb] in Hrun.
    destruct (Z.ltb_spec 0 (maxColumns s)); cbn [andb] in Hrun;
      [destruct (Z.ltb_spec (maxColumns s) w); [discriminate|]|];
      (destruct (Z.ltb_spec 0 (maxLines s)); cbn [andb] in Hrun;
       [destruct (Z.ltb_spec (maxLines s) h); [discriminate|]|]);
      injection Hrun as <-; unfold window_fits;
      cbn [cols lines maxColumns maxLines screen x y];
      repeat split; intros; lia.
  - unfold WithMaxSize in Hrun. injection Hrun as <-.
    unfold window_fits. cbn [cols lines maxColumns maxLines screen x y].
    destruct (Z.ltb_spec 0 mc); destruct (Z.ltb_spec 0 ml);
      repeat split; intros; lia.
  - unfold WithScrollOutFunc in Hrun. injection Hrun as <-.
    unfold window_fits. cbn [cols lines maxColumns maxLines screen x y].
    repeat split; intros; auto.
Qed.

(** NewScreen with options of the package: if it returns a screen, the
    window of that screen has at least one column and one line and is
    within the limits that are in use; the buffer is empty, the cursor is
    at (0,0) and the parser holds no bytes.  (An option that does not fit
    makes NewScreen return an error instead.) *)
Theorem NewScreen_window (opts : list ScreenOption) (st : parser) :
  Forall package_option opts -> NewScreen opts = Some st ->
  0 < cols (scr st) /\ 0 < lines (scr st) /\ window_fits (scr st)
  /\ screen (scr st) = [] /\ x (scr st) = 0 /\ y (scr st) = 0 /\ idle st.
Proof.
  intros Hopts Hrun. unfold NewScreen in Hrun.
  destruct (applyOptions opts zeroScreen) as [s|] eqn:Happ; [|discriminate].
  injection Hrun as <-. cbn [scr].
  assert (Hgen : forall s0,
            applyOptions opts s0 = Some s ->
            0 < cols s0 -> 0 < lines s0 -> window_fits s0 ->
            0 < cols s /\ 0 < lines s /\ window_fits s
            /\ screen s = screen s0 /\ x s = x s0 /\ y s = y s0).
  { clear Happ. induction Hopts as [|o opts Ho _ IH]; intros s0 Happ Hc Hl Hw.
    - injection Happ as <-.
      split; [exact Hc|]. split; [exact Hl|]. split; [exact Hw|].
      repeat split.
    - cbn [applyOptions] in Happ.
      destruct (o s0) as [s1|] eqn:Hs1; [|discriminate].
      destruct (package_option_window o s0 s1 Ho Hs1 Hc Hl Hw)
        as (Hc1 & Hl1 & Hw1 & Hscr1 & Hx1 & Hy1).
      destruct (IH s1 Happ Hc1 Hl1 Hw1) as (Hc2 & Hl2 & Hw2 & ? & ? & ?).
      split; [exact Hc2|]. split; [exact Hl2|]. split; [exact Hw2|].
      repeat split; congruence. }
  destruct (Hgen zeroScreen Happ) as (Hc & Hl & Hw & Hscr & Hx & Hy);
    [reflexivity|reflexivity|split; cbn; lia|].
  split; [exact Hc|]. split; [exact Hl|]. split; [exact Hw|].
  split; [exact Hscr|]. split; [exact Hx|]. split; [exact Hy|].
  repeat split.
Qed.

(** Write keeps the offsets of the parser consistent with its buffer, and
    after a Write that returns the parser holds exactly the bytes of the
    sequence that is still open: all bytes have been read; in Normal mode
    the buffer is empty (the parser is idle); in any other mode the buffer
    is the end of the input so far, from the start of the open escape
    sequence on. *)
Theorem Write_keeps_open_sequence (fuel : nat) (input : list byte)
    (st st' : parser) :
  pinv st -> state_after (Write fuel input st) = Ok st' ->
  pinv st' /\ cursor st' = len (buffer st')
  /\ (mode st' = parserModeNormal -> idle st')
  /\ (mode st' <> parserModeNormal -> escapeStartedAt st' = 0)
  /\ exists pre, buffer st ++ input = pre ++ buffer st'.
Proof.
  intros Hinv Hrun. rewrite state_after_Write in Hrun.
  destruct (parseLoop fuel fuel (ext input st)) as [st1| |] eqn:Hloop;
    cbn [mbind res_bind] in Hrun; try discriminate.
  destruct (parseLoop_pinv _ _ _ _ (pinv_ext input st Hinv) Hloop)
    as (Hinv1 & Hbuf1 & Hcur1).
  destruct (dropDone_ok st1 Hinv1) as (m & Hdrop & Hinvm & Hshift & Hscr).
  rewrite Hdrop in Hrun. injection Hrun as <-.
  pose proof (done_range st1 Hinv1) as Hd.
  set (pre := take (Z.to_nat (done st1)) (buffer st1)) in *.
  assert (Hlpre : len pre = done st1).
  { unfold pre, len in *. rewrite length_take. lia. }
  assert (Hb : buffer st1 = pre ++ buffer m)
    by (rewrite Hshift at 1; reflexivity).
  assert (Hc : cursor st1 = cursor m + len pre)
    by (rewrite Hshift at 1; reflexivity).
  assert (He : escapeStartedAt st1 = escapeStartedAt m + len pre)
    by (rewrite Hshift at 1; reflexivity).
  assert (Hm : mode st1 = mode m) by (rewrite Hshift at 1; reflexivity).
  assert (Hlen : len (buffer st1) = len pre + len (buffer m))
    by (rewrite Hb at 1; apply len_app).
  destruct Hinv1 as [Hc1 _]. pose proof (len_nonneg (buffer m)) as Hlm.
  split; [exact Hinvm|]. split; [lia|]. split; [|split].
  - intros Hn. unfold done in Hlpre. rewrite Hm, Hn in Hlpre.
    assert (H0 : len (buffer m) = 0) by lia.
    repeat split; [|lia|exact Hn].
    destruct (buffer m); [reflexivity|]. rewrite len_cons in H0.
    pose proof (len_nonneg l). lia.
  - intros Hn. unfold done in Hlpre. rewrite Hm in Hlpre.
    destruct (mode m); try congruence; lia.
  - exists pre. rewrite <- Hb, Hbuf1. reflexivity.
Qed.

Lemma plain_text_loop (text : list byte) :
  forall (pre : list byte) (s : Screen) c e ins i sp ts n fuel,
    forallb plain_byte text = true -> c = len pre ->
    parseLoop (length text + n) fuel
      (MkParser s (pre ++ text) parserModeNormal c e ins i sp ts)
    = s' ← appendMany fuel (map b2z text) s;
      parseLoop n fuel
        (MkParser s' (pre ++ text) parserModeNormal (c + len text) e ins i
           sp ts).
Proof.
  induction text as [|b text IH];
    intros pre s c e ins i sp ts n fuel Hb Hc.
  - cbn [length Nat.add map appendMany mbind res_bind].
    change (len (@nil byte)) with 0. rewrite Z.add_0_r. reflexivity.
  - cbn [forallb] in Hb. apply andb_true_iff in Hb as [Hb Htext].
    unfold plain_byte in Hb. apply andb_true_iff in Hb as [Hascii Hctl].
    apply Z.ltb_lt in Hascii. apply negb_true_iff in Hctl.
    apply orb_false_iff in Hctl as [Hctl H1b].
    apply orb_false_iff in Hctl as [Hctl H08].
    apply orb_false_iff in Hctl as [H0a H0d].
    pose proof (len_nonneg pre). pose proof (len_nonneg text).
    cbn [length Nat.add]. rewrite parseLoop_S. norm_parser.
    replace (c <? len (pre ++ b :: text)) with true
      by (symmetry; apply Z.ltb_lt; rewrite len_app, len_cons; lia).
    rewrite (parseStep_ascii _ _ b); norm_parser; [|lia| |exact Hascii].
    2:{ subst c. rewrite to_nat_len. apply list_lookup_middle. reflexivity. }
    unfold handleNormal. rewrite H0a, H0d, H08, H1b. norm_parser.
    cbn [map appendMany].
    destruct (append fuel (b2z b) s) as [s1| |]; cbn [mbind res_bind];
      try reflexivity.
    norm_parser.
    replace (pre ++ b :: text) with ((pre ++ [b]) ++ text)
      by (rewrite <- app_assoc; reflexivity).
    rewrite (IH (pre ++ [b]) s1 (c + 1) e ins i sp ts n fuel Htext)
      by (rewrite len_app; change (len [b]) with 1; lia).
    rewrite len_cons.
    destruct (appendMany fuel (map b2z text) s1); cbn [mbind res_bind];
      try reflexivity.
    do 2 f_equal; lia.
Qed.

(** The run of plain text through the parser. *)
Lemma Write_plain_text_run (text : list byte) (s : Screen) e ins i sp ts
    (fuel : nat) :
  forallb plain_byte text = true -> (length text <= fuel)%nat ->
  state_after
    (Write fuel text (MkParser s [] parserModeNormal 0 e ins i sp ts))
  = res_map
      (fun s' =>
         MkParser s' [] parserModeNormal 0 (e - len text) ins (i - len text)
           sp ts)
      (appendMany fuel (map b2z text) s).
Proof.
  intros Htext Hfuel.
  rewrite state_after_Write. unfold ext. norm_parser. cbn [app].
  destruct (Nat.le_exists_sub _ _ Hfuel) as [k [Hk _]].
  assert (Hn : exists n, n = fuel) by (exists fuel; reflexivity).
  destruct Hn as [n Hn]. rewrite <- Hn at 1.
  replace n with (length text + k)%nat by lia.
  change text with ([] ++ text) at 2.
  rewrite (plain_text_loop text [] s 0 e ins i sp ts k fuel Htext eq_refl).
  unfold res_map.
  destruct (appendMany fuel (map b2z text) s) as [s'| |];
    cbn [mbind res_bind]; try reflexivity.
  cbn [app].
  rewrite parseLoop_end by (norm_parser; apply Z.ltb_ge; lia).
  cbn [mbind res_bind]. rewrite dropDone_all by lia.
  do 2 f_equal; lia.
Qed.

(** Plain ASCII text (no line feed, carriage return, backspace or escape)
    written to an idle parser: the bytes are appended to the screen one by
    one, in order, as by appendMany, and the parser is idle again with an
    empty buffer.  Other control characters, such as BEL and TAB, are
    appended as cells like any other byte. *)
Theorem Write_plain_text (text : list byte) (st : parser) (fuel : nat) :
  idle st -> forallb plain_byte text = true -> (length text <= fuel)%nat ->
  state_after (Write fuel text st)
  = res_map
      (fun s' =>
         MkParser s' [] parserModeNormal 0 (escapeStartedAt st - len text)
           (instructions st) (instructionStartedAt st - len text)
           (savePosition st) (lastTimestamp st))
      (appendMany fuel (map b2z text) (scr st)).
Proof.
  intros (Hbuf & Hcur & Hmode) Htext Hfuel.
  destruct st as [s buf m cu e ins i sp ts]. cbn in Hbuf, Hcur, Hmode.
  subst buf cu m. norm_parser.
  apply Write_plain_text_run; assumption.
Qed.

Lemma slice_all {A} (l : list A) : slice l 0 (len l) = Ok l.
Proof.
  rewrite slice_suffix by (pose proof (len_nonneg l); lia).
  reflexivity.
Qed.

Lemma processOperatingSystemCommand_payload fuel end_ (p : parser) payload :
  slice (buffer p) (instructionStartedAt p) end_ = Ok payload ->
  processOperatingSystemCommand fuel end_ p
  = res_map (fun q => set_scr (scr q) (set_mode parserModeNormal p))
      (processOperatingSystemCommand fuel (len payload)
         (payload_parser (scr p) payload (savePosition p)
            (lastTimestamp p))).
Proof.
  intros Hs. unfold processOperatingSystemCommand, payload_parser.
  norm_parser. rewrite Hs, slice_all. cbn [mbind res_bind].
  destruct (parseElementSequence payload) as [image err].
  destruct image as [im|], err as [er|]; cbn [res_map mbind res_bind];
    try reflexivity;
    repeat match goal with
    | _ => progress cbn [res_map mbind res_bind]
    | |- context [if ?c then _ else _] => destruct c
    | |- context [Screen_clear ?a ?b ?c ?d] =>
        destruct (Screen_clear a b c d); cbn [res_map mbind res_bind];
        try reflexivity
    | |- context [appendMany ?f ?r ?s] =>
        destruct (appendMany f r s); cbn [res_map mbind res_bind];
        try reflexivity
    | |- context [appendElement ?f ?r ?s] =>
        destruct (appendElement f r s); cbn [res_map mbind res_bind];
        try reflexivity
    end.
Qed.

Lemma processApplicationProgramCommand_payload fuel end_ (p : parser)
    payload :
  slice (buffer p) (instructionStartedAt p) end_ = Ok payload ->
  processApplicationProgramCommand fuel end_ p
  = res_map (fun q => set_scr (scr q)
                        (set_lastTimestamp (lastTimestamp q)
                           (set_mode parserModeNormal p)))
      (processApplicationProgramCommand fuel (len payload)
         (payload_parser (scr p) payload (savePosition p)
            (lastTimestamp p))).
Proof.
  intros Hs. unfold processApplicationProgramCommand, payload_parser.
  norm_parser. rewrite Hs, slice_all. cbn [mbind res_bind].
  destruct (parseBuildkiteAPC (lastTimestamp p) payload) as [[data err] ts].
  norm_parser.
  destruct err as [er|]; [|destruct data as [d|]];
    cbn [res_map mbind res_bind]; try reflexivity;
    repeat match goal with
    | _ => progress cbn [res_map mbind res_bind]
    | |- context [appendMany ?f ?r ?s] =>
        destruct (appendMany f r s); cbn [res_map mbind res_bind];
        try reflexivity
    | |- context [setLineMetadata ?f ?n ?d ?s] =>
        destruct (setLineMetadata f n d s); cbn [res_map mbind res_bind];
        try reflexivity
    end.
Qed.

Lemma string_byte_cases (b : byte) :
  string_byte b = true ->
  b2z b < 0x80 /\ (b2z b =? 0x07) = false /\ (b2z b =? 0x1b) = false.
Proof.
  unfold string_byte. intros H. apply andb_true_iff in H as [H1 H2].
  apply Z.ltb_lt in H1. apply negb_true_iff in H2.
  apply orb_false_iff in H2 as [H2 H3]. auto.
Qed.

Lemma string_body_loop (payload : list byte) :
  forall (pre tail : list byte) (s : Screen) m c e ins i sp ts n fuel,
    forallb string_byte payload = true -> c = len pre ->
    m = parserModeOSC \/ m = parserModeAPC ->
    parseLoop (length payload + n) fuel
      (MkParser s (pre ++ payload ++ tail) m c e ins i sp ts)
    = parseLoop n fuel
        (MkParser s (pre ++ payload ++ tail) m (c + len payload) e ins i
           sp ts).
Proof.
  induction payload as [|b payload IH];
    intros pre tail s m c e ins i sp ts n fuel Hb Hc Hm.
  - cbn [length Nat.add]. change (len (@nil byte)) with 0.
    rewrite Z.add_0_r. reflexivity.
  - cbn [forallb] in Hb. apply andb_true_iff in Hb as [Hb Hrest].
    destruct (string_byte_cases b Hb) as (Hascii & H07 & H1b).
    pose proof (len_nonneg pre). pose proof (len_nonneg payload).
    pose proof (len_nonneg tail).
    cbn [length Nat.add]. rewrite parseLoop_S. norm_parser.
    replace (c <? len (pre ++ (b :: payload) ++ tail)) with true
      by (symmetry; apply Z.ltb_lt; rewrite !len_app, len_cons; lia).
    rewrite (parseStep_ascii _ _ b); norm_parser; [|lia| |exact Hascii].
    2:{ subst c. rewrite to_nat_len. apply list_lookup_middle. reflexivity. }
    assert (Hstep :
      match m with
      | parserModeEscape => Ok (handleEscape (b2z b)
          (MkParser s (pre ++ (b :: payload) ++ tail) m c e ins i sp ts))
      | parserModeControl => handleControlSequence (b2z b)
          (MkParser s (pre ++ (b :: payload) ++ tail) m c e ins i sp ts)
      | parserModeOSC => handleOperatingSystemCommand fuel (b2z b)
          (MkParser s (pre ++ (b :: payload) ++ tail) m c e ins i sp ts)
      | parserModeOSCEsc => handleOSCEscape fuel (b2z b)
          (MkParser s (pre ++ (b :: payload) ++ tail) m c e ins i sp ts)
      | parserModeCharset => Ok (handleCharset (b2z b)
          (MkParser s (pre ++ (b :: payload) ++ tail) m c e ins i sp ts))
      | parserModeAPC => handleApplicationProgramCommand fuel (b2z b)
          (MkParser s (pre ++ (b :: payload) ++ tail) m c e ins i sp ts)
      | parserModeAPCEsc => handleAPCEscape fuel (b2z b)
          (MkParser s (pre ++ (b :: payload) ++ tail) m c e ins i sp ts)
      | parserModeNormal => handleNormal fuel (b2z b)
          (MkParser s (pre ++ (b :: payload) ++ tail) m c e ins i sp ts)
      end = Ok (MkParser s (pre ++ (b :: payload) ++ tail) m c e ins i
                  sp ts)).
    { destruct Hm as [-> | ->];
        unfold handleOperatingSystemCommand,
          handleApplicationProgramCommand; rewrite H07, H1b; reflexivity. }
    rewrite Hstep. cbn [mbind res_bind]. norm_parser.
    replace (pre ++ (b :: payload) ++ tail)
      with ((pre ++ [b]) ++ payload ++ tail)
      by (rewrite <- app_assoc; reflexivity).
    rewrite (IH (pre ++ [b]) tail s m (c + 1) e ins i sp ts n fuel Hrest)
      by (try exact Hm; rewrite len_app; change (len [b]) with 1; lia).
    rewrite len_cons. do 2 f_equal; lia.
Qed.

Lemma string_sequence_body (intro : byte) (m : parserMode)
    (payload tail : list byte) (s : Screen) e ins i sp ts n fuel :
  (intro = "]"%byte /\ m = parserModeOSC)
  \/ (intro = "_"%byte /\ m = parserModeAPC) ->
  forallb string_byte payload = true ->
  parseLoop (S (S (length payload + n))) fuel
    (MkParser s ([ESC; intro] ++ payload ++ tail) parserModeNormal 0 e ins
       i sp ts)
  = parseLoop n fuel
      (MkParser s ([ESC; intro] ++ payload ++ tail) m (2 + len payload) 0
         ins 2 sp ts).
Proof.
  intros Hm Hp.
  pose proof (len_nonneg payload). pose proof (len_nonneg tail).
  assert (Hlen : len ([ESC; intro] ++ payload ++ tail)
                 = 2 + len payload + len tail).
  { rewrite !len_app. change (len [ESC; intro]) with 2. lia. }
  rewrite parseLoop_S. norm_parser. rewrite Hlen.
  replace (0 <? 2 + len payload + len tail) with true
    by (symmetry; apply Z.ltb_lt; lia).
  rewrite (parseStep_ascii _ _ ESC);
    [|norm_parser; lia|reflexivity|vm_compute; reflexivity].
  norm_parser. unfold handleNormal. norm_parser. eval_closed.
  cbn [mbind res_bind]. norm_parser. eval_closed.
  rewrite parseLoop_S. norm_parser. rewrite Hlen.
  replace (1 <? 2 + len payload + len tail) with true
    by (symmetry; apply Z.ltb_lt; lia).
  rewrite (parseStep_ascii _ _ intro);
    [|norm_parser; lia|reflexivity
     |destruct Hm as [[-> _]|[-> _]]; vm_compute; reflexivity].
  norm_parser.
  assert (Hesc : handleEscape (b2z intro)
                   (MkParser s ([ESC; intro] ++ payload ++ tail)
                      parserModeEscape 1 0 ins i sp ts)
                 = MkParser s ([ESC; intro] ++ payload ++ tail) m 1 0 ins 2
                     sp ts).
  { destruct Hm as [[-> ->]|[-> ->]]; reflexivity. }
  rewrite Hesc. cbn [mbind res_bind]. norm_parser. eval_closed.
  apply (string_body_loop payload [ESC; intro] tail s m 2 0 ins 2 sp ts n
           fuel Hp eq_refl).
  destruct Hm as [[_ ->]|[_ ->]]; auto.
Qed.

(** An operating system command [ESC ] payload] ended by BEL or by
    [ESC \], written in one call to an idle parser, with a payload of
    ASCII bytes other than BEL and escape: in both cases the screen is the
    one that processOperatingSystemCommand leaves for exactly that
    payload, the instructions of the parser are kept, and the parser is
    idle again with an empty buffer. *)
Theorem OSC_terminators (payload : list byte) (st : parser) (fuel : nat) :
  idle st -> forallb string_byte payload = true ->
  (length payload + 4 <= fuel)%nat ->
  let run := processOperatingSystemCommand fuel (len payload)
               (payload_parser (scr st) payload (savePosition st)
                  (lastTimestamp st)) in
  state_after (Write fuel ([ESC; "]"%byte] ++ payload ++ [BEL]) st)
  = res_map
      (fun q =>
         MkParser (scr q) [] parserModeNormal 0 (- (len payload + 3))
           (instructions st) (- (len payload + 1)) (savePosition st)
           (lastTimestamp st)) run
  /\ state_after
       (Write fuel ([ESC; "]"%byte] ++ payload ++ [ESC; "\"%byte]) st)
     = res_map
         (fun q =>
            MkParser (scr q) [] parserModeNormal 0 (- (len payload + 4))
              (instructions st) (- (len payload + 2)) (savePosition st)
              (lastTimestamp st)) run.
Proof.
  intros (Hbuf & Hcur & Hmode) Hp Hfuel run.
  destruct st as [s buf m cu e ins i sp ts]. cbn in Hbuf, Hcur, Hmode.
  subst buf cu m. norm_parser. unfold run. clear run. norm_parser.
  pose proof (len_nonneg payload) as Hlp.
  destruct (Nat.le_exists_sub _ _ Hfuel) as [k [Hk _]].
  assert (Hn : exists n, n = fuel) by (exists fuel; reflexivity).
  destruct Hn as [n Hn].
  split.
  - rewrite state_after_Write. unfold ext. norm_parser. cbn [app].
    rewrite <- Hn at 1.
    replace n with (S (S (length payload + S (S k)))) by lia.
    change (ESC :: "]"%byte :: payload ++ [BEL])
      with ([ESC; "]"%byte] ++ payload ++ [BEL]).
    rewrite (string_sequence_body "]" parserModeOSC) by auto.
    assert (Hlen : len ([ESC; "]"%byte] ++ payload ++ [BEL])
                   = 2 + len payload + 1).
    { rewrite !len_app. change (len [ESC; "]"%byte]) with 2.
      change (len [BEL]) with 1. lia. }
    rewrite parseLoop_S. norm_parser. rewrite Hlen.
    replace (2 + len payload <? 2 + len payload + 1) with true
      by (symmetry; apply Z.ltb_lt; lia).
    rewrite (parseStep_ascii _ _ BEL);
      [|norm_parser; lia| |vm_compute; reflexivity].
    2:{ norm_parser.
        replace (Z.to_nat (2 + len payload))
          with (length ([ESC; "]"%byte] ++ payload))
          by (rewrite length_app; cbn [length]; unfold len; lia).
        rewrite app_assoc. apply list_lookup_middle. reflexivity. }
    norm_parser. unfold handleOperatingSystemCommand.
    change (b2z BEL =? 7) with true. cbv iota. norm_parser.
    rewrite (processOperatingSystemCommand_payload _ _ _ payload)
      by (norm_parser; apply (slice_middle [ESC; "]"%byte] payload [BEL])).
    norm_parser. unfold res_map.
    destruct (processOperatingSystemCommand fuel (len payload) _)
      as [q| |]; cbn [mbind res_bind]; try reflexivity.
    norm_parser.
    rewrite parseLoop_end by (norm_parser; apply Z.ltb_ge; lia).
    cbn [mbind res_bind]. rewrite dropDone_all by lia.
    do 2 f_equal; lia.
  - rewrite state_after_Write. unfold ext. norm_parser. cbn [app].
    rewrite <- Hn at 1.
    replace n with (S (S (length payload + S (S k)))) by lia.
    change (ESC :: "]"%byte :: payload ++ [ESC; "\"%byte])
      with ([ESC; "]"%byte] ++ payload ++ [ESC; "\"%byte]).
    rewrite (string_sequence_body "]" parserModeOSC) by auto.
    assert (Hlen : len ([ESC; "]"%byte] ++ payload ++ [ESC; "\"%byte])
                   = 2 + len payload + 2).
    { rewrite !len_app. change (len [ESC; "]"%byte]) with 2.
      change (len [ESC; "\"%byte]) with 2. lia. }
    rewrite parseLoop_S. norm_parser. rewrite Hlen.
    replace (2 + len payload <? 2 + len payload + 2) with true
      by (symmetry; apply Z.ltb_lt; lia).
    rewrite (parseStep_ascii _ _ ESC);
      [|norm_parser; lia| |vm_compute; reflexivity].
    2:{ norm_parser.
        replace (Z.to_nat (2 + len payload))
          with (length ([ESC; "]"%byte] ++ payload))
          by (rewrite length_app; cbn [length]; unfold len; lia).
        rewrite app_assoc. apply list_lookup_middle. reflexivity. }
    norm_parser. unfold handleOperatingSystemCommand.
    change (b2z ESC =? 7) with false. change (b2z ESC =? 27) with true.
    cbv iota. cbn [mbind res_bind]. norm_parser.
    rewrite parseLoop_S. norm_parser. rewrite Hlen.
    replace (2 + len payload + 1 <? 2 + len payload + 2) with true
      by (symmetry; apply Z.ltb_lt; lia).
    rewrite (parseStep_ascii _ _ "\"%byte);
      [|norm_parser; lia| |vm_compute; reflexivity].
    2:{ norm_parser.
        replace (Z.to_nat (2 + len payload + 1))
          with (length ([ESC; "]"%byte] ++ payload ++ [ESC]))
          by (rewrite !length_app; cbn [length]; unfold len; lia).
        change [ESC; "\"%byte] with ([ESC] ++ ["\"%byte]).
        rewrite !app_assoc. apply list_lookup_middle. reflexivity. }
    norm_parser. unfold handleOSCEscape.
    change (b2z "\" =? rune_of "\") with true. cbv iota. norm_parser.
    replace (2 + len payload + 1 - 1) with (2 + len payload) by lia.
    rewrite (processOperatingSystemCommand_payload _ _ _ payload)
      by (norm_parser;
          apply (slice_middle [ESC; "]"%byte] payload [ESC; "\"%byte])).
    norm_parser. unfold res_map.
    destruct (processOperatingSystemCommand fuel (len payload) _)
      as [q| |]; cbn [mbind res_bind]; try reflexivity.
    norm_parser.
    rewrite parseLoop_end by (norm_parser; apply Z.ltb_ge; lia).
    cbn [mbind res_bind]. rewrite dropDone_all by lia.
    do 2 f_equal; lia.
Qed.

(** An application program command [ESC _ payload] ended by BEL or by
    [ESC \], written in one call to an idle parser, with a payload of
    ASCII bytes other than BEL and escape: in both cases the screen and
    the last timestamp are the ones that processApplicationProgramCommand
    leaves for exactly that payload, the instructions of the parser are
    kept, and the parser is idle again with an empty buffer. *)
Theorem APC_terminators (payload : list byte) (st : parser) (fuel : nat) :
  idle st -> forallb string_byte payload = true ->
  (length payload + 4 <= fuel)%nat ->
  let run := processApplicationProgramCommand fuel (len payload)
               (payload_parser (scr st) payload (savePosition st)
                  (lastTimestamp st)) in
  state_after (Write fuel ([ESC; "_"%byte] ++ payload ++ [BEL]) st)
  = res_map
      (fun q =>
         MkParser (scr q) [] parserModeNormal 0 (- (len payload + 3))
           (instructions st) (- (len payload + 1)) (savePosition st)
           (lastTimestamp q)) run
  /\ state_after
       (Write fuel ([ESC; "_"%byte] ++ payload ++ [ESC; "\"%byte]) st)
     = res_map
         (fun q =>
            MkParser (scr q) [] parserModeNormal 0 (- (len payload + 4))
              (instructions st) (- (len payload + 2)) (savePosition st)
              (lastTimestamp q)) run.
Proof.
  intros (Hbuf & Hcur & Hmode) Hp Hfuel run.
  destruct st as [s buf m cu e ins i sp ts]. cbn in Hbuf, Hcur, Hmode.
  subst buf cu m. norm_parser. unfold run. clear run. norm_parser.
  pose proof (len_nonneg payload) as Hlp.
  destruct (Nat.le_exists_sub _ _ Hfuel) as [k [Hk _]].
  assert (Hn : exists n, n = fuel) by (exists fuel; reflexivity).
  destruct Hn as [n Hn].
  split.
  - rewrite state_after_Write. unfold ext. norm_parser. cbn [app].
    rewrite <- Hn at 1.
    replace n with (S (S (length payload + S (S k)))) by lia.
    change (ESC :: "_"%byte :: payload ++ [BEL])
      with ([ESC; "_"%byte] ++ payload ++ [BEL]).
    rewrite (string_sequence_body "_" parserModeAPC) by auto.
    assert (Hlen : len ([ESC; "_"%byte] ++ payload ++ [BEL])
                   = 2 + len payload + 1).
    { rewrite !len_app. change (len [ESC; "_"%byte]) with 2.
      change (len [BEL]) with 1. lia. }
    rewrite parseLoop_S. norm_parser. rewrite Hlen.
    replace (2 + len payload <? 2 + len payload + 1) with true
      by (symmetry; apply Z.ltb_lt; lia).
    rewrite (parseStep_ascii _ _ BEL);
      [|norm_parser; lia| |vm_compute; reflexivity].
    2:{ norm_parser.
        replace (Z.to_nat (2 + len payload))
          with (length ([ESC; "_"%byte] ++ payload))
          by (rewrite length_app; cbn [length]; unfold len; lia).
        rewrite app_assoc. apply list_lookup_middle. reflexivity. }
    norm_parser. unfold handleApplicationProgramCommand.
    change (b2z BEL =? 7) with true. cbv iota. norm_parser.
    rewrite (processApplicationProgramCommand_payload _ _ _ payload)
      by (norm_parser; apply (slice_middle [ESC; "_"%byte] payload [BEL])).
    norm_parser. unfold res_map.
    destruct (processApplicationProgramCommand fuel (len payload) _)
      as [q| |]; cbn [mbind res_bind]; try reflexivity.
    norm_parser.
    rewrite parseLoop_end by (norm_parser; apply Z.ltb_ge; lia).
    cbn [mbind res_bind]. rewrite dropDone_all by lia.
    do 2 f_equal; lia.
  - rewrite state_after_Write. unfold ext. norm_parser. cbn [app].
    rewrite <- Hn at 1.
    replace n with (S (S (length payload + S (S k)))) by lia.
    change (ESC :: "_"%byte :: payload ++ [ESC; "\"%byte])
      with ([ESC; "_"%byte] ++ payload ++ [ESC; "\"%byte]).
    rewrite (string_sequence_body "_" parserModeAPC) by auto.
    assert (Hlen : len ([ESC; "_"%byte] ++ payload ++ [ESC; "\"%byte])
                   = 2 + len payload + 2).
    { rewrite !len_app. change (len [ESC; "_"%byte]) with 2.
      change (len [ESC; "\"%byte]) with 2. lia. }
    rewrite parseLoop_S. norm_parser. rewrite Hlen.
    replace (2 + len payload <? 2 + len payload + 2) with true
      by (symmetry; apply Z.ltb_lt; lia).
    rewrite (parseStep_ascii _ _ ESC);
      [|norm_parser; lia| |vm_compute; reflexivity].
    2:{ norm_parser.
        replace (Z.to_nat (2 + len payload))
          with (length ([ESC; "_"%byte] ++ payload))
          by (rewrite length_app; cbn [length]; unfold len; lia).
        rewrite app_assoc. apply list_lookup_middle. reflexivity. }
    norm_parser. unfold handleApplicationProgramCommand.
    change (b2z ESC =? 7) with false. change (b2z ESC =? 27) with true.
    cbv iota. cbn [mbind res_bind]. norm_parser.
    rewrite parseLoop_S. norm_parser. rewrite Hlen.
    replace (2 + len payload + 1 <? 2 + len payload + 2) with true
      by (symmetry; apply Z.ltb_lt; lia).
    rewrite (parseStep_ascii _ _ "\"%byte);
      [|norm_parser; lia| |vm_compute; reflexivity].
    2:{ norm_parser.
        replace (Z.to_nat (2 + len payload + 1))
          with (length ([ESC; "_"%byte] ++ payload ++ [ESC]))
          by (rewrite !length_app; cbn [length]; unfold len; lia).
        change [ESC; "\"%byte] with ([ESC] ++ ["\"%byte]).
        rewrite !app_assoc. apply list_lookup_middle. reflexivity. }
    norm_parser. unfold handleAPCEscape.
    change (b2z "\" =? rune_of "\") with true. cbv iota. norm_parser.
    replace (2 + len payload + 1 - 1) with (2 + len payload) by lia.
    rewrite (processApplicationProgramCommand_payload _ _ _ payload)
      by (norm_parser;
          apply (slice_middle [ESC; "_"%byte] payload [ESC; "\"%byte])).
    norm_parser. unfold res_map.
    destruct (processApplicationProgramCommand fuel (len payload) _)
      as [q| |]; cbn [mbind res_bind]; try reflexivity.
    norm_parser.
    rewrite parseLoop_end by (norm_parser; apply Z.ltb_ge; lia).
    cbn [mbind res_bind]. rewrite dropDone_all by lia.
    do 2 f_equal; lia.
Qed.

(** The short escape sequences, each written in one call to an idle
    parser: [ESC 7] saves the cursor position in the parser, [ESC 8] puts
    the cursor at the saved position (without any clamping), [ESC M] is a
    reverse line feed, and [ESC ( c] and [ESC ) c] consume the ASCII byte
    [c] without any effect on the screen.  The parser is idle again with
    an empty buffer. *)
Theorem short_escape_sequences (st : parser) (c : byte) (fuel : nat) :
  idle st -> b2z c < 0x80 -> (3 <= fuel)%nat ->
  let after s' sp' n i' :=
    Ok (MkParser s' [] parserModeNormal 0 (- n) (instructions st) i' sp'
          (lastTimestamp st)) in
  state_after (Write fuel [ESC; "7"%byte] st)
  = after (scr st) (Position (x (scr st)) (y (scr st))) 2
      (instructionStartedAt st - 2)
  /\ state_after (Write fuel [ESC; "8"%byte] st)
     = after (set_y (pos_y (savePosition st))
                (set_x (pos_x (savePosition st)) (scr st)))
         (savePosition st) 2 (instructionStartedAt st - 2)
  /\ state_after (Write fuel [ESC; "M"%byte] st)
     = after (revNewLine (scr st)) (savePosition st) 2
         (instructionStartedAt st - 2)
  /\ state_after (Write fuel [ESC; "("%byte; c] st)
     = after (scr st) (savePosition st) 3 (-1)
  /\ state_after (Write fuel [ESC; ")"%byte; c] st)
     = after (scr st) (savePosition st) 3 (-1).
Proof.
  intros (Hbuf & Hcur & Hmode) Hc Hfuel after.
  destruct st as [s buf m cu e ins i sp ts]. cbn in Hbuf, Hcur, Hmode.
  subst buf cu m. unfold after. clear after. norm_parser.
  destruct fuel as [|[|[|fuel]]]; try lia.
  split; [|split; [|split; [|split]]];
    rewrite state_after_Write; unfold ext; norm_parser; cbn [app].
  - loop_step. loop_step.
    rewrite parseLoop_end by reflexivity.
    cbn [mbind res_bind]. rewrite dropDone_all by reflexivity.
    reflexivity.
  - loop_step. loop_step.
    rewrite parseLoop_end by reflexivity.
    cbn [mbind res_bind]. rewrite dropDone_all by reflexivity.
    reflexivity.
  - loop_step. loop_step.
    rewrite parseLoop_end by reflexivity.
    cbn [mbind res_bind]. rewrite dropDone_all by reflexivity.
    reflexivity.
  - loop_step. loop_step.
    rewrite parseLoop_S. norm_parser. eval_closed.
    rewrite (parseStep_ascii _ _ c);
      [|norm_parser; lia|reflexivity|exact Hc].
    norm_parser. unfold handleCharset. cbn [mbind res_bind]. norm_parser.
    eval_closed.
    rewrite parseLoop_end by reflexivity.
    cbn [mbind res_bind]. rewrite dropDone_all by reflexivity.
    reflexivity.
  - loop_step. loop_step.
    rewrite parseLoop_S. norm_parser. eval_closed.
    rewrite (parseStep_ascii _ _ c);
      [|norm_parser; lia|reflexivity|exact Hc].
    norm_parser. unfold handleCharset. cbn [mbind res_bind]. norm_parser.
    eval_closed.
    rewrite parseLoop_end by reflexivity.
    cbn [mbind res_bind]. rewrite dropDone_all by reflexivity.
    reflexivity.
Qed.

Lemma currentLine_inv (s : Screen) (yidx : Z) :
  currentLine s = Some yidx ->
  yidx = GoInt.add (top s) (y s) /\ 0 <= yidx < len (screen s).
Proof.
  unfold currentLine.
  destruct (Z.ltb_spec (GoInt.add (top s) (y s)) 0); [discriminate|].
  destruct (Z.leb_spec (len (screen s)) (GoInt.add (top s) (y s)));
    [discriminate|].
  intros [= <-]. lia.
Qed.

Lemma clear_to_end (l : screenLine) (x : Z) :
  0 <= x <= GoInt.max_int -> len (nodes l) <= GoInt.max_int ->
  clear x screenEndOfLine l = Ok (set_nodes (take (Z.to_nat x) (nodes l)) l).
Proof.
  intros Hx Hl. rewrite clear_formula. cbv zeta.
  rewrite Z.max_l by lia. unfold screenEndOfLine.
  destruct (Z.ltb_spec GoInt.max_int x); [lia|]. cbn [orb].
  destruct (Z.leb_spec (len (nodes l)) x).
  - rewrite take_ge by (unfold len in *; lia). destruct l; reflexivity.
  - destruct (Z.leb_spec (len (nodes l) - 1) GoInt.max_int); [reflexivity|].
    lia.
Qed.

(** Erase in Line and Erase in Display from the cursor on, with a line
    [l] at the cursor and a column that is not negative: CSI K and CSI 0 K
    cut the cells of the line at the cursor column (a line that ends
    before the cursor is left as it is), CSI 2 K removes all its cells,
    and CSI J and CSI 0 J cut the line in the same way and remove every
    line below it.  The cursor, the other lines and the other fields of
    the line are kept. *)
Theorem erase_from_cursor (s : Screen) (yidx : Z) (l : screenLine) :
  sized s -> currentLine s = Some yidx ->
  screen s !! Z.to_nat yidx = Some l ->
  0 <= x s <= GoInt.max_int -> len (nodes l) <= GoInt.max_int ->
  let cut := set_nodes (take (Z.to_nat (x s)) (nodes l)) l in
  let cut_line := <[Z.to_nat yidx := cut]> (screen s) in
  applyEscape (rune_of "K") [] s = Ok (set_screen cut_line s)
  /\ applyEscape (rune_of "K") [bytes "0"] s = Ok (set_screen cut_line s)
  /\ applyEscape (rune_of "K") [bytes "2"] s
     = Ok (set_screen (<[Z.to_nat yidx := set_nodes [] l]> (screen s)) s)
  /\ applyEscape (rune_of "J") [] s
     = Ok (set_screen (take (Z.to_nat (yidx + 1)) cut_line) s)
  /\ applyEscape (rune_of "J") [bytes "0"] s
     = Ok (set_screen (take (Z.to_nat (yidx + 1)) cut_line) s).
Proof.
  intros Hs Hcur Hl Hx Hn cut cut_line.
  destruct (currentLine_inv s yidx Hcur) as [Hy Hr].
  assert (HK : at_line (currentLine s) (clear (x s) screenEndOfLine) s
               = Ok (set_screen cut_line s)).
  { rewrite Hcur. unfold at_line.
    rewrite (index_ok _ _ _ (proj1 Hr) Hl). cbn [mbind res_bind].
    rewrite clear_to_end by assumption. cbn [mbind res_bind].
    rewrite set_index_ok by lia. reflexivity. }
  assert (HK2 : at_line (currentLine s) clearAll s
                = Ok (set_screen
                        (<[Z.to_nat yidx := set_nodes [] l]> (screen s)) s)).
  { rewrite Hcur. unfold at_line, clearAll.
    rewrite (index_ok _ _ _ (proj1 Hr) Hl). cbn [mbind res_bind].
    rewrite slice_empty. cbn [mbind res_bind].
    rewrite set_index_ok by lia. reflexivity. }
  assert (HJ : (s1 ← at_line (currentLine s) (clear (x s) screenEndOfLine) s;
                let yidx := GoInt.add (top s1) (y s1) in
                if (yidx <? 0) || (len (screen s1) <=? yidx) then Ok s1
                else scr ← slice (screen s1) 0 (GoInt.add yidx 1);
                     Ok (set_screen scr s1))
               = Ok (set_screen (take (Z.to_nat (yidx + 1)) cut_line) s)).
  { rewrite HK. cbn [mbind res_bind]. cbv zeta.
    assert (Htop : top (set_screen cut_line s) = top s).
    { unfold top. cbn [screen set_screen lines]. unfold cut_line.
      rewrite len_insert. reflexivity. }
    rewrite Htop. cbn [y screen set_screen]. rewrite <- Hy.
    unfold cut_line at 1. rewrite len_insert.
    destruct (Z.ltb_spec yidx 0); [lia|].
    destruct (Z.leb_spec (len (screen s)) yidx); [lia|]. cbn [orb].
    destruct Hs as (_ & _ & Hmax).
    unfold GoInt.add.
    rewrite wrap_id by (unfold GoInt.min_int, GoInt.max_int in *; lia).
    rewrite slice_prefix by (unfold cut_line; rewrite ?len_insert; lia).
    reflexivity. }
  repeat split.
  - exact HK.
  - exact HK.
  - exact HK2.
  - exact HJ.
  - exact HJ.
Qed.

Lemma clearLines_rows (n : nat) :
  forall (i : Z) (s : Screen),
    0 <= i -> i + Z.of_nat n <= len (screen s) ->
    exists scr',
      clearLines n i s = Ok (set_screen scr' s)
      /\ length scr' = length (screen s)
      /\ forall j : nat,
           scr' !! j
           = if (i <=? Z.of_nat j) && (Z.of_nat j <? i + Z.of_nat n)
             then set_nodes [] <$> screen s !! j
             else screen s !! j.
Proof.
  induction n as [|n IH]; intros i s Hi Hn.
  - exists (screen s). cbn [clearLines]. rewrite set_screen_id.
    split; [reflexivity|]. split; [reflexivity|]. intros j.
    destruct (Z.leb_spec i (Z.of_nat j)); cbn [andb]; [|reflexivity].
    destruct (Z.ltb_spec (Z.of_nat j) (i + Z.of_nat 0)); [lia|reflexivity].
  - cbn [clearLines]. unfold at_line, clearAll.
    destruct (lookup_lt_is_Some_2 (screen s) (Z.to_nat i)) as [li Hli];
      [unfold len in Hn; lia|].
    rewrite (index_ok _ _ _ Hi Hli). cbn [mbind res_bind].
    rewrite slice_empty. cbn [mbind res_bind].
    rewrite set_index_ok by lia. cbn [mbind res_bind].
    set (s1 := set_screen (<[Z.to_nat i := set_nodes [] li]> (screen s)) s).
    destruct (IH (i + 1) s1) as (scr' & Hrun & Hlen & Hrows); [lia|..].
    { unfold s1. cbn [screen set_screen]. rewrite len_insert. lia. }
    exists scr'. rewrite Hrun. unfold s1. rewrite set_screen_set_screen.
    split; [reflexivity|].
    unfold s1 in Hlen, Hrows. cbn [screen set_screen] in Hlen, Hrows.
    rewrite length_insert in Hlen. split; [exact Hlen|].
    intros j. rewrite Hrows.
    destruct (Nat.eq_dec j (Z.to_nat i)) as [->|Hne].
    + rewrite list_lookup_insert_eq by (unfold len in Hn; lia).
      rewrite Hli.
      destruct (Z.leb_spec (i + 1) (Z.of_nat (Z.to_nat i))); [lia|].
      cbn [andb].
      destruct (Z.leb_spec i (Z.of_nat (Z.to_nat i))); [|lia].
      destruct (Z.ltb_spec (Z.of_nat (Z.to_nat i)) (i + Z.of_nat (S n)));
        [reflexivity|lia].
    + rewrite list_lookup_insert_ne by congruence.
      destruct (Z.leb_spec (i + 1) (Z.of_nat j));
        destruct (Z.leb_spec i (Z.of_nat j)); try lia; cbn [andb];
        try reflexivity.
      destruct (Z.ltb_spec (Z.of_nat j) (i + 1 + Z.of_nat n));
        destruct (Z.ltb_spec (Z.of_nat j) (i + Z.of_nat (S n)));
        try lia; reflexivity.
Qed.

(** Erase in Display up to the cursor (CSI 1 J), with a line [l] at the
    cursor and a cursor inside a sized window: the line at the cursor is
    erased from column 0 to the cursor column as by CSI 1 K, every line of
    the window above it loses all its cells, and the lines above the
    window and below the cursor are kept.  No line is removed and the
    cursor does not move. *)
Theorem erase_up_to_cursor (s : Screen) (yidx : Z) (l l1 : screenLine) :
  sized s -> currentLine s = Some yidx ->
  screen s !! Z.to_nat yidx = Some l -> 0 <= y s <= GoInt.max_int ->
  clear screenStartOfLine (x s) l = Ok l1 ->
  exists scr',
    applyEscape (rune_of "J") [bytes "1"] s = Ok (set_screen scr' s)
    /\ length scr' = length (screen s)
    /\ scr' !! Z.to_nat yidx = Some l1
    /\ (forall j line, screen s !! j = Some line ->
          top s <= Z.of_nat j < yidx ->
          scr' !! j = Some (set_nodes [] line))
    /\ (forall j, Z.of_nat j < top s \/ yidx < Z.of_nat j ->
          scr' !! j = screen s !! j).
Proof.
  intros Hs Hcur Hl Hy Hclear.
  destruct (currentLine_inv s yidx Hcur) as [Hyi Hr].
  pose proof (top_le_len s Hs) as Htop.
  assert (Hadd : GoInt.add (top s) (y s) = top s + y s).
  { unfold GoInt.add. destruct Hs as (_ & _ & Hmax).
    destruct (Z.le_gt_cases (top s + y s) GoInt.max_int) as [Hsmall|Hbig].
    - apply wrap_id. unfold GoInt.min_int, GoInt.max_int in *. lia.
    - exfalso. unfold GoInt.add, GoInt.wrap in Hyi.
      unfold GoInt.min_int, GoInt.max_int in *.
      replace ((top s + y s + 2 ^ 63) mod 2 ^ 64)
        with (top s + y s + 2 ^ 63 - 2 ^ 64) in Hyi
        by (apply Z.mod_unique with 1; lia).
      lia. }
  rewrite Hadd in Hyi.
  set (s1 := set_screen (<[Z.to_nat yidx := l1]> (screen s)) s).
  destruct (clearLines_rows (Z.to_nat (y s)) (top s) s1)
    as (scr' & Hrun & Hlen & Hrows); [lia|..].
  { unfold s1. cbn [screen set_screen]. rewrite len_insert. lia. }
  exists scr'. split.
  - change (applyEscape (rune_of "J") [bytes "1"] s)
      with (s0 ← at_line (currentLine s) (clear screenStartOfLine (x s)) s;
            clearLines
              (Z.to_nat (Z.min (GoInt.add (top s0) (y s0))
                           (len (screen s0)) - top s0)) (top s0) s0).
    rewrite Hcur. unfold at_line.
    rewrite (index_ok _ _ _ (proj1 Hr) Hl). cbn [mbind res_bind].
    rewrite Hclear. cbn [mbind res_bind].
    rewrite set_index_ok by lia. cbn [mbind res_bind]. fold s1.
    assert (Htop1 : top s1 = top s).
    { unfold top, s1. cbn [screen set_screen lines].
      rewrite len_insert. reflexivity. }
    rewrite Htop1. replace (y s1) with (y s) by reflexivity.
    replace (len (screen s1)) with (len (screen s))
      by (unfold s1; cbn [screen set_screen]; rewrite len_insert;
          reflexivity).
    rewrite Hadd.
    replace (Z.to_nat (Z.min (top s + y s) (len (screen s)) - top s))
      with (Z.to_nat (y s)) by lia.
    rewrite Hrun. unfold s1. rewrite set_screen_set_screen. reflexivity.
  - unfold s1 in Hlen, Hrows. cbn [screen set_screen] in Hlen, Hrows.
    rewrite length_insert in Hlen. split; [exact Hlen|].
    split; [|split].
    + rewrite Hrows.
      destruct (Z.leb_spec (top s) (Z.of_nat (Z.to_nat yidx))); cbn [andb];
        [destruct (Z.ltb_spec (Z.of_nat (Z.to_nat yidx))
                    (top s + Z.of_nat (Z.to_nat (y s)))); [lia|]|];
        apply list_lookup_insert_eq; unfold len in Hr; lia.
    + intros j line Hj Hrange. rewrite Hrows.
      destruct (Z.leb_spec (top s) (Z.of_nat j)); [|lia]. cbn [andb].
      destruct (Z.ltb_spec (Z.of_nat j) (top s + Z.of_nat (Z.to_nat (y s))));
        [|lia].
      rewrite list_lookup_insert_ne by lia. rewrite Hj. reflexivity.
    + intros j Hj. rewrite Hrows.
      assert (Hne : Z.to_nat yidx <> j) by lia.
      destruct (Z.leb_spec (top s) (Z.of_nat j)); cbn [andb];
        [destruct (Z.ltb_spec (Z.of_nat j)
                    (top s + Z.of_nat (Z.to_nat (y s)))); [lia|]|];
        apply list_lookup_insert_ne; exact Hne.
Qed.

Lemma scan_params_private (rest : list byte) :
  forall (ins : list gostring) (cur : gostring),
    (exists h t, ins = h :: t /\ HasPrefix_question h = true)
    \/ (ins = [] /\ HasPrefix_question cur = true) ->
    let r := scan_params ins cur rest in
    exists h t,
      match r.2 with [] => r.1 | _ => r.1 ++ [r.2] end = h :: t
      /\ HasPrefix_question h = true.
Proof.
  induction rest as [|b rest IH]; intros ins cur H; cbn [scan_params].
  - cbn [fst snd]. destruct H as [(h & t & -> & Hh)|[-> Hc]].
    + exists h. destruct cur; eexists; split; try reflexivity; exact Hh.
    + destruct cur as [|c0 cur]; [discriminate|].
      exists (c0 :: cur), []. split; [reflexivity|exact Hc].
  - destruct (bool_decide (b = ";"%byte)).
    + apply IH. left. destruct H as [(h & t & -> & Hh)|[-> Hc]].
      * exists h. destruct cur; eexists; split; try reflexivity; exact Hh.
      * destruct cur as [|c0 cur]; [discriminate|].
        exists (c0 :: cur), []. split; [reflexivity|exact Hc].
    + apply IH. destruct H as [H|[-> Hc]]; [left; exact H|right].
      split; [reflexivity|]. destruct cur; [discriminate|exact Hc].
Qed.

Lemma csi_params_private (rest : list byte) :
  HasPrefix_question (inst (csi_params ("?"%byte :: rest)) 0) = true.
Proof.
  unfold csi_params.
  destruct (scan_params_private rest [] ["?"%byte]) as (h & t & Heq & Hh);
    [right; split; reflexivity|].
  cbn [scan_params].
  change (bool_decide ("?"%byte = ";"%byte)) with false. cbv iota.
  change ([] ++ ["?"%byte]) with ["?"%byte].
  destruct (scan_params [] ["?"%byte] rest) as [ins' cur'].
  cbn [fst snd] in Heq. rewrite Heq.
  unfold inst. rewrite len_cons. pose proof (len_nonneg t).
  destruct (Z.ltb_spec 0 0); [lia|].
  destruct (Z.leb_spec (1 + len t) 0); [lia|]. exact Hh.
Qed.

(** A private control sequence [ESC [ ? rest c], written in one call to
    an idle parser, with parameter bytes [rest] and a final byte that is
    passed on to the screen: applyEscape returns at once, so the screen is
    exactly as it was, whatever the final byte and the parameters. *)
Theorem private_sequence_ignored (rest : list byte) (c : byte)
    (st : parser) (fuel : nat) :
  idle st -> forallb param_byte rest = true -> final_byte c = true ->
  (4 + length rest <= fuel)%nat ->
  let body := "?"%byte :: rest in
  state_after (Write fuel (ESC :: "["%byte :: body ++ [c]) st)
  = Ok (MkParser (scr st) [] parserModeNormal 0 (- (len body + 3))
          (csi_params body) (- (len (scan_params [] [] body).2 + 1))
          (savePosition st) (lastTimestamp st)).
Proof.
  intros (Hbuf & Hcur & Hmode) Hrest Hc Hfuel body.
  destruct st as [s buf m cu e ins i sp ts]. cbn in Hbuf, Hcur, Hmode.
  subst buf cu m. norm_parser.
  assert (Hbody : forallb param_byte body = true).
  { unfold body. cbn [forallb]. rewrite Hrest. reflexivity. }
  rewrite control_sequence_run;
    [|exact Hbody|exact Hc|unfold body; cbn [length]; lia].
  pose proof (csi_params_private rest) as Hq. fold body in Hq.
  unfold applyEscape. rewrite Hq. reflexivity.
Qed.

Lemma digits_nonneg (s : gostring) :
  forall acc n, 0 <= acc -> strconv.digits acc s = Some n -> 0 <= n.
Proof.
  induction s as [|b s IH]; intros acc n Hacc; cbn [strconv.digits].
  - intros [= <-]. exact Hacc.
  - unfold strconv.digit.
    destruct (Z.leb_spec 0x30 (b2z b)); cbn [andb]; [|discriminate].
    destruct (Z.leb_spec (b2z b) 0x39); [|discriminate].
    apply IH. lia.
Qed.

(** A parameter as the parser collects it (digits and question marks) is
    read by ansiInt as a number from 0 to the largest int: a value that
    does not fit an int, an empty parameter and a parameter with a
    question mark all count as 1. *)
Theorem ansiInt_parameter (s : gostring) :
  forallb (fun b => rune_in (b2z b) "?0123456789") s = true ->
  0 <= ansiInt s <= GoInt.max_int
  /\ (s = [] \/ In "?"%byte s -> ansiInt s = 1)
  /\ (forall n, strconv.digits 0 s = Some n -> GoInt.max_int < n ->
        ansiInt s = 1).
Proof.
  intros Hs. unfold ansiInt.
  destruct s as [|b t]; [unfold GoInt.max_int; repeat split; intros; lia|].
  assert (Hb : rune_in (b2z b) "?0123456789" = true).
  { cbn [forallb] in Hs. apply andb_true_iff in Hs as [Hb _]. exact Hb. }
  assert (Hsign : bool_decide (b = "-"%byte) = false
                  /\ bool_decide (b = "+"%byte) = false).
  { split; apply bool_decide_eq_false; intros ->; vm_compute in Hb;
      discriminate. }
  destruct Hsign as [Hneg Hpos].
  unfold strconv.Atoi. rewrite Hneg, Hpos. cbn [orb].
  destruct (strconv.digits 0 (b :: t)) as [n|] eqn:Hd.
  - pose proof (digits_nonneg _ _ _ (Z.le_refl 0) Hd) as Hn.
    destruct (Z.leb_spec GoInt.min_int n); cbn [andb];
      [|unfold GoInt.min_int in *; lia].
    destruct (Z.leb_spec n GoInt.max_int).
    + split; [lia|]. split.
      * intros [Hnil|Hin]; [discriminate|]. exfalso.
        clear - Hin Hd. revert Hd. generalize 0 at 1.
        induction (b :: t) as [|a l IH]; [destruct Hin|].
        intros acc. cbn [strconv.digits].
        destruct Hin as [->|Hin]; [vm_compute; discriminate|].
        destruct (strconv.digit a); [|discriminate]. apply IH, Hin.
      * intros n' [= <-] Hbig. lia.
    + unfold GoInt.max_int. repeat split; intros; lia.
  - unfold GoInt.max_int. repeat split; intros; first [lia|discriminate].
Qed.

Lemma allocLines_current fuel (s : Screen) yidx :
  currentLine s = Some yidx -> allocLines fuel s = Ok s.
Proof. intros H. destruct fuel; cbn [allocLines]; rewrite H; reflexivity. Qed.

Lemma currentLine_set_x_screen (s : Screen) scr' x' :
  length scr' = length (screen s) ->
  currentLine (set_x x' (set_screen scr' s)) = currentLine s.
Proof.
  intros Hl. unfold currentLine, top, len. cbn [screen set_screen set_x y lines].
  rewrite Hl. reflexivity.
Qed.

(** One append on a line that exists and reaches the cursor column. *)
Lemma append_on_line fuel (r : Z) (s : Screen) (yidx : Z) (line : screenLine) :
  currentLine s = Some yidx -> screen s !! Z.to_nat yidx = Some line ->
  0 <= x s <= len (nodes line) -> x s < GoInt.max_int ->
  exists line',
    append fuel r s
    = Ok (set_x (x s + 1)
            (set_screen (<[Z.to_nat yidx := line']> (screen s)) s))
    /\ nodes line'
       = take (Z.to_nat (x s)) (nodes line) ++ Node r (sstyle s)
           :: drop (Z.to_nat (x s + 1)) (nodes line)
    /\ metadata line' = metadata line /\ elements line' = elements line
    /\ linked s 1 line line'.
Proof.
  intros Hcur Hline Hx Hmax.
  destruct (currentLine_inv s yidx Hcur) as [_ Hr].
  pose proof (lookup_lt_Some _ _ _ Hline) as Hlt.
  pose proof (len_padNodes (nodes line) (x s)) as Hpad.
  exists (ScreenLine
            (<[Z.to_nat (x s) := Node r (sstyle s)]>
               (padNodes (nodes line) (x s)))
            (metadata line) (elements line)
            (if style_hyperlink (sstyle s)
             then Some (<[x s := urlBrush s]> (default ∅ (hyperlinks line)))
             else hyperlinks line)).
  split.
  - unfold append, write, currentLineForWriting.
    rewrite (allocLines_current _ _ _ Hcur). cbn [mbind res_bind].
    rewrite Hcur. rewrite (index_ok _ _ _ (proj1 Hr) Hline).
    cbn [mbind res_bind]. rewrite set_index_ok by lia.
    cbn [mbind res_bind screen set_screen x sstyle urlBrush].
    rewrite (index_ok _ yidx
               (set_nodes (padNodes (nodes line) (x s)) line))
      by (try lia; rewrite list_lookup_insert_eq by lia; reflexivity).
    cbn [mbind res_bind nodes set_nodes].
    rewrite set_index_ok by lia. cbn [mbind res_bind].
    rewrite set_index_ok by (rewrite len_insert; lia).
    cbn [mbind res_bind]. rewrite list_insert_insert_eq.
    unfold GoInt.add. cbn [x set_screen].
    rewrite wrap_id by (unfold GoInt.min_int, GoInt.max_int in *; lia).
    rewrite set_screen_set_screen.
    destruct (style_hyperlink (sstyle s)); reflexivity.
  - cbn [nodes metadata elements hyperlinks].
    split; [|split; [reflexivity|split; [reflexivity|]]].
    + rewrite insert_take_drop by (unfold len in Hpad; lia).
      unfold padNodes.
      rewrite take_app_le by (unfold len in Hx; lia).
      f_equal. f_equal.
      destruct (Z.eq_dec (x s) (len (nodes line))) as [He|Hne].
      * rewrite !drop_ge; [reflexivity|unfold len in *; lia|].
        rewrite length_app, length_replicate. unfold len in *. lia.
      * replace (Z.to_nat (x s + 1 - len (nodes line))) with 0%nat by lia.
        cbn [replicate]. rewrite app_nil_r. f_equal. lia.
    + unfold linked. cbn [hyperlinks].
      change (0 <? 1) with true. rewrite andb_true_r.
      destruct (style_hyperlink (sstyle s)); [|reflexivity].
      eexists. split; [reflexivity|]. intros k.
      destruct (Z.eq_dec k (x s)) as [->|Hne].
      * rewrite lookup_insert_eq.
        destruct (Z.leb_spec (x s) (x s)); [|lia].
        destruct (Z.ltb_spec (x s) (x s + 1)); [reflexivity|lia].
      * rewrite lookup_insert_ne by congruence.
        destruct (Z.leb_spec (x s) k); cbn [andb]; [|reflexivity].
        destruct (Z.ltb_spec k (x s + 1)); [lia|reflexivity].
Qed.

Lemma linked_step (s : Screen) (n : Z) (line line1 line' : screenLine)
    scr1 :
  0 <= n ->
  linked s 1 line line1 ->
  linked (set_x (x s + 1) (set_screen scr1 s)) n line1 line' ->
  linked s (1 + n) line line'.
Proof.
  intros Hn H1 H2. unfold linked in *.
  cbn [sstyle set_x set_screen x urlBrush] in H2.
  change (0 <? 1) with true in H1. rewrite andb_true_r in H1.
  replace (0 <? 1 + n) with true by (symmetry; apply Z.ltb_lt; lia).
  rewrite andb_true_r.
  destruct (style_hyperlink (sstyle s)); cbn [andb] in *; [|congruence].
  destruct H1 as (hl1 & Hhl1 & Hk1).
  destruct (Z.ltb_spec 0 n) as [Hpos|Hzero].
  - destruct H2 as (hl & Hhl & Hk). exists hl. split; [exact Hhl|].
    intros k. rewrite Hk, Hhl1. cbn [default]. rewrite Hk1.
    destruct (Z.leb_spec (x s + 1) k); destruct (Z.leb_spec (x s) k);
      try lia; cbn [andb];
      destruct (Z.ltb_spec k (x s + 1 + n));
      destruct (Z.ltb_spec k (x s + (1 + n)));
      destruct (Z.ltb_spec k (x s + 1)); try lia; reflexivity.
  - exists hl1. split; [congruence|]. intros k. rewrite Hk1.
    destruct (Z.leb_spec (x s) k); cbn [andb]; [|reflexivity].
    destruct (Z.ltb_spec k (x s + 1));
      destruct (Z.ltb_spec k (x s + (1 + n))); try lia; reflexivity.
Qed.

(** appendMany on a line that exists and reaches the cursor column. *)
Lemma appendMany_on_line fuel (rs : list Z) :
  forall (s : Screen) (yidx : Z) (line : screenLine),
    currentLine s = Some yidx -> screen s !! Z.to_nat yidx = Some line ->
    0 <= x s <= len (nodes line) -> x s + len rs <= GoInt.max_int ->
    exists line',
      appendMany fuel rs s
      = Ok (set_x (x s + len rs)
              (set_screen (<[Z.to_nat yidx := line']> (screen s)) s))
      /\ nodes line'
         = take (Z.to_nat (x s)) (nodes line)
             ++ map (fun r => Node r (sstyle s)) rs
             ++ drop (Z.to_nat (x s + len rs)) (nodes line)
      /\ metadata line' = metadata line /\ elements line' = elements line
      /\ linked s (len rs) line line'.
Proof.
  induction rs as [|r rs IH]; intros s yidx line Hcur Hline Hx Hmax.
  - exists line. cbn [appendMany map app]. change (len (@nil Z)) with 0.
    rewrite Z.add_0_r.
    split.
    { rewrite list_insert_id by exact Hline.
      rewrite set_screen_id. destruct s; reflexivity. }
    split; [rewrite take_drop; reflexivity|].
    split; [reflexivity|]. split; [reflexivity|].
    unfold linked. change (0 <? 0) with false. rewrite andb_false_r.
    reflexivity.
  - rewrite len_cons in *. pose proof (len_nonneg rs) as Hrs.
    destruct (append_on_line fuel r s yidx line Hcur Hline Hx ltac:(lia))
      as (line1 & Hrun1 & Hn1 & Hm1 & He1 & Hl1).
    pose proof (lookup_lt_Some _ _ _ Hline) as Hlt.
    set (scr1 := <[Z.to_nat yidx := line1]> (screen s)) in *.
    set (s1 := set_x (x s + 1) (set_screen scr1 s)) in *.
    assert (Hlen1 : len (nodes line1) = Z.max (len (nodes line)) (x s + 1)).
    { rewrite Hn1. unfold len.
      rewrite length_app, length_take. cbn [length]. rewrite length_drop.
      unfold len in Hx. lia. }
    destruct (IH s1 yidx line1) as (line' & Hrun & Hn & Hm & He & Hl).
    + unfold s1. rewrite currentLine_set_x_screen; [exact Hcur|].
      unfold scr1. apply length_insert.
    + unfold s1, scr1. cbn [screen set_x set_screen].
      apply list_lookup_insert_eq. exact Hlt.
    + unfold s1. cbn [x set_x]. lia.
    + unfold s1. cbn [x set_x]. lia.
    + exists line'. split; [|split; [|split; [|split]]].
      * cbn [appendMany]. rewrite Hrun1. cbn [mbind res_bind]. rewrite Hrun.
        unfold s1, scr1. cbn [x set_x screen set_screen].
        rewrite list_insert_insert_eq.
        replace (x s + (1 + len rs)) with (x s + 1 + len rs) by lia.
        reflexivity.
      * rewrite Hn. unfold s1. cbn [x set_x sstyle set_screen].
        rewrite Hn1. cbn [map].
        assert (Htk : length (take (Z.to_nat (x s)) (nodes line))
                      = Z.to_nat (x s))
          by (rewrite length_take; unfold len in Hx; lia).
        replace (Z.to_nat (x s + 1)) with (Z.to_nat (x s) + 1)%nat by lia.
        rewrite (take_app_add' _ _ _ 1 (eq_sym Htk)).
        replace (Z.to_nat (x s + 1 + len rs))
          with (Z.to_nat (x s) + S (length rs))%nat by (unfold len; lia).
        rewrite (drop_app_add' _ _ _ (S (length rs)) (eq_sym Htk)).
        cbn [take drop]. rewrite drop_drop.
        replace (Z.to_nat (x s + (1 + len rs)))
          with (Z.to_nat (x s) + 1 + length rs)%nat by (unfold len; lia).
        rewrite <- app_assoc. reflexivity.
      * congruence.
      * congruence.
      * apply (linked_step s (len rs) line line1 line' scr1 Hrs Hl1 Hl).
Qed.

Lemma take_padNodes (ns : list node) (x : Z) :
  0 <= x ->
  take (Z.to_nat x) (padNodes ns x)
  = take (Z.to_nat x) (ns ++ replicate (Z.to_nat (x - len ns)) emptyNode).
Proof.
  intros Hx. unfold padNodes.
  destruct (Z.le_gt_cases (len ns) x) as [Hle|Hgt].
  - replace (Z.to_nat (x + 1 - len ns))
      with (Z.to_nat (x - len ns) + 1)%nat by lia.
    rewrite replicate_add, app_assoc. cbn [replicate].
    rewrite take_app_le; [reflexivity|].
    rewrite length_app, length_replicate. unfold len in *. lia.
  - replace (Z.to_nat (x + 1 - len ns)) with 0%nat by lia.
    replace (Z.to_nat (x - len ns)) with 0%nat by lia. reflexivity.
Qed.

Lemma drop_padNodes (ns : list node) (x : Z) (k : nat) :
  0 <= x ->
  drop (Z.to_nat x + 1 + k) (padNodes ns x) = drop (Z.to_nat x + 1 + k) ns.
Proof.
  intros Hx. unfold padNodes.
  destruct (Z.le_gt_cases (len ns) x) as [Hle|Hgt].
  - rewrite !drop_ge; [reflexivity|unfold len in *; lia|].
    rewrite length_app, length_replicate. unfold len in *. lia.
  - replace (Z.to_nat (x + 1 - len ns)) with 0%nat by lia.
    cbn [replicate]. rewrite app_nil_r. reflexivity.
Qed.

Lemma currentLine_same_length (s : Screen) scr1 scr2 x' :
  length scr1 = length scr2 ->
  currentLine (set_x x' (set_screen scr1 s))
  = currentLine (set_screen scr2 s).
Proof.
  intros Hl. unfold currentLine, top, len.
  cbn [screen set_screen set_x y lines]. rewrite Hl. reflexivity.
Qed.

(** appendMany of at least one rune with the cursor row inside the
    window. *)
Lemma appendMany_cons_in_window (fuel : nat) (r : Z) (rs : list Z)
    (s : Screen) :
  sized s -> window_fits s -> 0 <= y s < lines s ->
  0 <= x s -> x s + len (r :: rs) <= GoInt.max_int ->
  (missing_lines s <= fuel)%nat ->
  exists (yidx : nat) (line line' : screenLine),
    with_missing_lines s !! yidx = Some line
    /\ Z.of_nat yidx
       = Z.max 0 (len (with_missing_lines s) - lines s) + y s
    /\ appendMany fuel (r :: rs) s
       = Ok (set_x (x s + len (r :: rs))
               (set_screen (<[yidx := line']> (with_missing_lines s)) s))
    /\ nodes line'
       = take (Z.to_nat (x s))
           (nodes line
              ++ replicate (Z.to_nat (x s - len (nodes line))) emptyNode)
           ++ map (fun r => Node r (sstyle s)) (r :: rs)
           ++ drop (Z.to_nat (x s + len (r :: rs))) (nodes line)
    /\ metadata line' = metadata line /\ elements line' = elements line
    /\ linked s (len (r :: rs)) line line'.
Proof.
  intros Hs Hw Hy Hx Hmax Hfuel.
  rewrite len_cons in *. pose proof (len_nonneg rs) as Hrs.
  destruct (allocLines_in_window fuel s Hs Hw Hy Hfuel)
    as (_ & Hcur & _ & _).
  destruct (append_stores_rune fuel r s Hs Hw Hy ltac:(lia) Hfuel)
    as (yidx & line & line1 & Hline & Hyidx & Hrun1 & Hn1 & _ & Hlen1 & Hm1
        & He1 & Hh1).
  pose proof (lookup_lt_Some _ _ _ Hline) as Hlt.
  set (scr1 := <[yidx := line1]> (with_missing_lines s)) in *.
  set (s1 := set_x (x s + 1) (set_screen scr1 s)) in *.
  fold (padNodes (nodes line) (x s)) in Hn1.
  assert (Hl1 : linked s 1 line line1).
  { unfold linked. change (0 <? 1) with true. rewrite andb_true_r.
    rewrite Hh1. destruct (style_hyperlink (sstyle s)); [|reflexivity].
    eexists. split; [reflexivity|]. intros k.
    destruct (Z.eq_dec k (x s)) as [->|Hk].
    - rewrite lookup_insert_eq.
      destruct (Z.leb_spec (x s) (x s)); [|lia].
      destruct (Z.ltb_spec (x s) (x s + 1)); [reflexivity|lia].
    - rewrite lookup_insert_ne by congruence.
      destruct (Z.leb_spec (x s) k); cbn [andb]; [|reflexivity].
      destruct (Z.ltb_spec k (x s + 1)); [lia|reflexivity]. }
  destruct (appendMany_on_line fuel rs s1 (Z.of_nat yidx) line1)
    as (line' & Hrun & Hn & Hm & He & Hl).
  - unfold s1. rewrite (currentLine_same_length s scr1 (with_missing_lines s))
      by apply length_insert.
    rewrite Hcur, Hyidx. reflexivity.
  - unfold s1, scr1. cbn [screen set_x set_screen]. rewrite Nat2Z.id.
    apply list_lookup_insert_eq. exact Hlt.
  - unfold s1. cbn [x set_x]. lia.
  - unfold s1. cbn [x set_x]. lia.
  - exists yidx, line, line'.
    split; [exact Hline|]. split; [exact Hyidx|].
    split; [|split; [|split; [|split]]].
    + cbn [appendMany]. rewrite Hrun1. cbn [mbind res_bind]. rewrite Hrun.
      unfold s1, scr1. cbn [x set_x screen set_screen].
      rewrite Nat2Z.id, list_insert_insert_eq.
      replace (x s + (1 + len rs)) with (x s + 1 + len rs) by lia.
      reflexivity.
    + rewrite Hn. unfold s1. cbn [x set_x sstyle set_screen].
      rewrite Hn1. cbn [map].
      pose proof (len_padNodes (nodes line) (x s)) as Hpad.
      rewrite insert_take_drop by (unfold len in Hpad; lia).
      assert (Htk : length (take (Z.to_nat (x s))
                              (padNodes (nodes line) (x s)))
                    = Z.to_nat (x s))
        by (rewrite length_take; unfold len in Hpad; lia).
      replace (Z.to_nat (x s + 1)) with (Z.to_nat (x s) + 1)%nat by lia.
      rewrite (take_app_add' _ _ _ 1 (eq_sym Htk)).
      replace (Z.to_nat (x s + 1 + len rs))
        with (Z.to_nat (x s) + S (length rs))%nat by (unfold len; lia).
      rewrite (drop_app_add' _ _ _ (S (length rs)) (eq_sym Htk)).
      cbn [take drop]. rewrite drop_drop.
      replace (S (Z.to_nat (x s)) + length rs)%nat
        with (Z.to_nat (x s) + 1 + length rs)%nat by lia.
      rewrite drop_padNodes by lia. rewrite take_padNodes by lia.
      replace (Z.to_nat (x s + (1 + len rs)))
        with (Z.to_nat (x s) + 1 + length rs)%nat by (unfold len; lia).
      rewrite <- app_assoc. reflexivity.
    + congruence.
    + congruence.
    + apply (linked_step s (len rs) line line1 line' scr1 Hrs Hl1 Hl).
Qed.

(** appendMany with the cursor row inside the window and a column that is
    not negative, for at least one rune: the lines missing below the
    buffer are added (no line is scrolled out); in the line at the cursor
    the cells from the cursor column on become the runes, in order, with
    the current style, after empty cells that fill the gap between the end
    of the line and the cursor; the cells before the cursor and after the
    last rune are kept; the cursor moves right by the number of runes (it
    is not clamped to the window); with a hyperlink style the columns
    written are mapped to the current URL.  No other line or field
    changes. *)
Theorem appendMany_stores_runes (fuel : nat) (rs : list Z) (s : Screen) :
  sized s -> window_fits s -> 0 <= y s < lines s ->
  0 <= x s -> x s + len rs <= GoInt.max_int -> rs <> [] ->
  (missing_lines s <= fuel)%nat ->
  exists (yidx : nat) (line line' : screenLine),
    with_missing_lines s !! yidx = Some line
    /\ Z.of_nat yidx
       = Z.max 0 (len (with_missing_lines s) - lines s) + y s
    /\ appendMany fuel rs s
       = Ok (set_x (x s + len rs)
               (set_screen (<[yidx := line']> (with_missing_lines s)) s))
    /\ nodes line'
       = take (Z.to_nat (x s))
           (nodes line
              ++ replicate (Z.to_nat (x s - len (nodes line))) emptyNode)
           ++ map (fun r => Node r (sstyle s)) rs
           ++ drop (Z.to_nat (x s + len rs)) (nodes line)
    /\ metadata line' = metadata line /\ elements line' = elements line
    /\ linked s (len rs) line line'.
Proof.
  intros Hs Hw Hy Hx Hmax Hne Hfuel.
  destruct rs as [|r rs]; [congruence|].
  apply appendMany_cons_in_window; assumption.
Qed.

(** The first loop of currentLineForWriting with the cursor one row below
    a full window (as after a line feed on its last row): it runs once.
    While the buffer is below its limit, or has none, one empty line is
    added; at the limit the first line of the buffer is scrolled out (the
    callback, if set, is called with its HTML, LinesScrolledOut goes up by
    one) and an empty line is added at the end.  In both cases the cursor
    row becomes the last row of the window. *)
Theorem write_below_window_scrolls (fuel : nat) (s : Screen) :
  sized s -> y s = lines s -> lines s <= len (screen s) ->
  len (screen s) < GoInt.max_int -> (1 <= fuel)%nat ->
  ((maxLines s <=? 0) || (len (screen s) + 1 <=? maxLines s) = true ->
   allocLines fuel s
   = Ok (set_y (lines s - 1)
           (set_screen (screen s ++ [newScreenLine []]) s)))
  /\ ((maxLines s <=? 0) || (len (screen s) + 1 <=? maxLines s) = false ->
      exists line0 rest,
        screen s = line0 :: rest
        /\ allocLines fuel s
           = Ok (MkScreen (x s) (lines s - 1) (rest ++ [newScreenLine []])
                   (sstyle s) (urlBrush s) (maxLines s) (maxColumns s)
                   (cols s) (lines s) (ScrollOutFunc s)
                   (scrollOutCalls s
                      ++ (if ScrollOutFunc s then [asHTML line0] else []))
                   (LinesScrolledOut s + 1) (CursorUpOOB s)
                   (CursorDownOOB s) (CursorFwdOOB s) (CursorBackOOB s))).
Proof.
  intros Hs Hy Hfull Hmax Hfuel.
  pose proof (top_sized s Hs) as Htop.
  destruct Hs as (Hc & Hl & Hn).
  assert (Hsub : GoInt.sub (lines s) 1 = lines s - 1).
  { unfold GoInt.sub. apply wrap_id.
    unfold GoInt.min_int, GoInt.max_int in *. lia. }
  assert (Hnone : currentLine s = None).
  { apply currentLine_below; [exact (conj Hc (conj Hl Hn))|]. lia. }
  destruct fuel as [|fuel]; [lia|]. cbn [allocLines]. rewrite Hnone.
  split; intros Hcase.
  - unfold allocStep. rewrite Hcase. cbn [mbind res_bind].
    cbn [lines y set_screen]. rewrite Hy.
    destruct (Z.leb_spec (lines s) (lines s)); [|lia]. rewrite Hsub.
    eapply allocLines_current.
    apply currentLine_Some.
    + unfold sized. cbn [cols lines screen set_y set_screen].
      rewrite len_app. change (len [newScreenLine []]) with 1.
      repeat split; lia.
    + cbn [y set_y]. lia.
    + unfold top, GoInt.sub. cbn [screen lines y set_y set_screen].
      rewrite len_app. change (len [newScreenLine []]) with 1.
      rewrite wrap_id by (unfold GoInt.min_int, GoInt.max_int in *; lia).
      lia.
  - destruct (screen s) as [|line0 rest] eqn:Hscr.
    { change (len (@nil screenLine)) with 0 in Hfull. lia. }
    exists line0, rest. split; [reflexivity|].
    unfold allocStep. rewrite Hscr, Hcase.
    change (index (line0 :: rest) 0) with (Ok line0).
    cbn [mbind res_bind]. rewrite slice_empty. cbn [mbind res_bind].
    rewrite len_cons in *. pose proof (len_nonneg rest) as Hrest.
    assert (Hsl : forall s0, screen s0 = line0 :: rest ->
              slice (screen s0) 1 (len (screen s0)) = Ok rest).
    { intros s0 ->. rewrite slice_suffix by (rewrite ?len_cons; lia).
      reflexivity. }
    rewrite Hsl by (destruct (ScrollOutFunc s); cbn; exact Hscr).
    cbn [mbind res_bind].
    set (s' := set_y _ _).
    assert (Hs' : s' = MkScreen (x s) (lines s - 1)
                         (rest ++ [newScreenLine []])
                         (sstyle s) (urlBrush s) (maxLines s) (maxColumns s)
                         (cols s) (lines s) (ScrollOutFunc s)
                         (scrollOutCalls s
                            ++ (if ScrollOutFunc s then [asHTML line0]
                                else []))
                         (LinesScrolledOut s + 1) (CursorUpOOB s)
                         (CursorDownOOB s) (CursorFwdOOB s)
                         (CursorBackOOB s)).
    { unfold s'. clear - Hy Hsub. revert Hy Hsub.
      destruct s as [? ? ? ? ? ? ? ? ? f ? ? ? ? ? ?]. simpl_rec.
      intros Hy Hsub.
      destruct f; simpl_rec; rewrite Hy, Hsub, ?app_nil_r; reflexivity. }
    rewrite Hs'.
    eapply allocLines_current.
    apply currentLine_Some.
    + unfold sized. cbn [cols lines screen].
      rewrite len_app. change (len [newScreenLine []]) with 1.
      repeat split; lia.
    + cbn [y]. lia.
    + unfold top, GoInt.sub. cbn [screen lines y].
      rewrite len_app. change (len [newScreenLine []]) with 1.
      rewrite wrap_id by (unfold GoInt.min_int, GoInt.max_int in *; lia).
      lia.
Qed.

(** Plain ASCII text written in one call, to an idle parser whose screen
    has its cursor row inside the window and a column that is not
    negative: Write returns (no panic, enough fuel for the missing lines
    and the bytes), no line is scrolled out, the bytes are the cells of
    the line at the cursor from the cursor column on, with the current
    style, the cursor has moved right by the number of bytes, and the
    parser is idle with an empty buffer. *)
Theorem Write_text_on_screen (text : list byte) (st : parser) (fuel : nat) :
  idle st -> forallb plain_byte text = true -> text <> [] ->
  sized (scr st) -> window_fits (scr st) ->
  0 <= y (scr st) < lines (scr st) -> 0 <= x (scr st) ->
  x (scr st) + len text <= GoInt.max_int ->
  (length text <= fuel)%nat -> (missing_lines (scr st) <= fuel)%nat ->
  exists (yidx : nat) (line line' : screenLine) (st' : parser),
    with_missing_lines (scr st) !! yidx = Some line
    /\ Z.of_nat yidx
       = Z.max 0 (len (with_missing_lines (scr st)) - lines (scr st))
         + y (scr st)
    /\ state_after (Write fuel text st) = Ok st'
    /\ idle st'
    /\ scr st'
       = set_x (x (scr st) + len text)
           (set_screen (<[yidx := line']> (with_missing_lines (scr st)))
              (scr st))
    /\ nodes line'
       = take (Z.to_nat (x (scr st)))
           (nodes line
              ++ replicate (Z.to_nat (x (scr st) - len (nodes line)))
                   emptyNode)
           ++ map (fun b => Node (b2z b) (sstyle (scr st))) text
           ++ drop (Z.to_nat (x (scr st) + len text)) (nodes line)
    /\ metadata line' = metadata line /\ elements line' = elements line
    /\ linked (scr st) (len text) line line'.
Proof.
  intros (Hbuf & Hcur & Hmode) Htext Hne Hs Hw Hy Hx Hmax Hfuel Hmiss.
  destruct st as [s buf m cu e ins i sp ts]. cbn in Hbuf, Hcur, Hmode.
  subst buf cu m. cbn [scr] in *.
  destruct text as [|b text]; [congruence|].
  assert (Hlen : len (map b2z (b :: text)) = len (b :: text))
    by (unfold len; rewrite length_map; reflexivity).
  destruct (appendMany_cons_in_window fuel (b2z b) (map b2z text) s
              Hs Hw Hy Hx)
    as (yidx & line & line' & Hline & Hyidx & Hrun & Hn & Hm & He & Hl);
    [change (b2z b :: map b2z text) with (map b2z (b :: text));
     rewrite Hlen; exact Hmax|exact Hmiss|].
  change (b2z b :: map b2z text) with (map b2z (b :: text)) in *.
  rewrite Hlen in *.
  exists yidx, line, line'. eexists.
  split; [exact Hline|]. split; [exact Hyidx|].
  split.
  { rewrite Write_plain_text_run by assumption.
    rewrite Hrun. cbn [res_map mbind res_bind]. reflexivity. }
  split; [repeat split|]. split; [reflexivity|].
  split; [|split; [exact Hm|split; [exact He|exact Hl]]].
  rewrite Hn, map_map. reflexivity.
Qed.


End Properties.

(** * Concrete runs *)

(** C4: a line of three cells with the cursor on the last one (column 2).
    Erase in Line 1 leaves a line of length 0: the cells are removed, they
    do not become empty cells, and the length is not preserved. *)
Lemma EL1_truncates_counterexample :
  observe (Write 20 (bytes "abc" ++ ["008"%byte]) freshScreen)
    = Ok ([[97; 98; 99]], (2, 0))
  /\ observe (Write 20 (bytes "abc" ++ ["008"%byte; ESC] ++ bytes "[1K")
               freshScreen)
    = Ok ([[]], (2, 0)).
Proof. split; vm_compute; reflexivity. Qed.

Lemma EL1_erases_to_cursor_witness :
  let s := set_x 1 (set_screen [line_abcd] zeroScreen) in
  currentLine s = Some 0
  /\ screen s !! Z.to_nat 0 = Some line_abcd
  /\ exists l',
    applyEscape (rune_of "K") [bytes "1"] s
      = Ok (set_screen (<[Z.to_nat 0 := l']> (screen s)) s)
    /\ metadata l' = metadata line_abcd /\ elements l' = elements line_abcd
    /\ hyperlinks l' = hyperlinks line_abcd
    /\ (0 <= x s < len (nodes line_abcd) - 1 ->
        len (nodes l') = len (nodes line_abcd)
        /\ (forall i, 0 <= i <= x s ->
              nodes l' !! Z.to_nat i = Some emptyNode)
        /\ (forall i, x s < i ->
              nodes l' !! Z.to_nat i = nodes line_abcd !! Z.to_nat i))
    /\ (0 <= x s -> len (nodes line_abcd) - 1 <= x s -> nodes l' = [])
    /\ (x s < 0 -> nodes l' = nodes line_abcd).
Proof.
  split; [reflexivity|]. split; [reflexivity|].
  apply EL1_erases_to_cursor; reflexivity.
Defined.

Lemma ED2_ED3_reset_witness :
  let s := set_y 1 (set_x 2 (set_screen [line_abcd] zeroScreen)) in
  sized s
  /\ applyEscape (rune_of "J") [bytes "2"] s
    = Ok (set_y 0 (set_x 0
            (set_screen (take (Z.to_nat (top s)) (screen s)) s)))
  /\ applyEscape (rune_of "J") [bytes "3"] s
    = Ok (set_y 0 (set_x 0 (set_screen [] s))).
Proof.
  assert (Hs : sized (set_y 1 (set_x 2 (set_screen [line_abcd] zeroScreen))))
    by (repeat split; vm_compute; congruence).
  split; [exact Hs|].
  exact (ED2_ED3_reset _ Hs).
Defined.

Lemma erase_without_line_witness :
  let s := set_y 1 (set_screen [line_abcd] zeroScreen) in
  (screen s = []
   \/ (sized s /\ len (screen s) <= top s + y s <= GoInt.max_int))
  /\ currentLine s = None
  /\ (forall ins, applyEscape (rune_of "K") ins s = Ok s)
  /\ applyEscape (rune_of "J") [] s = Ok s
  /\ (forall rest, applyEscape (rune_of "J") (bytes "0" :: rest) s = Ok s)
  /\ at_line (currentLine s) (clear (x s) screenEndOfLine) s = Ok s
  /\ at_line (currentLine s) (clear screenStartOfLine (x s)) s = Ok s
  /\ at_line (currentLine s) clearAll s = Ok s.
Proof.
  assert (H : let s := set_y 1 (set_screen [line_abcd] zeroScreen) in
              screen s = []
              \/ (sized s /\ len (screen s) <= top s + y s <= GoInt.max_int)).
  { right. repeat split; vm_compute; congruence. }
  split; [exact H|].
  exact (erase_without_line _ H).
Defined.

(** C6: in a window of 5 columns and 5 lines, seven characters put the
    cursor at column 7; Cursor Back by one leaves it at column 6, outside
    the window, and counts nothing.  Six newlines put the cursor at row
    6; Cursor Up by one leaves it at row 5, outside the window. *)
Lemma cursor_outside_window_counterexample :
  NewScreen [WithSize 5 5] = Some screen5x5
  /\ observe_motion
       (Write 20 (bytes "abcdefg" ++ [ESC] ++ bytes "[1D") screen5x5)
     = Ok ((6, 0), (5, 5), (0, 0, 0, 0))
  /\ observe_motion
       (Write 20 (replicate 6 "010"%byte ++ [ESC] ++ bytes "[1A") screen5x5)
     = Ok ((0, 5), (5, 5), (0, 0, 0, 0)).
Proof. repeat split; vm_compute; reflexivity. Qed.

Lemma cursor_motion_witness :
  let s := set_y 2 (set_x 3 zeroScreen) in
  let ins := [bytes "5"] in
  (sized s /\ HasPrefix_question (inst ins 0) = false
   /\ 0 <= ansiInt (inst ins 0) /\ 0 <= x s /\ 0 <= y s
   /\ x s + ansiInt (inst ins 0) <= GoInt.max_int
   /\ y s + ansiInt (inst ins 0) <= GoInt.max_int)
  /\ (exists s', applyEscape (rune_of "A") ins s = Ok s'
        /\ y s' = 0 /\ counters s' = (1, 0, 0, 0) /\ in_window s')
  /\ (exists s', applyEscape (rune_of "C") ins s = Ok s'
        /\ x s' = 8 /\ counters s' = (0, 0, 0, 0) /\ in_window s').
Proof.
  assert (Hin : in_window (set_y 2 (set_x 3 zeroScreen)))
    by (repeat split; vm_compute; congruence).
  assert (H : let s := set_y 2 (set_x 3 zeroScreen) in
              let ins := [bytes "5"] in
              sized s /\ HasPrefix_question (inst ins 0) = false
              /\ 0 <= ansiInt (inst ins 0) /\ 0 <= x s /\ 0 <= y s
              /\ x s + ansiInt (inst ins 0) <= GoInt.max_int
              /\ y s + ansiInt (inst ins 0) <= GoInt.max_int)
    by (repeat split; vm_compute; congruence).
  split; [exact H|].
  destruct H as (H1 & H2 & H3 & H4 & H5 & H6 & H7).
  destruct (cursor_motion _ _ H1 H2 H3 H4 H5 H6 H7)
    as (_ & (sa & Ha & Hya & _ & Hca & _ & Hwa) & _
          & (sc & Hc & Hxc & _ & Hcc & _ & Hwc) & _).
  split.
  - exists sa. repeat split; try apply (Hwa Hin); assumption.
  - exists sc. repeat split; try apply (Hwc Hin); assumption.
Defined.

(** Scroll-out with maxLines = 2: after "a\nb\nc\nd" the buffer holds the
    lines c and d, two lines were scrolled out, and the callback was
    called with the line a, then with the line b. *)
Lemma scroll_out_run :
  NewScreen [WithMaxSize 0 2; WithScrollOutFunc] = Some screenMax2
  /\ observe_scroll
       (Write 20 (bytes "a" ++ [LF] ++ bytes "b" ++ [LF] ++ bytes "c"
                    ++ [LF] ++ bytes "d") screenMax2)
     = Ok ([[99]; [100]], 2, [bytes "a"; bytes "b"]).
Proof. split; vm_compute; reflexivity. Qed.

Lemma plain_Screen_clear_framed : Screen_clear_framed.
Proof. intros s a b c s' [= <-]. repeat split; lia. Defined.

Lemma scrollback_capped_and_accounted_witness :
  let input := bytes "a" ++ [LF] ++ bytes "b" ++ [LF] ++ bytes "c"
                 ++ [LF] ++ bytes "d" in
  Screen_clear_framed
  /\ exists p', Write 20 input screenMax2 = Ok (p', 7, None)
       /\ maxLines (scr p') = 2 /\ capped (scr p')
       /\ exists evicted, evicts (scr screenMax2) (scr p') evicted.
Proof.
  split; [exact plain_Screen_clear_framed|].
  destruct (Write 20 (bytes "a" ++ [LF] ++ bytes "b" ++ [LF] ++ bytes "c"
                        ++ [LF] ++ bytes "d") screenMax2)
    as [[[p' n] e]| |] eqn:Hw; try (vm_compute in Hw; discriminate Hw).
  assert (Hne : (n, e) = (7, None)).
  { vm_compute in Hw. injection Hw as _ <- <-. reflexivity. }
  injection Hne as -> ->.
  exists p'. split; [reflexivity|].
  destruct scrollback_capped_and_accounted as (_ & _ & _ & H).
  destruct (H plain_Screen_clear_framed _ _ _ _ _ _ Hw)
    as (H1 & _ & H2 & H3).
  split; [exact H1|]. split; [|exact H3].
  apply H2. intros _. vm_compute. discriminate.
Defined.

(** C2: the parser takes the final character H (after upper-casing) for
    Set Mode and ignores the sequence, so "abcdef" ESC "[1;3Hx" leaves
    "abcdefx" on the line and the cursor at (7,0); applyEscape itself,
    called with code H and the parameters 1 and 3, would put the cursor
    at (2,0). *)
Lemma cursor_position_H_is_ignored :
  observe (Write 20 (bytes "abcdef" ++ [ESC] ++ bytes "[1;3Hx") freshScreen)
    = Ok ([[97; 98; 99; 100; 101; 102; 120]], (7, 0))
  /\ handleControlSequence (rune_of "H")
       (MkParser zeroScreen (ESC :: bytes "[1;3H") parserModeControl 5 0
          [bytes "1"] 4 (Position 0 0) 0)
     = Ok (MkParser zeroScreen (ESC :: bytes "[1;3H") parserModeNormal 5 0
             [bytes "1"] 4 (Position 0 0) 0)
  /\ (s ← applyEscape (rune_of "H") [bytes "1"; bytes "3"]
            (set_x 6 zeroScreen);
      Ok (cursorXY s)) = Ok (2, 0).
Proof. repeat split; vm_compute; reflexivity. Qed.

(** C5: ESC followed by the two bytes of U+00E9.  The false alarm sets the
    cursor back to the escape start and the loop then adds the width of
    the rune (2), so the next rune is decoded at the second byte: U+FFFD
    is written, not U+00E9.  After an ASCII character the cursor is on
    that character again and it is written. *)
Lemma false_alarm_skips_into_rune :
  observe (Write 20 [ESC; "195"%byte; "169"%byte] freshScreen)
    = Ok ([[0xFFFD]], (1, 0))
  /\ observe (Write 20 ["195"%byte; "169"%byte] freshScreen)
    = Ok ([[0xE9]], (1, 0))
  /\ observe (Write 20 (ESC :: bytes "x") freshScreen)
    = Ok ([[120]], (1, 0))
  /\ observe (Write 20 (ESC :: bytes "[" ++ ["226"%byte; "130"%byte;
                                            "172"%byte]) freshScreen)
    = Ok ([[0xFFFD; 0xFFFD]], (2, 0)).
Proof. repeat split; vm_compute; reflexivity. Qed.

(** C8: Cursor Forward by 2^63-1 from column 1 wraps x around to -2^63,
    which is not clamped; the next character is stored at
    [line.nodes[s.x]] and the index is out of range: Write panics,
    whatever the fuel. *)
Lemma Write_panics_after_overflow :
  forall fuel,
    is_Ok (Write fuel (bytes "a" ++ [ESC] ++ bytes "[9223372036854775807Cb")
             freshScreen) = false
  /\ Write (24 + fuel) (bytes "a" ++ [ESC] ++ bytes "[9223372036854775807Cb")
       freshScreen = Panic.
Proof.
  assert (H : forall fuel,
    Write (24 + fuel) (bytes "a" ++ [ESC] ++ bytes "[9223372036854775807Cb")
      freshScreen = Panic).
  { intros fuel. vm_compute. reflexivity. }
  intros fuel. split; [|apply H].
  do 24 (destruct fuel as [|fuel]; [vm_compute; reflexivity|]).
  pose proof (H fuel) as Hf. cbn [Nat.add] in Hf. rewrite Hf. reflexivity.
Qed.

(** C9: Cursor Forward by 2^63-1 from column 1 leaves x = -2^63, and
    Cursor Down by 2^63-1 from row 1 leaves y = -2^63. *)
Lemma cursor_negative_after_overflow :
  observe (Write 30 (bytes "a" ++ [ESC] ++ bytes "[9223372036854775807C")
             freshScreen)
    = Ok ([[97]], (-9223372036854775808, 0))
  /\ observe (Write 30 ([LF; ESC] ++ bytes "[9223372036854775807B")
                freshScreen)
    = Ok ([], (0, -9223372036854775808)).
Proof. repeat split; vm_compute; reflexivity. Qed.

(** C1: the two bytes of U+00E9 written one by one leave two U+FFFD on
    the line, written at once they leave U+00E9. *)
Lemma rune_split_counterexample :
  observe (Write2 20 ["195"%byte] ["169"%byte] freshScreen)
    = Ok ([[0xFFFD; 0xFFFD]], (2, 0))
  /\ observe (Write 20 ["195"%byte; "169"%byte] freshScreen)
    = Ok ([[0xE9]], (1, 0)).
Proof. split; vm_compute; reflexivity. Qed.

(** An escape sequence split after ESC: "abc" ESC, then "[31mdef". *)
Lemma Write_split_witness :
  let p := bytes "abc" ++ [ESC] in
  let q := bytes "[31mdef" in
  (idle freshScreen /\ no_rune_split p q)
  /\ exists m o,
       Writes freshScreen p (Ok m) /\ mode m = parserModeEscape
       /\ buffer m = [ESC]
       /\ Writes m q (Ok o)
       /\ Writes freshScreen (p ++ q) (Ok o)
       /\ glyphs (scr o) = [[97; 98; 99; 100; 101; 102]]
       /\ cursorXY (scr o) = (6, 0).
Proof.
  assert (H : idle freshScreen
              /\ no_rune_split (bytes "abc" ++ [ESC]) (bytes "[31mdef")).
  { split; [repeat split|]. apply no_rune_split_starts_rune.
    cbn. unfold continuation_byte. change (b2z "[") with 91. lia. }
  split; [exact H|]. destruct H as [Hidle Hq].
  assert (H1 : exists m, Writes freshScreen (bytes "abc" ++ [ESC]) (Ok m)
                 /\ mode m = parserModeEscape /\ buffer m = [ESC]
                 /\ exists o, Writes m (bytes "[31mdef") (Ok o)
                      /\ glyphs (scr o) = [[97; 98; 99; 100; 101; 102]]
                      /\ cursorXY (scr o) = (6, 0)).
  { eexists. split; [exists 20%nat; split; [vm_compute; reflexivity|discriminate]|].
    split; [reflexivity|]. split; [reflexivity|].
    eexists. split; [exists 20%nat; split; [vm_compute; reflexivity|discriminate]|].
    split; reflexivity. }
  destruct H1 as (m & Hm & Hmode & Hbuf & o & Ho & Hg & Hc).
  exists m, o. repeat split; try assumption.
  apply (Write_split _ _ _ _ Hidle Hq). right. exists m. split; assumption.
Defined.

(** [ESC [ 3 ; ; 1 b]: the parameters are 3 and 1 (the empty one is
    dropped) and the screen receives applyEscape('B', ["3", "1"]): the
    cursor goes three lines down, to the last line of the window. *)
Lemma control_sequence_dispatch_witness :
  (idle screen5x5 /\ forallb param_byte (bytes "3;;1") = true
   /\ final_byte "b" = true /\ (3 + 4 <= 10)%nat)
  /\ csi_params (bytes "3;;1") = [bytes "3"; bytes "1"]
  /\ state_after
       (Write 10 (ESC :: "["%byte :: bytes "3;;1" ++ ["b"%byte]) screen5x5)
     = res_map
         (fun s' =>
            MkParser s' [] parserModeNormal 0 (- (len (bytes "3;;1") + 3))
              (csi_params (bytes "3;;1"))
              (- (len (scan_params [] [] (bytes "3;;1")).2 + 1))
              (savePosition screen5x5) (lastTimestamp screen5x5))
         (applyEscape (unicode.ToUpper (b2z "b")) (csi_params (bytes "3;;1"))
            (scr screen5x5))
  /\ observe_motion
       (Write 10 (ESC :: "["%byte :: bytes "3;;1" ++ ["b"%byte]) screen5x5)
     = Ok ((0, 3), (5, 5), (0, 0, 0, 0)).
Proof.
  split; [repeat split; lia|]. split; [reflexivity|].
  split; [|vm_compute; reflexivity].
  apply (control_sequence_dispatch (bytes "3;;1") "b" screen5x5 10).
  - repeat split.
  - reflexivity.
  - reflexivity.
  - vm_compute. lia.
Defined.

(** [ESC [ 1 ; 3 H]: the screen of the parser is the one it had. *)
Lemma control_sequence_H_L_ignored_witness :
  (idle screen5x5 /\ forallb param_byte (bytes "1;3") = true
   /\ mode_byte "H" = true /\ (3 + 3 <= 10)%nat)
  /\ state_after
       (Write 10 (ESC :: "["%byte :: bytes "1;3" ++ ["H"%byte]) screen5x5)
     = Ok (MkParser (scr screen5x5) [] parserModeNormal 0
             (- (len (bytes "1;3") + 3))
             (scan_params [] [] (bytes "1;3")).1
             (- (len (scan_params [] [] (bytes "1;3")).2 + 1))
             (savePosition screen5x5) (lastTimestamp screen5x5)).
Proof.
  split; [repeat split; lia|].
  apply (control_sequence_H_L_ignored (bytes "1;3") "H" screen5x5 10).
  - repeat split.
  - reflexivity.
  - reflexivity.
  - vm_compute. lia.
Defined.

(** Writing "ab" and a line feed returns 3 and no error. *)
Lemma Write_returns_len_witness :
  exists p, Write 5 (bytes "ab" ++ [LF]) freshScreen = Ok (p, 3, None)
            /\ 3 = len (bytes "ab" ++ [LF]) /\ @None error = None.
Proof.
  eexists. split; [vm_compute; reflexivity|].
  eapply (Write_returns_len 5 (bytes "ab" ++ [LF]) freshScreen).
  vm_compute. reflexivity.
Defined.

(** The outcome of writing "ab" is the same with 5 and with 9 units of
    fuel. *)
Lemma Writes_deterministic_witness :
  let o1 := state_after (Write 5 (bytes "ab") freshScreen) in
  let o2 := state_after (Write 9 (bytes "ab") freshScreen) in
  Writes freshScreen (bytes "ab") o1 /\ Writes freshScreen (bytes "ab") o2
  /\ o1 = o2.
Proof.
  cbv zeta.
  assert (H1 : Writes freshScreen (bytes "ab")
                 (state_after (Write 5 (bytes "ab") freshScreen))).
  { exists 5%nat. split; [reflexivity|]. vm_compute. discriminate. }
  assert (H2 : Writes freshScreen (bytes "ab")
                 (state_after (Write 9 (bytes "ab") freshScreen))).
  { exists 9%nat. split; [reflexivity|]. vm_compute. discriminate. }
  split; [exact H1|]. split; [exact H2|].
  exact (Writes_deterministic freshScreen (bytes "ab") _ _ H1 H2).
Defined.

(** CSI 9 G on a window of 5 columns: the cursor goes to column 4. *)
Lemma cursor_horizontal_absolute_witness :
  (HasPrefix_question (inst [bytes "9"] 0) = false
   /\ 0 < cols (scr screen5x5) <= GoInt.max_int
   /\ GoInt.min_int < ansiInt (inst [bytes "9"] 0) <= GoInt.max_int)
  /\ (s ← applyEscape (rune_of "G") [bytes "9"] (scr screen5x5);
      Ok (cursorXY s)) = Ok (4, 0).
Proof.
  assert (H : HasPrefix_question (inst [bytes "9"] 0) = false
              /\ 0 < cols (scr screen5x5) <= GoInt.max_int
              /\ GoInt.min_int < ansiInt (inst [bytes "9"] 0)
                 <= GoInt.max_int).
  { split; [reflexivity|]. split; vm_compute; split; congruence. }
  split; [exact H|]. destruct H as (H1 & H2 & H3).
  destruct (cursor_horizontal_absolute [bytes "9"] (scr screen5x5) H1 H2 H3)
    as [-> _].
  reflexivity.
Defined.

(** applyEscape with code H and the parameters 2 and 9 on a window of 5
    columns and 5 lines: the cursor goes to line 1, column 4. *)
Lemma cursor_position_absolute_witness :
  (HasPrefix_question (inst [bytes "2"; bytes "9"] 0) = false
   /\ 0 < cols (scr screen5x5) <= GoInt.max_int
   /\ 0 < lines (scr screen5x5) <= GoInt.max_int
   /\ GoInt.min_int < ansiInt (inst [bytes "2"; bytes "9"] 0)
      <= GoInt.max_int
   /\ GoInt.min_int < ansiInt (inst [bytes "2"; bytes "9"] 1)
      <= GoInt.max_int)
  /\ (s ← applyEscape (rune_of "H") [bytes "2"; bytes "9"] (scr screen5x5);
      Ok (cursorXY s)) = Ok (4, 1).
Proof.
  assert (H : HasPrefix_question (inst [bytes "2"; bytes "9"] 0) = false
              /\ 0 < cols (scr screen5x5) <= GoInt.max_int
              /\ 0 < lines (scr screen5x5) <= GoInt.max_int
              /\ GoInt.min_int < ansiInt (inst [bytes "2"; bytes "9"] 0)
                 <= GoInt.max_int
              /\ GoInt.min_int < ansiInt (inst [bytes "2"; bytes "9"] 1)
                 <= GoInt.max_int).
  { split; [reflexivity|]. repeat split; vm_compute; congruence. }
  split; [exact H|]. destruct H as (H1 & H2 & H3 & H4 & H5).
  destruct (cursor_position_absolute [bytes "2"; bytes "9"] (scr screen5x5)
              H1 H2 H3 H4 H5) as [-> _].
  reflexivity.
Defined.

(** Erase line variants: "hello world", five columns back and CSI 0 K
    leave "hello "; then CSI 1 G and "world" leave "world ". *)
Lemma erase_line_run :
  observe (Write 40 (bytes "hello world" ++ [ESC] ++ bytes "[5D" ++ [ESC]
                       ++ bytes "[0K") freshScreen)
    = Ok ([[104; 101; 108; 108; 111; 32]], (6, 0))
  /\ observe (Write2 40
               (bytes "hello world" ++ [ESC] ++ bytes "[5D" ++ [ESC]
                  ++ bytes "[0K")
               ([ESC] ++ bytes "[1Gworld") freshScreen)
     = Ok ([[119; 111; 114; 108; 100; 32]], (5, 0)).
Proof. split; vm_compute; reflexivity. Qed.

(** A rune appended at column 3 of row 2 of an empty buffer: three lines
    are added and the third one is three empty cells and the rune. *)
Lemma append_stores_rune_witness :
  let s := set_y 2 (set_x 3 (scr screen5x5)) in
  (sized s /\ window_fits s /\ 0 <= y s < lines s
   /\ 0 <= x s < GoInt.max_int /\ (missing_lines s <= 3)%nat)
  /\ exists (yidx : nat) (line' : screenLine),
       append 3 97 s
       = Ok (set_x 4
               (set_screen (<[yidx := line']> (with_missing_lines s)) s))
       /\ nodes line' !! 3%nat = Some (Node 97 (sstyle s))
       /\ len (nodes line') = 4.
Proof.
  cbv zeta.
  assert (H : let s := set_y 2 (set_x 3 (scr screen5x5)) in
              sized s /\ window_fits s /\ 0 <= y s < lines s
              /\ 0 <= x s < GoInt.max_int /\ (missing_lines s <= 3)%nat).
  { cbv zeta. unfold sized, window_fits. vm_compute.
    repeat split; intros; (congruence || lia). }
  cbv zeta in H. split; [exact H|]. destruct H as (H1 & H2 & H3 & H4 & H5).
  destruct (append_stores_rune 3 97 _ H1 H2 H3 H4 H5)
    as (yidx & line & line' & Hline & Hy & Hrun & Hn & Hx & Hlen & _).
  exists yidx, line'. split; [exact Hrun|]. split; [exact Hx|].
  rewrite Hlen.
  assert (Hl : line = newScreenLine []).
  { vm_compute in Hline.
    destruct yidx as [|[|[|?]]]; cbn in Hline;
      first [discriminate | injection Hline as <-; reflexivity]. }
  rewrite Hl. reflexivity.
Defined.

(** An element appended at column 1 of row 0 of an empty buffer: the cell
    holds 0, the index of the element in the line. *)
Lemma appendElement_stores_index_witness :
  let s := set_x 1 (scr screen5x5) in
  (sized s /\ window_fits s /\ 0 <= y s < lines s
   /\ 0 <= x s < GoInt.max_int /\ (missing_lines s <= 1)%nat)
  /\ exists (yidx : nat) (line' : screenLine) (cell : node),
       appendElement 1 (bytes "img") s
       = Ok (set_x 2
               (set_screen (<[yidx := line']> (with_missing_lines s)) s))
       /\ nodes line' !! 1%nat = Some cell
       /\ elements line' !! Z.to_nat (blob cell) = Some (bytes "img").
Proof.
  cbv zeta.
  assert (H : let s := set_x 1 (scr screen5x5) in
              sized s /\ window_fits s /\ 0 <= y s < lines s
              /\ 0 <= x s < GoInt.max_int /\ (missing_lines s <= 1)%nat).
  { cbv zeta. unfold sized, window_fits. vm_compute.
    repeat split; intros; (congruence || lia). }
  cbv zeta in H. split; [exact H|]. destruct H as (H1 & H2 & H3 & H4 & H5).
  destruct (appendElement_stores_index (T := plainTypes) 1 (bytes "img") _
              H1 H2 H3 H4 H5)
    as (yidx & line & line' & cell & Hline & Hy & Hrun & He & Hx & _ & _
        & Hidx & _).
  exists yidx, line', cell. split; [exact Hrun|]. split; [exact Hx|].
  apply Hidx.
  assert (Hl : line = newScreenLine []).
  { vm_compute in Hline. destruct yidx as [|?]; cbn in Hline;
      first [discriminate | injection Hline as <-; reflexivity]. }
  rewrite Hl. reflexivity.
Defined.

(** Metadata set on row 0 of an empty buffer: the key t of the namespace
    bk has the new value. *)
Lemma setLineMetadata_merges_witness :
  let s := scr screen5x5 in
  let data : gmap gostring gostring := {[ bytes "t" := bytes "12" ]} in
  (sized s /\ window_fits s /\ 0 <= y s < lines s
   /\ (missing_lines s <= 1)%nat)
  /\ exists (yidx : nat) (line' : screenLine) md merged,
       setLineMetadata 1 (bytes "bk") data s
       = Ok (set_screen (<[yidx := line']> (with_missing_lines s)) s)
       /\ metadata line' = Some md /\ md !! bytes "bk" = Some merged
       /\ merged !! bytes "t" = Some (bytes "12").
Proof.
  cbv zeta.
  assert (H : let s := scr screen5x5 in
              sized s /\ window_fits s /\ 0 <= y s < lines s
              /\ (missing_lines s <= 1)%nat).
  { cbv zeta. unfold sized, window_fits. vm_compute.
    repeat split; intros; (congruence || lia). }
  cbv zeta in H. split; [exact H|]. destruct H as (H1 & H2 & H3 & H4).
  destruct (setLineMetadata_merges 1 (bytes "bk")
              {[ bytes "t" := bytes "12" ]} _ H1 H2 H3 H4)
    as (yidx & line & line' & md & merged & _ & _ & Hrun & Hmd & Hns & Hk
        & _).
  exists yidx, line', md, merged.
  split; [exact Hrun|]. split; [exact Hmd|]. split; [exact Hns|].
  apply Hk. apply lookup_singleton_eq.
Defined.

(** A limit of 100 columns and 2 lines, then a window of 80 by 2 and a
    callback: the window is within the limits. *)
Lemma NewScreen_window_witness :
  let opts := [WithMaxSize 100 2; WithSize 80 2; WithScrollOutFunc] in
  let st :=
    MkParser (MkScreen 0 0 [] style_zero [] 2 100 80 2 true [] 0 0 0 0 0)
      [] parserModeNormal 0 0 [] 0 (Position 0 0) 0 in
  (Forall package_option opts /\ NewScreen opts = Some st)
  /\ 0 < cols (scr st) /\ 0 < lines (scr st) /\ window_fits (scr st)
  /\ screen (scr st) = [] /\ x (scr st) = 0 /\ y (scr st) = 0 /\ idle st.
Proof.
  cbv zeta.
  assert (H : Forall package_option
                [WithMaxSize 100 2; WithSize 80 2; WithScrollOutFunc]).
  { constructor; [right; left; exists 100, 2; reflexivity|].
    constructor; [left; exists 80, 2; reflexivity|].
    constructor; [right; right; reflexivity|]. constructor. }
  split; [split; [exact H|reflexivity]|].
  apply (NewScreen_window _ _ H). reflexivity.
Defined.

(** After "ab" and the start of a control sequence, the parser holds the
    three bytes of the open sequence. *)
Lemma Write_keeps_open_sequence_witness :
  let input := bytes "ab" ++ [ESC] ++ bytes "[3" in
  exists st',
    (pinv freshScreen /\ state_after (Write 9 input freshScreen) = Ok st')
    /\ buffer st' = [ESC] ++ bytes "[3"
    /\ mode st' = parserModeControl
    /\ pinv st' /\ cursor st' = len (buffer st')
    /\ escapeStartedAt st' = 0.
Proof.
  cbv zeta.
  destruct (state_after
              (Write 9 (bytes "ab" ++ [ESC] ++ bytes "[3") freshScreen))
    as [st'| |] eqn:Hrun; [|vm_compute in Hrun; discriminate..].
  exists st'.
  assert (Hinv : pinv freshScreen).
  { split; [vm_compute; split; congruence|exact I]. }
  split; [split; [exact Hinv|reflexivity]|].
  destruct (Write_keeps_open_sequence _ _ _ _ Hinv Hrun)
    as (Hinv' & Hcur & _ & Hesc & _).
  vm_compute in Hrun. injection Hrun as Hst.
  split; [rewrite <- Hst; reflexivity|].
  split; [rewrite <- Hst; reflexivity|].
  split; [exact Hinv'|]. split; [exact Hcur|].
  apply Hesc. rewrite <- Hst. discriminate.
Defined.

(** "hi" and a BEL byte written to a new screen: three cells. *)
Lemma Write_plain_text_witness :
  let text := bytes "hi" ++ ["007"%byte] in
  (idle freshScreen /\ forallb plain_byte text = true
   /\ (length text <= 3)%nat)
  /\ state_after (Write 3 text freshScreen)
     = res_map
         (fun s' =>
            MkParser s' [] parserModeNormal 0 (0 - len text) [] (0 - len text)
              (Position 0 0) 0)
         (appendMany 3 (map b2z text) zeroScreen)
  /\ res_map glyphs (appendMany 3 (map b2z text) zeroScreen)
     = Ok [[104; 105; 7]].
Proof.
  cbv zeta.
  assert (H : idle freshScreen
              /\ forallb plain_byte (bytes "hi" ++ ["007"%byte]) = true
              /\ (length (bytes "hi" ++ ["007"%byte]) <= 3)%nat).
  { split; [repeat split|]. split; [reflexivity|]. vm_compute. lia. }
  split; [exact H|]. destruct H as (H1 & H2 & H3).
  split; [|vm_compute; reflexivity].
  exact (Write_plain_text _ freshScreen 3 H1 H2 H3).
Defined.

(** An OSC 8 payload ended by BEL and by ESC \. *)
Lemma OSC_terminators_witness :
  let payload := bytes "8;;https://x/" in
  (idle freshScreen /\ forallb string_byte payload = true
   /\ (length payload + 4 <= 20)%nat)
  /\ res_map scr
       (state_after
          (Write 20 ([ESC; "]"%byte] ++ payload ++ [BEL]) freshScreen))
     = res_map scr
         (state_after
            (Write 20 ([ESC; "]"%byte] ++ payload ++ [ESC; "\"%byte])
               freshScreen)).
Proof.
  cbv zeta.
  assert (H : idle freshScreen
              /\ forallb string_byte (bytes "8;;https://x/") = true
              /\ (length (bytes "8;;https://x/") + 4 <= 20)%nat).
  { split; [repeat split|]. split; [reflexivity|]. vm_compute. lia. }
  split; [exact H|]. destruct H as (H1 & H2 & H3).
  destruct (OSC_terminators _ freshScreen 20 H1 H2 H3) as [Hbel Hst].
  rewrite Hbel, Hst. reflexivity.
Defined.

(** An APC payload ended by BEL and by ESC \. *)
Lemma APC_terminators_witness :
  let payload := bytes "bk;t=123" in
  (idle freshScreen /\ forallb string_byte payload = true
   /\ (length payload + 4 <= 20)%nat)
  /\ res_map scr
       (state_after
          (Write 20 ([ESC; "_"%byte] ++ payload ++ [BEL]) freshScreen))
     = res_map scr
         (state_after
            (Write 20 ([ESC; "_"%byte] ++ payload ++ [ESC; "\"%byte])
               freshScreen)).
Proof.
  cbv zeta.
  assert (H : idle freshScreen
              /\ forallb string_byte (bytes "bk;t=123") = true
              /\ (length (bytes "bk;t=123") + 4 <= 20)%nat).
  { split; [repeat split|]. split; [reflexivity|]. vm_compute. lia. }
  split; [exact H|]. destruct H as (H1 & H2 & H3).
  destruct (APC_terminators _ freshScreen 20 H1 H2 H3) as [Hbel Hst].
  rewrite Hbel, Hst. reflexivity.
Defined.

(** ESC 7 on a screen whose cursor is at (3,2) saves that position. *)
Lemma short_escape_sequences_witness :
  let st := MkParser (set_y 2 (set_x 3 zeroScreen)) [] parserModeNormal 0 0
              [] 0 (Position 0 0) 0 in
  (idle st /\ b2z "B" < 0x80 /\ (3 <= 3)%nat)
  /\ res_map savePosition (state_after (Write 3 [ESC; "7"%byte] st))
     = Ok (Position 3 2)
  /\ res_map (fun p => cursorXY (scr p))
       (state_after (Write 3 [ESC; "8"%byte] st)) = Ok (0, 0)
  /\ res_map (fun p => cursorXY (scr p))
       (state_after (Write 3 [ESC; "("%byte; "B"%byte] st)) = Ok (3, 2).
Proof.
  cbv zeta.
  assert (H : idle (MkParser (set_y 2 (set_x 3 zeroScreen)) []
                      parserModeNormal 0 0 [] 0 (Position 0 0) 0)
              /\ b2z "B" < 0x80 /\ (3 <= 3)%nat).
  { split; [repeat split|]. split; [vm_compute; reflexivity|lia]. }
  split; [exact H|]. destruct H as (H1 & H2 & H3).
  destruct (short_escape_sequences _ "B" 3 H1 H2 H3)
    as (Hsave & Hrestore & _ & Hcharset & _).
  rewrite Hsave, Hrestore, Hcharset. repeat split.
Defined.

(** CSI K and CSI J with the cursor at column 2 of the line abcd. *)
Lemma erase_from_cursor_witness :
  let s := MkScreen 2 0 [line_abcd; line_abcd] style_zero [] 0 0 5 5 false
             [] 0 0 0 0 0 in
  (sized s /\ currentLine s = Some 0
   /\ screen s !! Z.to_nat 0 = Some line_abcd
   /\ 0 <= x s <= GoInt.max_int
   /\ len (nodes line_abcd) <= GoInt.max_int)
  /\ res_map glyphs (applyEscape (rune_of "K") [] s)
     = Ok [[97; 98]; [97; 98; 99; 100]]
  /\ res_map glyphs (applyEscape (rune_of "J") [] s) = Ok [[97; 98]].
Proof.
  cbv zeta.
  assert (H : let s := MkScreen 2 0 [line_abcd; line_abcd] style_zero [] 0 0
                         5 5 false [] 0 0 0 0 0 in
              sized s /\ currentLine s = Some 0
              /\ screen s !! Z.to_nat 0 = Some line_abcd
              /\ 0 <= x s <= GoInt.max_int
              /\ len (nodes line_abcd) <= GoInt.max_int).
  { cbv zeta. unfold sized. vm_compute.
    repeat split; intros; congruence. }
  cbv zeta in H. split; [exact H|]. destruct H as (H1 & H2 & H3 & H4 & H5).
  destruct (erase_from_cursor _ 0 line_abcd H1 H2 H3 H4 H5)
    as (HK & _ & _ & HJ & _).
  rewrite HK, HJ. split; reflexivity.
Defined.

(** CSI 1 J with the cursor at column 1 of the second of two lines abcd:
    the first line loses its cells, the second its first two. *)
Lemma erase_up_to_cursor_witness :
  let s := MkScreen 1 1 [line_abcd; line_abcd] style_zero [] 0 0 5 5 false
             [] 0 0 0 0 0 in
  let l1 := set_nodes (replicate 2 emptyNode
                         ++ drop 2 (nodes line_abcd)) line_abcd in
  (sized s /\ currentLine s = Some 1
   /\ screen s !! Z.to_nat 1 = Some line_abcd
   /\ 0 <= y s <= GoInt.max_int
   /\ clear screenStartOfLine (x s) line_abcd = Ok l1)
  /\ exists scr',
       applyEscape (rune_of "J") [bytes "1"] s = Ok (set_screen scr' s)
       /\ scr' !! 0%nat = Some (set_nodes [] line_abcd)
       /\ scr' !! 1%nat = Some l1.
Proof.
  cbv zeta.
  assert (H : let s := MkScreen 1 1 [line_abcd; line_abcd] style_zero [] 0 0
                         5 5 false [] 0 0 0 0 0 in
              sized s /\ currentLine s = Some 1
              /\ screen s !! Z.to_nat 1 = Some line_abcd
              /\ 0 <= y s <= GoInt.max_int
              /\ clear screenStartOfLine (x s) line_abcd
                 = Ok (set_nodes (replicate 2 emptyNode
                                    ++ drop 2 (nodes line_abcd)) line_abcd)).
  { cbv zeta. unfold sized. vm_compute.
    repeat split; intros; congruence. }
  cbv zeta in H. split; [exact H|]. destruct H as (H1 & H2 & H3 & H4 & H5).
  destruct (erase_up_to_cursor _ 1 line_abcd _ H1 H2 H3 H4 H5)
    as (scr' & Hrun & _ & Hrow & Habove & _).
  exists scr'. split; [exact Hrun|]. split; [|exact Hrow].
  apply (Habove 0%nat line_abcd); [reflexivity|].
  vm_compute. split; congruence.
Defined.

(** CSI ? 2 5 J: the screen is as it was. *)
Lemma private_sequence_ignored_witness :
  (idle screen5x5 /\ forallb param_byte (bytes "25") = true
   /\ final_byte "J" = true /\ (4 + length (bytes "25") <= 9)%nat)
  /\ res_map scr
       (state_after
          (Write 9 (ESC :: "["%byte :: ("?"%byte :: bytes "25") ++ ["J"%byte])
             screen5x5))
     = Ok (scr screen5x5).
Proof.
  assert (H : idle screen5x5 /\ forallb param_byte (bytes "25") = true
              /\ final_byte "J" = true
              /\ (4 + length (bytes "25") <= 9)%nat).
  { split; [repeat split|]. split; [reflexivity|].
    split; [reflexivity|]. vm_compute. lia. }
  split; [exact H|]. destruct H as (H1 & H2 & H3 & H4).
  pose proof (private_sequence_ignored (bytes "25") "J" screen5x5 9
                H1 H2 H3 H4) as Hrun.
  cbv zeta in Hrun. rewrite Hrun. reflexivity.
Defined.

(** The parameters 42, the empty one, ?25 and a number beyond the range
    of int. *)
Lemma ansiInt_parameter_witness :
  forallb (fun b => rune_in (b2z b) "?0123456789")
    (bytes "99999999999999999999") = true
  /\ 0 <= ansiInt (bytes "99999999999999999999") <= GoInt.max_int
  /\ ansiInt (bytes "99999999999999999999") = 1
  /\ ansiInt (bytes "42") = 42 /\ ansiInt (bytes "?25") = 1.
Proof.
  assert (H : forallb (fun b => rune_in (b2z b) "?0123456789")
                (bytes "99999999999999999999") = true) by reflexivity.
  split; [exact H|].
  destruct (ansiInt_parameter (bytes "99999999999999999999") H)
    as (Hrange & _ & Hbig).
  split; [exact Hrange|]. split; [|split; reflexivity].
  apply (Hbig 99999999999999999999); [reflexivity|].
  vm_compute. reflexivity.
Defined.

(** "hi" appended at column 2 of row 1 of an empty buffer: two lines are
    added, the second one is two empty cells, h and i, and the cursor is
    at column 4. *)
Lemma appendMany_stores_runes_witness :
  let s := set_y 1 (set_x 2 (scr screen5x5)) in
  (sized s /\ window_fits s /\ 0 <= y s < lines s /\ 0 <= x s
   /\ x s + len [104; 105] <= GoInt.max_int /\ [104; 105] <> []
   /\ (missing_lines s <= 2)%nat)
  /\ exists (yidx : nat) (line' : screenLine),
       appendMany 2 [104; 105] s
       = Ok (set_x 4
               (set_screen (<[yidx := line']> (with_missing_lines s)) s))
       /\ Z.of_nat yidx = 1
       /\ map blob (nodes line') = [32; 32; 104; 105].
Proof.
  cbv zeta.
  assert (H : let s := set_y 1 (set_x 2 (scr screen5x5)) in
              sized s /\ window_fits s /\ 0 <= y s < lines s /\ 0 <= x s
              /\ x s + len [104; 105] <= GoInt.max_int
              /\ (missing_lines s <= 2)%nat).
  { cbv zeta. unfold sized, window_fits. vm_compute.
    repeat split; intros; (congruence || lia). }
  cbv zeta in H. destruct H as (H1 & H2 & H3 & H4 & H5 & H6).
  assert (Hne : [104; 105] <> @nil Z) by discriminate.
  split; [repeat split; try assumption; apply H1 || apply H2 || apply H3|].
  destruct (appendMany_stores_runes 2 [104; 105] _ H1 H2 H3 H4 H5 Hne H6)
    as (yidx & line & line' & Hline & Hy & Hrun & Hn & _).
  exists yidx, line'. split; [exact Hrun|].
  split; [rewrite Hy; reflexivity|].
  assert (Hl : line = newScreenLine []).
  { vm_compute in Hline.
    destruct yidx as [|[|?]]; cbn in Hline;
      first [discriminate | injection Hline as <-; reflexivity]. }
  rewrite Hn, Hl. reflexivity.
Defined.

(** A buffer of two lines at its limit of two, with the cursor below the
    window: the first line is scrolled out. *)
Lemma write_below_window_scrolls_witness :
  let s := MkScreen 0 2 [line_abcd; newScreenLine []] style_zero [] 2 0 160
             2 true [] 0 0 0 0 0 in
  (sized s /\ y s = lines s /\ lines s <= len (screen s)
   /\ len (screen s) < GoInt.max_int /\ (1 <= 1)%nat
   /\ (maxLines s <=? 0) || (len (screen s) + 1 <=? maxLines s) = false)
  /\ res_map
       (fun s' => (glyphs s', y s', LinesScrolledOut s', scrollOutCalls s'))
       (allocLines 1 s)
     = Ok ([[]; []], 1, 1, [bytes "abcd"]).
Proof.
  cbv zeta.
  assert (H : let s := MkScreen 0 2 [line_abcd; newScreenLine []] style_zero
                         [] 2 0 160 2 true [] 0 0 0 0 0 in
              sized s /\ y s = lines s /\ lines s <= len (screen s)
              /\ len (screen s) < GoInt.max_int /\ (1 <= 1)%nat
              /\ (maxLines s <=? 0) || (len (screen s) + 1 <=? maxLines s)
                 = false).
  { cbv zeta. unfold sized. vm_compute.
    repeat split; intros; (congruence || lia). }
  cbv zeta in H. split; [exact H|].
  destruct H as (H1 & H2 & H3 & H4 & H5 & H6).
  destruct (write_below_window_scrolls 1 _ H1 H2 H3 H4 H5) as [_ Hrot].
  destruct (Hrot H6) as (line0 & rest & Hscr & Hrun).
  rewrite Hrun. cbn [screen] in Hscr. injection Hscr as <- <-.
  reflexivity.
Defined.

(** "hi" written to a new screen: one line is added, with the cells h and
    i, and the cursor is at column 2. *)
Lemma Write_text_on_screen_witness :
  let text := bytes "hi" in
  (idle freshScreen /\ forallb plain_byte text = true /\ text <> []
   /\ sized (scr freshScreen) /\ window_fits (scr freshScreen)
   /\ 0 <= y (scr freshScreen) < lines (scr freshScreen)
   /\ 0 <= x (scr freshScreen)
   /\ x (scr freshScreen) + len text <= GoInt.max_int
   /\ (length text <= 2)%nat /\ (missing_lines (scr freshScreen) <= 2)%nat)
  /\ exists (st' : parser),
       state_after (Write 2 text freshScreen) = Ok st'
       /\ idle st' /\ glyphs (scr st') = [[104; 105]]
       /\ cursorXY (scr st') = (2, 0).
Proof.
  cbv zeta.
  assert (H : idle freshScreen /\ forallb plain_byte (bytes "hi") = true
              /\ sized (scr freshScreen) /\ window_fits (scr freshScreen)
              /\ 0 <= y (scr freshScreen) < lines (scr freshScreen)
              /\ 0 <= x (scr freshScreen)
              /\ x (scr freshScreen) + len (bytes "hi") <= GoInt.max_int
              /\ (length (bytes "hi") <= 2)%nat
              /\ (missing_lines (scr freshScreen) <= 2)%nat).
  { split; [repeat split|]. split; [reflexivity|].
    unfold sized, window_fits. vm_compute.
    repeat split; intros; (congruence || lia). }
  destruct H as (H1 & H2 & H3 & H4 & H5 & H6 & H7 & H8 & H9).
  assert (Hne : bytes "hi" <> []) by discriminate.
  split; [repeat split; try assumption;
          apply H3 || apply H4 || apply H5|].
  destruct (Write_text_on_screen _ freshScreen 2 H1 H2 Hne H3 H4 H5 H6 H7
              H8 H9)
    as (yidx & line & line' & st' & Hline & Hy & Hrun & Hidle & Hscr & Hn
        & _).
  exists st'. split; [exact Hrun|]. split; [exact Hidle|].
  assert (Hv : Z.max 0 (len (with_missing_lines (scr freshScreen))
                        - lines (scr freshScreen))
               + y (scr freshScreen) = 0) by (vm_compute; reflexivity).
  assert (Hyi : yidx = 0%nat) by (rewrite Hv in Hy; lia). subst yidx.
  assert (Hl : line = newScreenLine []).
  { vm_compute in Hline. injection Hline as <-. reflexivity. }
  rewrite Hscr. unfold glyphs, cursorXY. cbn [screen set_screen set_x x y].
  split; [|reflexivity].
  change (with_missing_lines (scr freshScreen)) with [newScreenLine []].
  cbn [insert list_insert map]. rewrite Hn, Hl. reflexivity.
Defined.


